(** * Email Fournisseurs Automation

  A shallow embedding of the batch pipeline of the repository
  ([src/email_processor.py]), of the Outlook gateway
  ([src/outlook_handler.py]), of the attachment merge
  ([src/pdf_generator.py]) and of the text sanitizer
  ([src/utils/sanitize.py]), with the properties of the specification
  stated and settled on the embedding. *)

From Stdlib Require Import List NArith ZArith Arith Lia Bool String Ascii.
From Stdlib Require Decimal DecimalNat.
Import ListNotations.

(* ===================================================================== *)
(** * Python strings *)
(* ===================================================================== *)

(** A Python [str] is a sequence of Unicode code points. *)
Definition char := N.
Definition pystr := list char.

(** Literals of the source, written as Rocq strings (ASCII only). *)
Definition py (s : string) : pystr := map N_of_ascii (list_ascii_of_string s).

Module PyStr.

(** [a == b] *)
Fixpoint eqb (a b : pystr) : bool :=
  match a, b with
  | [], [] => true
  | x :: a', y :: b' => N.eqb x y && eqb a' b'
  | _, _ => false
  end.

(** [bool(s)]: the empty string is falsy. *)
Definition truthy (s : pystr) : bool :=
  match s with [] => false | _ :: _ => true end.

(** [c in chars] for a set of characters given as a string. *)
Definition mem (c : char) (chars : pystr) : bool := existsb (N.eqb c) chars.

(** [unicodedata.category(c) == 'Cc']: the C0 and C1 controls and DEL. *)
Definition is_control (c : char) : bool :=
  ((c <=? 31) || ((127 <=? c) && (c <=? 159)))%N.

(** [str.isspace] on one code point, which is also the class [\s] of [re]
    on [str] patterns (CPython's [Py_UNICODE_ISSPACE]). *)
Definition is_space (c : char) : bool :=
  (((9 <=? c) && (c <=? 13)) || ((28 <=? c) && (c <=? 32))
   || (c =? 133) || (c =? 160) || (c =? 5760)
   || ((8192 <=? c) && (c <=? 8202))
   || (c =? 8232) || (c =? 8233) || (c =? 8239) || (c =? 8287)
   || (c =? 12288))%N.

Definition space : char := 32%N.

(** [s.startswith(p)] *)
Fixpoint starts_with (p s : pystr) : bool :=
  match p, s with
  | [], _ => true
  | _ :: _, [] => false
  | a :: p', b :: s' => N.eqb a b && starts_with p' s'
  end.

(** [p in s]: substring test, scanning from the left. *)
Fixpoint contains (p s : pystr) : bool :=
  starts_with p s ||
  match s with
  | [] => false
  | _ :: s' => contains p s'
  end.

(** Left-to-right scan of [str.replace] for a non-empty [old]; [skip]
    counts the characters of a match that are still to be consumed. *)
Fixpoint replace_from (old new : pystr) (skip : nat) (s : pystr) : pystr :=
  match s with
  | [] => []
  | c :: r =>
      match skip with
      | S k => replace_from old new k r
      | O => if starts_with old s
             then new ++ replace_from old new (List.length old - 1) r
             else c :: replace_from old new 0 r
      end
  end.

(** [s.replace(old, new)]: every non-overlapping occurrence, from the
    left; an empty [old] matches before every character and at the end. *)
Definition replace (old new s : pystr) : pystr :=
  match old with
  | [] => new ++ flat_map (fun c => c :: new) s
  | _ :: _ => replace_from old new 0 s
  end.

Fixpoint drop_while (p : char -> bool) (s : pystr) : pystr :=
  match s with
  | [] => []
  | c :: r => if p c then drop_while p r else s
  end.

Definition lstrip_by (p : char -> bool) (s : pystr) : pystr := drop_while p s.
Definition rstrip_by (p : char -> bool) (s : pystr) : pystr :=
  rev (drop_while p (rev s)).

(** [s.strip(chars)] *)
Definition strip_chars (chars s : pystr) : pystr :=
  rstrip_by (fun c => mem c chars) (lstrip_by (fun c => mem c chars) s).

(** [s.strip()] *)
Definition strip (s : pystr) : pystr :=
  rstrip_by is_space (lstrip_by is_space s).

(** [re.sub(r'\s+', ' ', s)]: every maximal run of whitespace becomes one
    space; [in_run] tells that the run's space was already emitted. *)
Fixpoint sub_spaces (in_run : bool) (s : pystr) : pystr :=
  match s with
  | [] => []
  | c :: r =>
      if is_space c
      then (if in_run then sub_spaces true r else space :: sub_spaces true r)
      else c :: sub_spaces false r
  end.

(** [s.split(sep)] for a one-character separator; [cur] is the field
    being read. *)
Fixpoint split_from (sep : char) (cur : pystr) (s : pystr) : list pystr :=
  match s with
  | [] => [rev cur]
  | c :: r => if N.eqb c sep then rev cur :: split_from sep [] r
              else split_from sep (c :: cur) r
  end.

Definition split (sep : char) (s : pystr) : list pystr := split_from sep [] s.

(** [s.endswith(p)] *)
Definition ends_with (p s : pystr) : bool := starts_with (rev p) (rev s).

(** [str.lower] on the ASCII letters; other code points are kept. *)
Definition ascii_lower (s : pystr) : pystr :=
  map (fun c => if ((65 <=? c) && (c <=? 90))%N then (c + 32)%N else c) s.

(** A string that starts with no character of [p], or is empty. *)
Definition head_kept (p : char -> bool) (s : pystr) : Prop :=
  match s with [] => True | c :: _ => p c = false end.

(** Whitespace in normal form: only single spaces, never two in a row;
    [prev] tells that the character before was a space. *)
Fixpoint spaces_normal (prev : bool) (s : pystr) : bool :=
  match s with
  | [] => true
  | c :: r =>
      if is_space c
      then N.eqb c space && negb prev && spaces_normal true r
      else spaces_normal false r
  end.

End PyStr.

(* ===================================================================== *)
(** * utils/sanitize.py *)
(* ===================================================================== *)

Module Sanitize.

(** [FORBIDDEN_CHARS]: < > : double-quote / backslash | ? * *)
Definition FORBIDDEN_CHARS : list char :=
  [60; 62; 58; 34; 47; 92; 124; 63; 42]%N.

Definition sanitize_text (text replacement : pystr) : pystr :=
  if negb (PyStr.truthy text) then []
  else
    let text := fold_left (fun t ch => PyStr.replace [ch] replacement t)
                          FORBIDDEN_CHARS text in
    let text := filter (fun ch => negb (PyStr.is_control ch)) text in
    let text := PyStr.sub_spaces false text in
    PyStr.strip_chars (py ". ") text.

(** The default value of [replacement]. *)
Definition underscore : pystr := py "_".

Definition validate_keywords (keywords_str : pystr) : list pystr :=
  if negb (PyStr.truthy keywords_str) then []
  else
    let keywords := map PyStr.strip (PyStr.split 44%N keywords_str) in
    filter PyStr.truthy keywords.

(** The passes of [sanitize_text] on one character, and what holds of
    every character of its result. *)
Definition subst (c : char) : char :=
  if PyStr.mem c FORBIDDEN_CHARS then 95%N else c.
Definition printable (c : char) : bool := negb (PyStr.is_control c).
Definition tidy (c : char) : Prop :=
  PyStr.mem c FORBIDDEN_CHARS = false /\ PyStr.is_control c = false.

End Sanitize.

(* ===================================================================== *)
(** * Exceptions, effects and the trace of a run *)
(* ===================================================================== *)

(** The exception classes that the pipeline tells apart. *)
Inductive exn : Type :=
| ComError (msg : pystr)            (* pywintypes.com_error: a provider round trip failed *)
| OutlookError (msg : pystr)        (* outlook_handler.OutlookError *)
| PDFGeneratorError (msg : pystr)   (* pdf_generator.PDFGeneratorError *)
| OtherError (msg : pystr).         (* any other Exception: OSError, TypeError, ... *)

(** [str(e)] *)
Definition str_of_exn (e : exn) : pystr :=
  match e with
  | ComError m | OutlookError m | PDFGeneratorError m | OtherError m => m
  end.

(** The answer of a provider round trip (a COM call). *)
Inductive com (A : Type) : Type :=
| ComOk (a : A)
| ComFail (cause : pystr).
Arguments ComOk {A} a.
Arguments ComFail {A} cause.

(** The answer of any other fallible call. *)
Inductive pyresult (A : Type) : Type :=
| Value (a : A)
| Raises (e : exn).
Arguments Value {A} a.
Arguments Raises {A} e.

(** How a block of statements ends: it falls through with a value, it
    executes a [return] statement, or it raises. *)
Inductive outcome (A : Type) : Type :=
| Val (a : A)
| Ret
| Exc (e : exn).
Arguments Val {A} a.
Arguments Ret {A}.
Arguments Exc {A} e.

(** Statements over a mutable state [S]. *)
Definition Py (S A : Type) : Type := S -> outcome A * S.

Module PyMonad.

Definition ret {S A} (a : A) : Py S A := fun s => (Val a, s).

Definition bind {S A B} (m : Py S A) (k : A -> Py S B) : Py S B :=
  fun s =>
    match m s with
    | (Val a, s') => k a s'
    | (Ret, s') => (Ret, s')
    | (Exc e, s') => (Exc e, s')
    end.

Definition raise {S A} (e : exn) : Py S A := fun s => (Exc e, s).

(** A [return] statement; the function's value is read when it ends. *)
Definition return_ {S A} : Py S A := fun s => (Ret, s).

Definition gets {S A} (f : S -> A) : Py S A := fun s => (Val (f s), s).
Definition modify {S} (f : S -> S) : Py S unit := fun s => (Val tt, f s).

(** [if b: m] *)
Definition when {S} (b : bool) (m : Py S unit) : Py S unit :=
  if b then m else ret tt.

(** [try: m  except <classes of h>: h e]; the handler re-raises what its
    [except] clauses do not name. *)
Definition try_except {S A} (m : Py S A) (h : exn -> Py S A) : Py S A :=
  fun s =>
    match m s with
    | (Exc e, s') => h e s'
    | r => r
    end.

(** [try: m  finally: f] *)
Definition try_finally {S A} (m : Py S A) (f : Py S unit) : Py S A :=
  fun s =>
    match m s with
    | (o, s') =>
        match f s' with
        | (Val _, s'') => (o, s'')
        | (Ret, s'') => (Ret, s'')
        | (Exc e, s'') => (Exc e, s'')
        end
    end.

(** A function body whose [return] statements all return [value]. *)
Definition call {S A} (body : Py S unit) (value : S -> A) : Py S A :=
  fun s =>
    match body s with
    | (Val _, s') | (Ret, s') => (Val (value s'), s')
    | (Exc e, s') => (Exc e, s')
    end.

(** A function body with a local variable of type [L], initialised to
    [l0], whose [return] statements all return that variable. *)
Definition call_local {S L} (l0 : L) (body : Py (L * S) unit) : Py S L :=
  fun s =>
    match body (l0, s) with
    | (Val _, (l, s')) | (Ret, (l, s')) => (Val l, s')
    | (Exc e, (_, s')) => (Exc e, s')
    end.

(** A statement on the outer state, inside such a block. *)
Definition outer {S L A} (m : Py S A) : Py (L * S) A :=
  fun ls => match m (snd ls) with (o, s') => (o, (fst ls, s')) end.

(** A statement on the local variable. *)
Definition local {S L} (f : L -> L) : Py (L * S) unit :=
  fun ls => (Val tt, (f (fst ls), snd ls)).

End PyMonad.

Import PyMonad.

Declare Scope py_scope.
Delimit Scope py_scope with py.
Notation "x <- m ;; k" := (bind m (fun x => k))
  (at level 61, m at next level, right associativity) : py_scope.
Notation "m ;; k" := (bind m (fun _ => k))
  (at level 61, right associativity) : py_scope.
Open Scope py_scope.

(* ===================================================================== *)
(** * Data model *)
(* ===================================================================== *)

(** Accented letters of the source's messages. *)
Definition a_grave : char := 224%N.
Definition e_acute : char := 233%N.

Inductive ProcessingStatus : Type :=
| PENDING | IN_PROGRESS | SUCCESS | FAILED | SKIPPED.

Record ProcessingResult : Type := mkResult {
  email_subject : pystr;
  email_sender : pystr;
  status : ProcessingStatus;
  pdf_path : option pystr;
  error_message : option pystr }.

Record ProcessingStats : Type := mkStats {
  total : nat;
  processed : nat;
  success : nat;
  failed : nat;
  skipped : nat }.

(** The colours asked for by [process_emails]. *)
Inductive color : Type := green | red.

(** The places where the cancellation flag is read. *)
Inductive checkpoint : Type :=
| AtLoopHead          (* [if self._should_stop: break] *)
| BeforeStart         (* first [_check_stop()] of a message *)
| BeforeAttachments
| BeforePdf
| BeforeMove.

(** What a run does to the outside: callbacks, provider round trips, file
    system calls, and the reads of the cancellation flag. *)
Inductive event : Type :=
| EvStatus (text : pystr)
| EvProgress (current total : nat) (message : pystr)
| EvStopRead (site : checkpoint) (flag : bool)
| EvMkdtemp
| EvConnect (ok : bool)
| EvEnsureCategory (name : pystr) (c : color) (ok : bool)
| EvSearch
| EvSaveAttachments (mail : nat)
| EvGeneratePdf (mail : nat) (ok : bool)
| EvSetCategory (mail : nat) (category : pystr) (ok : bool)
| EvMarkRead (mail : nat) (ok : bool)
| EvMove (mail : nat) (folder : nat) (ok : bool)
| EvRmtree.

(** An Outlook mail item behind [EmailItem], with the answers of the
    provider for this item.  The accessors of [EmailItem] swallow provider
    failures, so [subject], [sender], [sender_name], [body] and
    [has_attachments] are the values they return. *)
Record EmailItem : Type := mkEmail {
  mail_id : nat;
  subject : pystr;
  sender : pystr;
  sender_name : pystr;
  body : pystr;
  has_attachments : bool;
  (** [received_time]: the property catches [com_error] only. *)
  ReceivedTime : pyresult (option pystr);
  (** [save_attachments]: the files saved (a provider failure is swallowed
      and ends the list), or the error of [os.makedirs]. *)
  SaveAsFile : pyresult (list pystr);
  (** [_mail.Categories = category; _mail.Save()] *)
  SetCategories : pystr -> com unit;
  (** [_mail.UnRead = False; _mail.Save()] *)
  SetRead : com unit;
  (** [_mail.Move(target_folder)] *)
  Move : nat -> com unit }.

(** The processor with its gateway: the fields of [EmailProcessor], the
    connection flag of [OutlookHandler], the mailbox's category list, and
    the trace of the events so far, oldest first. *)
Record world : Type := mkWorld {
  stats : ProcessingStats;
  results : list ProcessingResult;
  _is_running : bool;
  _should_stop : bool;
  _temp_dir : option pystr;
  connected : bool;
  categories : list pystr;
  trace : list event }.

Definition set_stats (f : ProcessingStats -> ProcessingStats) (w : world) : world :=
  mkWorld (f (stats w)) (results w) (_is_running w) (_should_stop w)
          (_temp_dir w) (connected w) (categories w) (trace w).
Definition set_results (f : list ProcessingResult -> list ProcessingResult)
  (w : world) : world :=
  mkWorld (stats w) (f (results w)) (_is_running w) (_should_stop w)
          (_temp_dir w) (connected w) (categories w) (trace w).
Definition set_is_running (b : bool) (w : world) : world :=
  mkWorld (stats w) (results w) b (_should_stop w)
          (_temp_dir w) (connected w) (categories w) (trace w).
Definition set_should_stop (b : bool) (w : world) : world :=
  mkWorld (stats w) (results w) (_is_running w) b
          (_temp_dir w) (connected w) (categories w) (trace w).
Definition set_temp_dir (d : option pystr) (w : world) : world :=
  mkWorld (stats w) (results w) (_is_running w) (_should_stop w)
          d (connected w) (categories w) (trace w).
Definition set_connected (b : bool) (w : world) : world :=
  mkWorld (stats w) (results w) (_is_running w) (_should_stop w)
          (_temp_dir w) b (categories w) (trace w).
Definition set_categories (f : list pystr -> list pystr) (w : world) : world :=
  mkWorld (stats w) (results w) (_is_running w) (_should_stop w)
          (_temp_dir w) (connected w) (f (categories w)) (trace w).
Definition add_event (e : event) (w : world) : world :=
  mkWorld (stats w) (results w) (_is_running w) (_should_stop w)
          (_temp_dir w) (connected w) (categories w) (trace w ++ [e]).

(** The updates are always unfolded: a state is read field by field. *)
Arguments set_stats f w /.
Arguments set_results f w /.
Arguments set_is_running b w /.
Arguments set_should_stop b w /.
Arguments set_temp_dir d w /.
Arguments set_connected b w /.
Arguments set_categories f w /.
Arguments add_event e w /.

Definition emit (e : event) : Py world unit := modify (add_event e).

(** What surrounds the processor.  [stop_requested w] tells whether the
    initiating side has called [stop] by the time the worker, in state [w],
    reads the flag. *)
Record env : Type := mkEnv {
  stop_requested : world -> bool;
  (** [tempfile.mkdtemp] *)
  mkdtemp : pyresult pystr;
  (** [win32com.client.Dispatch] and [GetNamespace] *)
  Dispatch : com unit;
  (** the provider round trip of [ensure_category_exists] *)
  AddCategory : pystr -> color -> com unit;
  (** [Folders[name]] under the namespace ([None]) or under a folder *)
  Folders : option nat -> pystr -> com nat;
  (** what [filter_emails] answers to the search of the batch *)
  search_answer : pyresult (list EmailItem);
  (** what [PDFGenerator.generate_email_pdf] answers for a message *)
  pdf_answer : EmailItem -> option pystr -> list pystr -> pyresult pystr }.

(** A provider round trip: a failure is a [com_error]. *)
Definition round_trip {S A} (r : com A) : Py S A :=
  match r with
  | ComOk a => ret a
  | ComFail cause => raise (ComError cause)
  end.

(** Any other fallible call. *)
Definition attempt {S A} (r : pyresult A) : Py S A :=
  match r with
  | Value a => ret a
  | Raises e => raise e
  end.

(* ===================================================================== *)
(** * outlook_handler.py *)
(* ===================================================================== *)

Module Outlook.

Definition msg_set_category (cause : pystr) : pystr :=
  py "Impossible de d" ++ [e_acute] ++ py "finir la cat" ++ [e_acute]
  ++ py "gorie: " ++ cause.

Definition msg_connect (cause : pystr) : pystr :=
  py "Connexion Outlook " ++ [e_acute] ++ py "chou" ++ [e_acute] ++ py "e: " ++ cause.

Definition msg_folder (folder_path : pystr) : pystr :=
  py "Dossier '" ++ folder_path ++ py "' introuvable".

(** [EmailItem.set_category] *)
Definition set_category (email : EmailItem) (category : pystr) : Py world unit :=
  try_except
    (round_trip (SetCategories email category) ;;
     emit (EvSetCategory (mail_id email) category true))
    (fun e =>
       match e with
       | ComError _ =>
           emit (EvSetCategory (mail_id email) category false) ;;
           raise (OutlookError (msg_set_category (str_of_exn e)))
       | _ => raise e
       end).

(** [EmailItem.mark_as_read] *)
Definition mark_as_read (email : EmailItem) : Py world unit :=
  try_except
    (round_trip (SetRead email) ;;
     emit (EvMarkRead (mail_id email) true))
    (fun e =>
       match e with
       | ComError _ => emit (EvMarkRead (mail_id email) false)
       | _ => raise e
       end).

(** [EmailItem.move_to] *)
Definition move_to (email : EmailItem) (target_folder : nat) : Py world bool :=
  try_except
    (round_trip (Move email target_folder) ;;
     emit (EvMove (mail_id email) target_folder true) ;;
     ret true)
    (fun e =>
       match e with
       | ComError _ =>
           emit (EvMove (mail_id email) target_folder false) ;;
           ret false
       | _ => raise e
       end).

(** [EmailItem.save_attachments] *)
Definition save_attachments (email : EmailItem) : Py world (list pystr) :=
  emit (EvSaveAttachments (mail_id email)) ;;
  attempt (SaveAsFile email).

(** [EmailItem.received_time] *)
Definition received_time (email : EmailItem) : Py world (option pystr) :=
  attempt (ReceivedTime email).

(** [OutlookHandler.is_connected] *)
Definition is_connected : Py world bool := gets connected.

(** [OutlookHandler.connect] *)
Definition connect (E : env) : Py world bool :=
  try_except
    (round_trip (Dispatch E) ;;
     modify (set_connected true) ;;
     emit (EvConnect true) ;;
     ret true)
    (fun e =>
       match e with
       | ComError _ =>
           modify (set_connected false) ;;
           emit (EvConnect false) ;;
           raise (OutlookError (msg_connect (str_of_exn e)))
       | _ => raise e
       end).

(** The category list with [name] in it. *)
Definition add_if_absent (name : pystr) (cs : list pystr) : list pystr :=
  if existsb (PyStr.eqb name) cs then cs else cs ++ [name].

(** Modelled from the spec: [OutlookHandler.ensure_category_exists], which
    [process_emails] calls and src/outlook_handler.py does not define.  It
    "creates a named tag if absent" and "fails with ProviderError". *)
Definition ensure_category_exists (E : env) (name : pystr) (c : color)
  : Py world unit :=
  try_except
    (round_trip (AddCategory E name c) ;;
     modify (set_categories (add_if_absent name)) ;;
     emit (EvEnsureCategory name c true))
    (fun e =>
       match e with
       | ComError _ =>
           emit (EvEnsureCategory name c false) ;;
           raise (OutlookError (str_of_exn e))
       | _ => raise e
       end).

(** The loop of [get_folder_by_path] over the sub-folders. *)
Fixpoint walk_folders (E : env) (current : nat) (parts : list pystr)
  : Py world nat :=
  match parts with
  | [] => ret current
  | part :: rest =>
      next <- round_trip (Folders E (Some current) part) ;;
      walk_folders E next rest
  end.

(** [OutlookHandler.get_folder_by_path] *)
Definition get_folder_by_path (E : env) (folder_path : pystr) : Py world nat :=
  c <- is_connected ;;
  (if negb c then _ <- connect E ;; ret tt else ret tt) ;;
  try_except
    (let path_parts := filter PyStr.truthy (PyStr.split 92%N folder_path) in
     match path_parts with
     | [] => raise (OutlookError (py "Chemin de dossier vide"))
     | first :: rest =>
         current <- round_trip (Folders E None first) ;;
         walk_folders E current rest
     end)
    (fun e =>
       match e with
       | ComError _ => raise (OutlookError (msg_folder folder_path))
       | _ => raise e
       end).

(** An item of a folder, as [filter_emails] reads it. *)
Record OutlookItem : Type := mkItem {
  item_id : nat;
  Class : com N;
  UnRead : com bool;
  Subject : com (option pystr) }.

Section FilterEmails.

(** [str.lower] *)
Variable lower : pystr -> pystr.

(** [any(kw.lower() in subject_lower for kw in keywords)] *)
Definition any_keyword (keywords : list pystr) (subject_lower : pystr) : bool :=
  existsb (fun kw => PyStr.contains (lower kw) subject_lower) keywords.

(** The body of the loop of [filter_emails]; the local variable is
    [filtered_emails]. *)
Definition scan_item (keywords : list pystr) (unread_only : bool)
  (item : OutlookItem) : Py (list OutlookItem * world) unit :=
  try_except
    (cls <- round_trip (Class item) ;;
     if negb (N.eqb cls 43) then ret tt
     else
       skip <- (if unread_only
                then unread <- round_trip (UnRead item) ;; ret (negb unread)
                else ret false) ;;
       if skip then ret tt
       else
         subj <- round_trip (Subject item) ;;
         let subject := match subj with Some t => t | None => [] end in
         let subject_lower := lower subject in
         when (any_keyword keywords subject_lower)
              (local (fun filtered_emails => filtered_emails ++ [item])))
    (fun e =>
       match e with
       | ComError _ => ret tt
       | _ => raise e
       end).

Fixpoint for_items (keywords : list pystr) (unread_only : bool)
  (items : list OutlookItem) : Py (list OutlookItem * world) unit :=
  match items with
  | [] => ret tt
  | item :: rest =>
      scan_item keywords unread_only item ;;
      for_items keywords unread_only rest
  end.

(** [OutlookHandler.filter_emails]; [folder_items] is what the folder
    lookup, [folder.Items] and [items.Sort] answer. *)
Definition filter_emails (E : env) (folder_items : pyresult (list OutlookItem))
  (keywords : list pystr) (unread_only : bool) : Py world (list OutlookItem) :=
  c <- is_connected ;;
  (if negb c then _ <- connect E ;; ret tt else ret tt) ;;
  call_local []
    (try_except
       (items <- attempt folder_items ;;
        for_items keywords unread_only items)
       (fun e =>
          match e with
          | ComError _ => ret tt
          | _ => raise e
          end)).

End FilterEmails.

End Outlook.

(* ===================================================================== *)
(** * email_processor.py *)
(* ===================================================================== *)

Module Processor.

Definition error_category : pystr := py "Erreur traitement".

Definition msg_interrupted : pystr := py "Traitement interrompu par l'utilisateur".
Definition msg_no_connection : pystr :=
  py "Impossible de se connecter " ++ [a_grave] ++ py " Outlook".
Definition msg_pdf_error (e : exn) : pystr :=
  py "Erreur g" ++ [e_acute] ++ py "n" ++ [e_acute] ++ py "ration PDF: "
  ++ str_of_exn e.
Definition msg_outlook_error (e : exn) : pystr := py "Erreur Outlook: " ++ str_of_exn e.
Definition msg_unexpected (e : exn) : pystr := py "Erreur inattendue: " ++ str_of_exn e.

Definition status_connecting : pystr := py "Connexion " ++ [a_grave] ++ py " Outlook...".
Definition status_searching : pystr := py "Recherche des emails...".
Definition status_none_found : pystr := py "Aucun email trouv" ++ [e_acute].
Definition status_finished : pystr := py "Traitement termin" ++ [e_acute].
Definition status_error (e : exn) : pystr := py "Erreur: " ++ str_of_exn e.
Definition progress_message (email : EmailItem) : pystr :=
  py "Traitement: " ++ firstn 40 (subject email) ++ py "...".

(** [ProcessingStats()] *)
Definition new_stats : ProcessingStats := mkStats 0 0 0 0 0.

Definition set_total (n : nat) (st : ProcessingStats) : ProcessingStats :=
  mkStats n (processed st) (success st) (failed st) (skipped st).

(** [stats.processed += 1] and the counter of the result's status. *)
Definition count_result (r : ProcessingResult) (st : ProcessingStats)
  : ProcessingStats :=
  let st := mkStats (total st) (processed st + 1) (success st) (failed st)
                    (skipped st) in
  match status r with
  | SUCCESS => mkStats (total st) (processed st) (success st + 1) (failed st)
                       (skipped st)
  | FAILED => mkStats (total st) (processed st) (success st) (failed st + 1)
                      (skipped st)
  | _ => mkStats (total st) (processed st) (success st) (failed st)
                 (skipped st + 1)
  end.

Definition set_status (st : ProcessingStatus) (r : ProcessingResult)
  : ProcessingResult :=
  mkResult (email_subject r) (email_sender r) st (pdf_path r) (error_message r).
Definition set_pdf_path (path : pystr) (r : ProcessingResult) : ProcessingResult :=
  mkResult (email_subject r) (email_sender r) (status r) (Some path)
           (error_message r).
Definition set_error_message (m : pystr) (r : ProcessingResult)
  : ProcessingResult :=
  mkResult (email_subject r) (email_sender r) (status r) (pdf_path r) (Some m).

(** [EmailProcessor.stop], called by the initiating side. *)
Definition stop (w : world) : world := set_should_stop true w.

(** A read of [self._should_stop] at [site]: a [stop] called by then has set
    the flag, and the flag stays set until the next run resets it. *)
Definition read_should_stop (E : env) (site : checkpoint) : Py world bool :=
  modify (fun w => if stop_requested E w then stop w else w) ;;
  flag <- gets _should_stop ;;
  emit (EvStopRead site flag) ;;
  ret flag.

(** [EmailProcessor._check_stop] *)
Definition _check_stop (E : env) (site : checkpoint) : Py world bool :=
  read_should_stop E site.

Definition _report_status (text : pystr) : Py world unit := emit (EvStatus text).
Definition _report_progress (current total : nat) (message : pystr)
  : Py world unit :=
  emit (EvProgress current total message).

(** [EmailProcessor.connect_outlook] *)
Definition connect_outlook (E : env) : Py world bool :=
  try_except
    (_ <- Outlook.connect E ;; ret true)
    (fun e =>
       match e with
       | OutlookError _ => ret false
       | _ => raise e
       end).

(** [EmailProcessor.get_matching_emails].  The call hands a date range to
    [filter_emails], which the handler of src/outlook_handler.py does not
    take; the batch takes the answer of the search from the environment. *)
Definition get_matching_emails (E : env) (mailbox_name : pystr)
  (keywords : list pystr) (unread_only : bool) (date_from date_to : option pystr)
  : Py world (list EmailItem) :=
  emit EvSearch ;;
  attempt (search_answer E).

(** [PDFGenerator.generate_email_pdf], as the batch sees it. *)
Definition generate_email_pdf (E : env) (email : EmailItem)
  (received_time : option pystr) (attachment_paths : list pystr)
  : Py world pystr :=
  try_except
    (path <- attempt (pdf_answer E email received_time attachment_paths) ;;
     emit (EvGeneratePdf (mail_id email) true) ;;
     ret path)
    (fun e => emit (EvGeneratePdf (mail_id email) false) ;; raise e).

(** The three [except] clauses of [_process_single_email] end alike: the
    error category is applied, and whatever that raises is dropped. *)
Definition tag_as_error (email : EmailItem) (error_category : pystr)
  : Py (ProcessingResult * world) unit :=
  try_except (outer (Outlook.set_category email error_category))
             (fun _ => ret tt).

(** [EmailProcessor._process_single_email]; the local variable is [result]. *)
Definition _process_single_email (E : env) (email : EmailItem)
  (target_folder : option nat) (category error_category : pystr)
  : Py world ProcessingResult :=
  call_local (mkResult (subject email) (sender email) PENDING None None)
    (stopped <- outer (_check_stop E BeforeStart) ;;
     when stopped
       (local (set_status SKIPPED) ;;
        local (set_error_message msg_interrupted) ;;
        return_) ;;
     try_except
       (local (set_status IN_PROGRESS) ;;
        attachment_paths <-
          (if has_attachments email
           then
             stopped <- outer (_check_stop E BeforeAttachments) ;;
             when stopped (local (set_status SKIPPED) ;; return_) ;;
             outer (Outlook.save_attachments email)
           else ret []) ;;
        stopped <- outer (_check_stop E BeforePdf) ;;
        when stopped (local (set_status SKIPPED) ;; return_) ;;
        received_time <-
          try_except (outer (Outlook.received_time email)) (fun _ => ret None) ;;
        pdf_path <-
          outer (generate_email_pdf E email received_time attachment_paths) ;;
        local (set_pdf_path pdf_path) ;;
        when (PyStr.truthy category)
             (outer (Outlook.set_category email category)) ;;
        outer (Outlook.mark_as_read email) ;;
        stopped <- outer (_check_stop E BeforeMove) ;;
        when stopped (local (set_status SKIPPED) ;; return_) ;;
        match target_folder with
        | Some folder => _ <- outer (Outlook.move_to email folder) ;; ret tt
        | None => ret tt
        end ;;
        local (set_status SUCCESS))
       (fun e =>
          match e with
          | PDFGeneratorError _ =>
              local (set_status FAILED) ;;
              local (set_error_message (msg_pdf_error e)) ;;
              tag_as_error email error_category
          | OutlookError _ =>
              local (set_status FAILED) ;;
              local (set_error_message (msg_outlook_error e)) ;;
              tag_as_error email error_category
          | _ =>
              local (set_status FAILED) ;;
              local (set_error_message (msg_unexpected e)) ;;
              tag_as_error email error_category
          end)).

(** The loop of [process_emails] over [enumerate(emails)], from index [i]. *)
Fixpoint for_emails (E : env) (target_folder : option nat)
  (category error_category : pystr) (i : nat) (emails : list EmailItem)
  : Py world unit :=
  match emails with
  | [] => ret tt
  | email :: rest =>
      stopped <- read_should_stop E AtLoopHead ;;
      if stopped then ret tt
      else
        total_now <- gets (fun w => total (stats w)) ;;
        _report_progress (i + 1) total_now (progress_message email) ;;
        result <- _process_single_email E email target_folder category
                                        error_category ;;
        modify (set_results (fun rs => rs ++ [result])) ;;
        modify (set_stats (count_result result)) ;;
        for_emails E target_folder category error_category (S i) rest
  end.

(** The [finally] clause of [process_emails]. *)
Definition cleanup : Py world unit :=
  dir <- gets _temp_dir ;;
  match dir with
  | Some _ => emit EvRmtree
  | None => ret tt
  end ;;
  modify (set_is_running false).

(** [EmailProcessor.process_emails] *)
Definition process_emails (E : env)
  (mailbox_name keywords_str target_folder_path category : pystr)
  (unread_only : bool) (date_from date_to : option pystr)
  : Py world ProcessingStats :=
  call
    (modify (set_is_running true) ;;
     modify (set_should_stop false) ;;
     modify (set_stats (fun _ => new_stats)) ;;
     modify (set_results (fun _ => [])) ;;
     emit EvMkdtemp ;;
     dir <- attempt (mkdtemp E) ;;
     modify (set_temp_dir (Some dir)) ;;
     try_finally
       (try_except
          (_report_status status_connecting ;;
           c <- Outlook.is_connected ;;
           when (negb c)
             (ok <- connect_outlook E ;;
              when (negb ok) (raise (OutlookError msg_no_connection))) ;;
           when (PyStr.truthy category)
                (Outlook.ensure_category_exists E category green) ;;
           Outlook.ensure_category_exists E error_category red ;;
           let keywords := Sanitize.validate_keywords keywords_str in
           match keywords with
           | [] => return_
           | _ :: _ =>
               target_folder <-
                 (if PyStr.truthy target_folder_path
                  then
                    try_except
                      (folder <- Outlook.get_folder_by_path E target_folder_path ;;
                       ret (Some folder))
                      (fun e =>
                         match e with
                         | OutlookError _ => ret None
                         | _ => raise e
                         end)
                  else ret None) ;;
               _report_status status_searching ;;
               emails <- get_matching_emails E mailbox_name keywords unread_only
                                             date_from date_to ;;
               modify (set_stats (set_total (List.length emails))) ;;
               total_now <- gets (fun w => total (stats w)) ;;
               if Nat.eqb total_now 0
               then _report_status status_none_found ;; return_
               else
                 for_emails E target_folder category error_category 0 emails ;;
                 _report_status status_finished
           end)
          (fun e => _report_status (status_error e)))
       cleanup)
    stats.

End Processor.

(* ===================================================================== *)
(** * pdf_generator.py: the merge with the attachments *)
(* ===================================================================== *)

Module Pdf.

(** A PDF file, as the list of its pages. *)
Definition document : Type := list nat.

(** The files, the merger ([PyPDF2.PdfMerger]) and [temp_files]. *)
Record merge_state : Type := mkMerge {
  disk : list (pystr * document);
  merger : document;
  temp_files : list pystr }.

Fixpoint read_file (path : pystr) (files : list (pystr * document))
  : option document :=
  match files with
  | [] => None
  | (p, d) :: rest => if PyStr.eqb p path then Some d else read_file path rest
  end.

Definition write_file (path : pystr) (d : document)
  (files : list (pystr * document)) : list (pystr * document) :=
  (path, d) :: files.

Definition remove_file (path : pystr) (files : list (pystr * document))
  : list (pystr * document) :=
  filter (fun f => negb (PyStr.eqb (fst f) path)) files.

(** How [open(output_path, 'wb')] and [merger.write] end. *)
Inductive write_outcome : Type :=
| Written
| OpenFails (e : exn)
| WriteFails (partial : document) (e : exn).

(** The generator's flags, the converters (which catch their own
    exceptions and answer a temporary file or [None]) and the final write. *)
Record generator : Type := mkGenerator {
  _has_pypdf2 : bool;
  _has_win32com : bool;
  _word_to_pdf : pystr -> option (pystr * document);
  _excel_to_pdf : pystr -> option (pystr * document);
  _text_to_pdf : pystr -> option (pystr * document);
  write_answer : write_outcome }.

Definition SUPPORTED_IMAGE_EXTENSIONS : list pystr :=
  [py ".png"; py ".jpg"; py ".jpeg"; py ".gif"; py ".bmp"; py ".tiff"; py ".webp"].
Definition SUPPORTED_PDF_EXTENSION : pystr := py ".pdf".
Definition SUPPORTED_TEXT_EXTENSIONS : list pystr := [py ".txt"; py ".csv"; py ".log"].
Definition SUPPORTED_WORD_EXTENSIONS : list pystr := [py ".doc"; py ".docx"].
Definition SUPPORTED_EXCEL_EXTENSIONS : list pystr := [py ".xls"; py ".xlsx"].

Definition is_sep (c : char) : bool := N.eqb c 92 || N.eqb c 47.
Definition is_dot (c : char) : bool := N.eqb c 46.

Fixpoint take_while (p : char -> bool) (s : pystr) : pystr :=
  match s with
  | [] => []
  | c :: r => if p c then c :: take_while p r else []
  end.

(** [os.path.splitext(path)[1]]: from the last dot of the last path
    component, unless only dots come before it there. *)
Definition splitext_ext (path : pystr) : pystr :=
  let name := rev (take_while (fun c => negb (is_sep c)) (rev path)) in
  if existsb is_dot name
  then
    let after := take_while (fun c => negb (is_dot c)) (rev name) in
    let stem := firstn (List.length name - List.length after - 1) name in
    if forallb is_dot stem then [] else 46%N :: rev after
  else [].

Definition ext_in (ext : pystr) (exts : list pystr) : bool :=
  existsb (PyStr.eqb ext) exts.

(** [merger.append(path)] *)
Definition merger_append (path : pystr) : Py merge_state unit :=
  files <- gets disk ;;
  match read_file path files with
  | Some d => modify (fun st => mkMerge (disk st) (merger st ++ d) (temp_files st))
  | None => raise (OtherError path)
  end.

(** Appends a converted attachment and remembers its temporary file. *)
Definition append_converted (converted : option (pystr * document))
  : Py merge_state unit :=
  match converted with
  | Some (temp_pdf, d) =>
      modify (fun st => mkMerge (write_file temp_pdf d (disk st)) (merger st)
                                (temp_files st)) ;;
      merger_append temp_pdf ;;
      modify (fun st => mkMerge (disk st) (merger st) (temp_files st ++ [temp_pdf]))
  | None => ret tt
  end.

(** The body of the loop over [attachment_paths]. *)
Definition merge_attachment (G : generator) (att_path : pystr)
  : Py merge_state unit :=
  files <- gets disk ;;
  match read_file att_path files with
  | None => ret tt
  | Some _ =>
      let ext := PyStr.ascii_lower (splitext_ext att_path) in
      try_except
        (if PyStr.eqb ext SUPPORTED_PDF_EXTENSION then merger_append att_path
         else if ext_in ext SUPPORTED_IMAGE_EXTENSIONS then ret tt
         else if ext_in ext SUPPORTED_WORD_EXTENSIONS && _has_win32com G
         then append_converted (_word_to_pdf G att_path)
         else if ext_in ext SUPPORTED_EXCEL_EXTENSIONS && _has_win32com G
         then append_converted (_excel_to_pdf G att_path)
         else if ext_in ext SUPPORTED_TEXT_EXTENSIONS
         then append_converted (_text_to_pdf G att_path)
         else ret tt)
        (fun _ => ret tt)
  end.

Fixpoint for_attachments (G : generator) (attachment_paths : list pystr)
  : Py merge_state unit :=
  match attachment_paths with
  | [] => ret tt
  | att_path :: rest =>
      merge_attachment G att_path ;; for_attachments G rest
  end.

(** [with open(output_path, 'wb') as output_file: merger.write(output_file)] *)
Definition write_merged (G : generator) (output_path : pystr)
  : Py merge_state unit :=
  match write_answer G with
  | Written =>
      modify (fun st => mkMerge (write_file output_path (merger st) (disk st))
                                (merger st) (temp_files st))
  | OpenFails e => raise e
  | WriteFails partial e =>
      modify (fun st => mkMerge (write_file output_path partial (disk st))
                                (merger st) (temp_files st)) ;;
      raise e
  end.

(** The removal of the temporary files, [OSError] ignored. *)
Definition remove_temp_files : Py merge_state unit :=
  modify (fun st =>
    mkMerge (fold_left (fun files t => remove_file t files) (temp_files st) (disk st))
            (merger st) (temp_files st)).

(** [PDFGenerator._merge_with_attachments] *)
Definition _merge_with_attachments (G : generator) (email_pdf_path : pystr)
  (attachment_paths : list pystr) : Py merge_state pystr :=
  if negb (_has_pypdf2 G) then ret email_pdf_path
  else
    modify (fun st => mkMerge (disk st) [] []) ;;
    merger_append email_pdf_path ;;
    for_attachments G attachment_paths ;;
    let output_path :=
      PyStr.replace (py ".pdf") (py "_complet.pdf") email_pdf_path in
    try_except
      (write_merged G output_path ;;
       remove_temp_files ;;
       ret output_path)
      (fun _ => ret email_pdf_path).

(** The output path in the words of the specification: the [.pdf] ending
    of the primary path becomes [_complet.pdf]. *)
Definition spec_merged_path (email_pdf_path : pystr) : pystr :=
  if PyStr.ends_with (py ".pdf") email_pdf_path
  then firstn (List.length email_pdf_path - 4) email_pdf_path ++ py "_complet.pdf"
  else email_pdf_path.

End Pdf.

(* ===================================================================== *)
(** * Reading a trace *)
(* ===================================================================== *)

(** The events of the sequence of message [id]: its checkpoints and the
    calls on the message. *)
Definition in_message (id : nat) (e : event) : bool :=
  match e with
  | EvStopRead AtLoopHead _ => false
  | EvStopRead _ _ => true
  | EvSaveAttachments m | EvGeneratePdf m _ | EvSetCategory m _ _
  | EvMarkRead m _ | EvMove m _ _ => Nat.eqb m id
  | _ => false
  end.

(** The events of the per-message work of a batch: everything that the
    loop of [process_emails] does. *)
Definition loop_event (e : event) : bool :=
  match e with
  | EvProgress _ _ _ | EvStopRead _ _ | EvSaveAttachments _ | EvGeneratePdf _ _
  | EvSetCategory _ _ _ | EvMarkRead _ _ | EvMove _ _ _ => true
  | _ => false
  end.

(** A checker for the order of a batch: it reads a trace from the left,
    remembers which of the two categories have been ensured, and answers
    [None] as soon as an event of the loop comes before both. *)
Fixpoint ensured_scan (category : pystr) (seen : bool * bool) (d : list event)
  : option (bool * bool) :=
  match d with
  | [] => Some seen
  | e :: rest =>
      match e with
      | EvEnsureCategory name green true =>
          ensured_scan category (fst seen || PyStr.eqb name category, snd seen) rest
      | EvEnsureCategory name red true =>
          ensured_scan category
            (fst seen, snd seen || PyStr.eqb name Processor.error_category) rest
      | _ =>
          if loop_event e
          then (if fst seen && snd seen then ensured_scan category seen rest
                else None)
          else ensured_scan category seen rest
      end
  end.

(** The events of a connection attempt. *)
Definition is_connect_event (e : event) : bool :=
  match e with EvConnect _ => true | _ => false end.

(** The outcomes counted by the statistics. *)
Definition outcomes (st : ProcessingStats) : nat :=
  success st + failed st + skipped st.

(** [cause] is carried by the message [msg]. *)
Definition carries (cause msg : pystr) : Prop := PyStr.contains cause msg = true.

(** The sentence of the specification on the mutators, as it is written:
    each of the three turns a provider failure into a raised
    [OutlookError] that carries the cause. *)
Definition mutators_raise_on_failure : Prop :=
  forall (email : EmailItem) (w : world) (cause : pystr),
    (forall category, SetCategories email category = ComFail cause ->
       exists msg w', Outlook.set_category email category w
                      = (Exc (OutlookError msg), w') /\ carries cause msg)
    /\ (SetRead email = ComFail cause ->
        exists msg w', Outlook.mark_as_read email w
                       = (Exc (OutlookError msg), w') /\ carries cause msg)
    /\ (forall folder, Move email folder = ComFail cause ->
        exists msg w', Outlook.move_to email folder w
                       = (Exc (OutlookError msg), w') /\ carries cause msg).

(* ===================================================================== *)
(** * Concrete mailboxes *)
(* ===================================================================== *)

Module Samples.

Definition provider_down : pystr := py "RPC server unavailable".

(** A message on which every provider write succeeds. *)
Definition healthy_mail (id : nat) : EmailItem :=
  mkEmail id (py "Facture ACME") (py "compta@acme.fr") (py "ACME") (py "Bonjour")
    false (Value None) (Value [])
    (fun _ => ComOk tt) (ComOk tt) (fun _ => ComOk tt).

(** A message on which every provider write fails. *)
Definition unreachable_mail (id : nat) : EmailItem :=
  mkEmail id (py "Facture ACME") (py "compta@acme.fr") (py "ACME") (py "Bonjour")
    false (Value None) (Value [])
    (fun _ => ComFail provider_down) (ComFail provider_down)
    (fun _ => ComFail provider_down).

(** A message that is tagged and marked read, and that cannot be moved. *)
Definition stuck_mail (id : nat) : EmailItem :=
  mkEmail id (py "Facture ACME") (py "compta@acme.fr") (py "ACME") (py "Bonjour")
    false (Value None) (Value [])
    (fun _ => ComOk tt) (ComOk tt) (fun _ => ComFail provider_down).

(** A processor that has not run yet, on a mailbox without categories. *)
Definition idle_world : world :=
  mkWorld Processor.new_stats [] false false None false [] [].

(** A mailbox with three matching messages; [stop_requested] is the side
    that decides when [stop] is called. *)
Definition three_mails (stop_requested : world -> bool) : env :=
  mkEnv stop_requested (Value (py "tmp/email_fournisseurs_a1")) (ComOk tt)
        (fun _ _ => ComOk tt) (fun _ _ => ComOk 7)
        (Value [healthy_mail 1; healthy_mail 2; healthy_mail 3])
        (fun _ _ _ => Value (py "out/ACME_20240105_Facture ACME.pdf")).

(** The initiating side never calls [stop]. *)
Definition never (w : world) : bool := false.


(** The initiating side calls [stop] once the first message is marked read. *)
Definition once_marked_read (w : world) : bool :=
  existsb (fun e => match e with EvMarkRead _ _ => true | _ => false end) (trace w).

(** Outlook cannot be reached. *)
Definition outlook_down : env :=
  mkEnv never (Value (py "tmp/email_fournisseurs_a1")) (ComFail provider_down)
        (fun _ _ => ComFail provider_down) (fun _ _ => ComFail provider_down)
        (Raises (OutlookError provider_down))
        (fun _ _ _ => Value (py "out/ACME_20240105_Facture ACME.pdf")).

End Samples.

(* ===================================================================== *)
(** * Statements and inputs of the properties *)
(* ===================================================================== *)

Section Kept.
Variable lower : pystr -> pystr.
(** Whether the loop of [filter_emails] keeps an item. *)
Definition item_kept (keywords : list pystr) (unread_only : bool)
  (item : Outlook.OutlookItem) : bool :=
  match Outlook.Class item with
  | ComOk cls =>
      N.eqb cls 43
      && match (if unread_only then Outlook.UnRead item else ComOk true) with
         | ComOk unread =>
             unread
             && match Outlook.Subject item with
                | ComOk subj =>
                    Outlook.any_keyword lower keywords
                      (lower (match subj with Some t => t | None => [] end))
                | ComFail _ => false
                end
         | ComFail _ => false
         end
  | ComFail _ => false
  end.
End Kept.



Module Inputs.

(** A mail item, already read, with the subject of the specification. *)
Definition invoice_item : Outlook.OutlookItem :=
  Outlook.mkItem 1 (ComOk 43%N) (ComOk false)
                 (ComOk (Some (py "Invoice from ACME"))).

(** A processor whose gateway is connected. *)
Definition connected_world : world :=
  mkWorld Processor.new_stats [] false false None true [] [].

(** The primary artifact of a message whose subject is "scan.pdf", and an
    attachment saved for it. *)
Definition scan_primary : pystr := py "out/ACME_20240105_scan.pdf.pdf".
Definition order_pdf : pystr := py "tmp/email_1/bon.pdf".

(** A generator with PyPDF2 and without the office converters. *)
Definition plain_generator (answer : Pdf.write_outcome) : Pdf.generator :=
  Pdf.mkGenerator true false (fun _ => None) (fun _ => None) (fun _ => None)
                  answer.

Definition scan_disk : Pdf.merge_state :=
  Pdf.mkMerge [(scan_primary, [1]); (order_pdf, [2; 3])] [] [].

End Inputs.

(* ===================================================================== *)
(** * More of Python's strings *)
(* ===================================================================== *)

Module PyText.

(** [sep.join(parts)] *)
Fixpoint join (sep : pystr) (parts : list pystr) : pystr :=
  match parts with
  | [] => []
  | [p] => p
  | p :: rest => p ++ sep ++ join sep rest
  end.

(** [s.rsplit(sep, 1)] for a one-character separator that occurs in [s]:
    what comes before the last separator and what comes after it; [None]
    when [sep] is not in [s]. *)
Definition rsplit1 (sep : char) (s : pystr) : option (pystr * pystr) :=
  if PyStr.mem sep s
  then
    let r := rev s in
    let after := Pdf.take_while (fun c => negb (N.eqb c sep)) r in
    let before := tl (PyStr.drop_while (fun c => negb (N.eqb c sep)) r) in
    Some (rev before, rev after)
  else None.

(** [s[:k]] for any integer [k]: a negative [k] counts from the end. *)
Definition slice_to (k : Z) (s : pystr) : pystr :=
  if (0 <=? k)%Z then firstn (Z.to_nat k) s
  else firstn (Z.to_nat (Z.of_nat (List.length s) + k)) s.

Fixpoint digits (u : Decimal.uint) : pystr :=
  match u with
  | Decimal.Nil => []
  | Decimal.D0 u => 48%N :: digits u
  | Decimal.D1 u => 49%N :: digits u
  | Decimal.D2 u => 50%N :: digits u
  | Decimal.D3 u => 51%N :: digits u
  | Decimal.D4 u => 52%N :: digits u
  | Decimal.D5 u => 53%N :: digits u
  | Decimal.D6 u => 54%N :: digits u
  | Decimal.D7 u => 55%N :: digits u
  | Decimal.D8 u => 56%N :: digits u
  | Decimal.D9 u => 57%N :: digits u
  end.

(** [str(n)] for a natural number. *)
Definition str_of_nat (n : nat) : pystr := digits (Nat.to_uint n).

(** [str.upper] on the ASCII letters; other code points are kept. *)
Definition ascii_upper (s : pystr) : pystr :=
  map (fun c => if ((97 <=? c) && (c <=? 122))%N then (c - 32)%N else c) s.

(** [str.capitalize] on the ASCII letters. *)
Definition ascii_capitalize (s : pystr) : pystr :=
  match s with
  | [] => []
  | c :: r => ascii_upper [c] ++ PyStr.ascii_lower r
  end.

End PyText.

(* ===================================================================== *)
(** * utils/sanitize.py: file names *)
(* ===================================================================== *)

Module FileNames.

(** [RESERVED_NAMES] *)
Definition RESERVED_NAMES : list pystr :=
  [py "CON"; py "PRN"; py "AUX"; py "NUL";
   py "COM1"; py "COM2"; py "COM3"; py "COM4"; py "COM5"; py "COM6";
   py "COM7"; py "COM8"; py "COM9";
   py "LPT1"; py "LPT2"; py "LPT3"; py "LPT4"; py "LPT5"; py "LPT6";
   py "LPT7"; py "LPT8"; py "LPT9"].

Section Clock.

(** [str.upper] and [str.capitalize]. *)
Variables upper capitalize : pystr -> pystr.
(** [datetime], [datetime.now()], and [strftime] with the formats
    ['%Y%m%d'] and ['%Y%m%d_%H%M%S']. *)
Variable datetime : Type.
Variable now : datetime.
Variables strftime_ymd strftime_stamp : datetime -> pystr.

(** [f"fichier_{datetime.now().strftime('%Y%m%d_%H%M%S')}"] *)
Definition fallback_name : pystr := py "fichier_" ++ strftime_stamp now.

(** The first block of [sanitize_filename]: the name and the cleaned
    extension, with its dot. *)
Definition name_and_extension (filename : pystr) : pystr * pystr :=
  match PyText.rsplit1 46%N filename with
  | Some (name, ext) =>
      (name, py "." ++ Sanitize.sanitize_text ext Sanitize.underscore)
  | None => (filename, [])
  end.

Definition sanitize_filename (filename : pystr) (max_length : Z) : pystr :=
  if negb (PyStr.truthy filename) then fallback_name
  else
    let (name, ext) := name_and_extension filename in
    let name := Sanitize.sanitize_text name Sanitize.underscore in
    let name :=
      if existsb (PyStr.eqb (upper name)) RESERVED_NAMES
      then py "_" ++ name ++ py "_" else name in
    let max_name_length := (max_length - Z.of_nat (List.length ext))%Z in
    let name :=
      if (max_name_length <? Z.of_nat (List.length name))%Z
      then PyText.slice_to max_name_length name else name in
    let name := if negb (PyStr.truthy name) then fallback_name else name in
    name ++ ext.

Definition unknown : pystr := py "Inconnu".

Definition extract_company_name (email_address : pystr) : pystr :=
  if negb (PyStr.truthy email_address) || negb (PyStr.mem 64%N email_address)
  then unknown
  else
    let domain := nth 1 (PyStr.split 64%N email_address) [] in
    let company :=
      match PyText.rsplit1 46%N domain with
      | Some (before, _) => before
      | None => domain
      end in
    let company := capitalize company in
    Sanitize.sanitize_text company Sanitize.underscore.

Definition extract_sender_name (sender : pystr) : pystr :=
  if negb (PyStr.truthy sender) then unknown
  else if PyStr.mem 60%N sender && PyStr.mem 62%N sender
  then
    let name := PyStr.strip (hd [] (PyStr.split 60%N sender)) in
    if PyStr.truthy name then Sanitize.sanitize_text name Sanitize.underscore
    else
      let email :=
        hd [] (PyStr.split 62%N (nth 1 (PyStr.split 60%N sender) [])) in
      extract_company_name email
  else if PyStr.mem 64%N sender then extract_company_name sender
  else Sanitize.sanitize_text sender Sanitize.underscore.

Definition format_date_for_filename (date_obj : option datetime) : pystr :=
  match date_obj with
  | None => strftime_ymd now
  | Some d => strftime_ymd d
  end.

Definition generate_pdf_filename (sender : pystr) (date_obj : option datetime)
  (subject : pystr) : pystr :=
  let company := extract_sender_name sender in
  let date_str := format_date_for_filename date_obj in
  let filename :=
    if PyStr.truthy subject
    then
      let subject_clean :=
        firstn 50 (Sanitize.sanitize_text subject Sanitize.underscore) in
      company ++ py "_" ++ date_str ++ py "_" ++ subject_clean ++ py ".pdf"
    else company ++ py "_" ++ date_str ++ py ".pdf" in
  sanitize_filename filename 200.

End Clock.

(** A keyword as [validate_keywords] gives them: not empty, without a
    comma, without white space at either end. *)
Definition clean_keyword (kw : pystr) : Prop :=
  kw <> [] /\ ~ In 44%N kw /\ PyStr.strip kw = kw.

End FileNames.

(* ===================================================================== *)
(** * Reading the results of a run *)
(* ===================================================================== *)

Module Tally.

Definition status_eqb (a b : ProcessingStatus) : bool :=
  match a, b with
  | PENDING, PENDING | IN_PROGRESS, IN_PROGRESS | SUCCESS, SUCCESS
  | FAILED, FAILED | SKIPPED, SKIPPED => true
  | _, _ => false
  end.

(** The number of results with status [s]. *)
Definition count_status (s : ProcessingStatus) (rs : list ProcessingResult) : nat :=
  List.length (filter (fun r => status_eqb (status r) s) rs).

(** A result whose message has been dealt with. *)
Definition settled (r : ProcessingResult) : Prop :=
  status r = SUCCESS \/ status r = FAILED \/ status r = SKIPPED.

(** The result answers to the message. *)
Definition result_of (email : EmailItem) (r : ProcessingResult) : Prop :=
  email_subject r = subject email /\ email_sender r = sender email.

End Tally.

(** Environments and inputs of the statements on a run. *)
Module Cases.

(** The temporary workspace cannot be created. *)
Definition no_workspace : env :=
  mkEnv Samples.never (Raises (OtherError (py "No space left on device")))
        (ComOk tt) (fun _ _ => ComOk tt) (fun _ _ => ComOk 7)
        (Value [Samples.healthy_mail 1])
        (fun _ _ _ => Value (py "out/ACME_20240105_Facture ACME.pdf")).

(** Keywords that are all blank. *)
Definition blank_keywords : pystr := py " , ,".

End Cases.

(* ===================================================================== *)
(** * outlook_handler.py: the listing of a mailbox *)
(* ===================================================================== *)

Module Listing.

(** The body of the loop of [get_all_emails] after the test of the limit;
    the local variables are [count] and [emails]. *)
Definition take_item (item : Outlook.OutlookItem)
  : Py ((Z * list Outlook.OutlookItem) * world) unit :=
  try_except
    (cls <- round_trip (Outlook.Class item) ;;
     when (N.eqb cls 43)
          (local (fun ce => ((fst ce + 1)%Z, snd ce ++ [item]))))
    (fun e =>
       match e with
       | ComError _ => ret tt
       | _ => raise e
       end).

(** The loop of [get_all_emails]; it is left when [count >= limit]. *)
Fixpoint for_all_items (limit : Z) (items : list Outlook.OutlookItem)
  : Py ((Z * list Outlook.OutlookItem) * world) unit :=
  match items with
  | [] => ret tt
  | item :: rest =>
      count <- gets (fun s => fst (fst s)) ;;
      if (limit <=? count)%Z then ret tt
      else take_item item ;; for_all_items limit rest
  end.

(** [OutlookHandler.get_all_emails]; [inbox_items] is what [get_inbox],
    [inbox.Items] and [items.Sort] answer. *)
Definition get_all_emails (E : env)
  (inbox_items : pyresult (list Outlook.OutlookItem)) (limit : Z)
  : Py world (list Outlook.OutlookItem) :=
  c <- Outlook.is_connected ;;
  (if negb c then _ <- Outlook.connect E ;; ret tt else ret tt) ;;
  found <- call_local (0%Z, [])
    (try_except
       (items <- attempt inbox_items ;;
        for_all_items limit items)
       (fun e =>
          match e with
          | ComError _ => ret tt
          | _ => raise e
          end)) ;;
  ret (snd found).

(** A mail item whose class can be read. *)
Definition is_mail (item : Outlook.OutlookItem) : bool :=
  match Outlook.Class item with
  | ComOk cls => N.eqb cls 43
  | ComFail _ => false
  end.

(** Items of a folder: two mails around a meeting request and an item
    that cannot be read. *)
Definition mixed_items : list Outlook.OutlookItem :=
  [Outlook.mkItem 1 (ComOk 43%N) (ComOk true) (ComOk (Some (py "Facture 1")));
   Outlook.mkItem 2 (ComOk 53%N) (ComOk true) (ComOk (Some (py "Reunion")));
   Outlook.mkItem 3 (ComFail (py "RPC server unavailable")) (ComOk true)
                  (ComOk None);
   Outlook.mkItem 4 (ComOk 43%N) (ComOk false) (ComOk (Some (py "Devis 7")));
   Outlook.mkItem 5 (ComOk 43%N) (ComOk false) (ComFail (py "RPC server unavailable"))].

End Listing.

(* ===================================================================== *)
(** * pdf_generator.py: the PDF of a message *)
(* ===================================================================== *)

Module Render.

(** [os.path.exists(path)] *)
Definition exists_ (path : pystr) (files : list (pystr * Pdf.document)) : bool :=
  match Pdf.read_file path files with Some _ => true | None => false end.

(** [os.path.splitext(path)[0]] *)
Definition splitext_root (path : pystr) : pystr :=
  firstn (List.length path - List.length (Pdf.splitext_ext path)) path.

(** [f"{base}_{counter}{ext}"] *)
Definition numbered (base ext : pystr) (counter : nat) : pystr :=
  base ++ py "_" ++ PyText.str_of_nat counter ++ ext.

(** The loop [while os.path.exists(output_path): ...], for at most [fuel]
    tests of a path; [None] when the fuel runs out. *)
Fixpoint free_path (fuel : nat) (base ext : pystr)
  (files : list (pystr * Pdf.document)) (output_path : pystr) (counter : nat)
  : option pystr :=
  match fuel with
  | 0 => None
  | S fuel' =>
      if exists_ output_path files
      then free_path fuel' base ext files (numbered base ext counter) (S counter)
      else Some output_path
  end.

(** The tests that the loop needs at most on a disk: two more than the
    disk has files. *)
Definition enough (files : list (pystr * Pdf.document)) : nat :=
  S (S (List.length files)).

(** How [_create_email_pdf] ends: the document is built at the output
    path, or an error is raised, with or without a file left there. *)
Inductive build_outcome : Type :=
| Built (d : Pdf.document)
| BuildFails (left_behind : option Pdf.document) (e : exn).

Section Clock.

(** [str.upper], [str.capitalize], [datetime], [datetime.now()] and the two
    [strftime] formats of utils/sanitize.py. *)
Variables upper capitalize : pystr -> pystr.
Variable datetime : Type.
Variable now : datetime.
Variables strftime_ymd strftime_stamp : datetime -> pystr.

(** The fields of [PDFGenerator] that [generate_email_pdf] reads, with
    [os.path.join] and the answer of [_create_email_pdf]. *)
Record renderer : Type := mkRenderer {
  _has_reportlab : bool;
  output_dir : pystr;
  join_path : pystr -> pystr -> pystr;
  build : pystr -> pystr -> pystr -> pystr -> option datetime -> build_outcome }.

Definition msg_reportlab : pystr :=
  py "reportlab est requis pour g" ++ [e_acute] ++ py "n" ++ [e_acute]
  ++ py "rer des PDF".

Definition msg_generate (e : exn) : pystr :=
  py "Impossible de g" ++ [e_acute] ++ py "n" ++ [e_acute] ++ py "rer le PDF: "
  ++ str_of_exn e.

Definition set_disk
  (f : list (pystr * Pdf.document) -> list (pystr * Pdf.document))
  (st : Pdf.merge_state) : Pdf.merge_state :=
  Pdf.mkMerge (f (Pdf.disk st)) (Pdf.merger st) (Pdf.temp_files st).

(** [PDFGenerator._create_email_pdf], as far as the disk sees it. *)
Definition _create_email_pdf (R : renderer)
  (sender sender_name subject body : pystr) (received_time : option datetime)
  (output_path : pystr) : Py Pdf.merge_state pystr :=
  match build R sender sender_name subject body received_time with
  | Built d =>
      modify (set_disk (Pdf.write_file output_path d)) ;;
      ret output_path
  | BuildFails (Some d) e =>
      modify (set_disk (Pdf.write_file output_path d)) ;;
      raise e
  | BuildFails None e => raise e
  end.

(** [PDFGenerator.generate_email_pdf] *)
Definition generate_email_pdf (R : renderer) (G : Pdf.generator)
  (sender sender_name subject body : pystr) (received_time : option datetime)
  (attachment_paths : list pystr) : Py Pdf.merge_state pystr :=
  if negb (_has_reportlab R) then raise (PDFGeneratorError msg_reportlab)
  else
    let filename :=
      FileNames.generate_pdf_filename upper capitalize datetime now
        strftime_ymd strftime_stamp
        (if PyStr.truthy sender_name then sender_name else sender)
        received_time subject in
    let output_path := join_path R (output_dir R) filename in
    let base := splitext_root output_path in
    let ext := Pdf.splitext_ext output_path in
    files <- gets Pdf.disk ;;
    let output_path :=
      match free_path (enough files) base ext files output_path 1 with
      | Some free => free
      | None => output_path
      end in
    try_except
      (email_pdf_path <-
         _create_email_pdf R sender sender_name subject body received_time
                           output_path ;;
       merged <-
         (match attachment_paths with
          | [] => ret None
          | _ :: _ =>
              merged_path <-
                Pdf._merge_with_attachments G email_pdf_path attachment_paths ;;
              if negb (PyStr.eqb merged_path email_pdf_path)
              then
                modify (set_disk (Pdf.remove_file email_pdf_path)) ;;
                ret (Some merged_path)
              else ret None
          end) ;;
       match merged with
       | Some merged_path => ret merged_path
       | None => ret email_pdf_path
       end)
      (fun e => raise (PDFGeneratorError (msg_generate e))).

End Clock.

(** The attachments that the merge takes as they are or passes over:
    none of them goes through a converter. *)
Definition plain (att_path : pystr) : bool :=
  let ext := PyStr.ascii_lower (Pdf.splitext_ext att_path) in
  negb (Pdf.ext_in ext Pdf.SUPPORTED_WORD_EXTENSIONS)
  && negb (Pdf.ext_in ext Pdf.SUPPORTED_EXCEL_EXTENSIONS)
  && negb (Pdf.ext_in ext Pdf.SUPPORTED_TEXT_EXTENSIONS).

(** The pages that a plain attachment adds to the merged document. *)
Definition pages_of (files : list (pystr * Pdf.document)) (att_path : pystr)
  : Pdf.document :=
  match Pdf.read_file att_path files with
  | Some d =>
      if PyStr.eqb (PyStr.ascii_lower (Pdf.splitext_ext att_path))
                   Pdf.SUPPORTED_PDF_EXTENSION
      then d else []
  | None => []
  end.

(** A renderer that builds a one-page document, and a disk on which the
    first two names of a message are taken. *)
Definition one_page : renderer unit :=
  mkRenderer unit true (py "out") (fun dir name => dir ++ py "/" ++ name)
             (fun _ _ _ _ _ => Built [1]).

Definition broken : renderer unit :=
  mkRenderer unit true (py "out") (fun dir name => dir ++ py "/" ++ name)
             (fun _ _ _ _ _ => BuildFails None (OtherError (py "disk full"))).

Definition crowded_disk : Pdf.merge_state :=
  Pdf.mkMerge [(py "out/ACME_20240105.pdf", [7]);
               (py "out/ACME_20240105_1.pdf", [8]);
               (py "tmp/bon.pdf", [2; 3]);
               (py "tmp/logo.png", [4]);
               (py "tmp/notes.txt", [5])] [] [].

(** A generator whose converter of text files answers a temporary file. *)
Definition text_generator (answer : Pdf.write_outcome) : Pdf.generator :=
  Pdf.mkGenerator true false (fun _ => None) (fun _ => None)
                  (fun _ => Some (py "tmp/tmpa1.pdf", [6])) answer.

End Render.

(* ===================================================================== *)
(** * Properties *)
(* ===================================================================== *)

Example strip_example :
  PyStr.strip_chars (py ". ") (py " ..a. b. .") = py "a. b".
Proof. reflexivity. Qed.

Example sanitize_example :
  Sanitize.sanitize_text (py ". rapport:  v2 / final. ") Sanitize.underscore
  = py "rapport_ v2 _ final".
Proof. reflexivity. Qed.

Example validate_keywords_example :
  Sanitize.validate_keywords (py " facture, ,devis ,") = [py "facture"; py "devis"].
Proof. reflexivity. Qed.

Example replace_example :
  PyStr.replace (py "aa") (py "b") (py "aaaxaa") = py "baxb".
Proof. reflexivity. Qed.

(* --------------------------------------------------------------------- *)
(** ** The sanitizer *)
(* --------------------------------------------------------------------- *)

Section SanitizeFacts.
Import PyStr.

Lemma starts_with_nil (s : pystr) : starts_with [] s = true.
Proof. destruct s; reflexivity. Qed.

Lemma replace_single (c : char) (new s : pystr) :
  replace [c] new s = flat_map (fun x => if N.eqb c x then new else [x]) s.
Proof.
  unfold replace. induction s as [|x r IH]; simpl; [reflexivity|].
  rewrite ?starts_with_nil, ?andb_true_r.
  destruct (N.eqb c x); simpl; now rewrite IH.
Qed.

Lemma flat_map_single (g : char -> char) (s : pystr) :
  flat_map (fun x => [g x]) s = map g s.
Proof. induction s; simpl; congruence. Qed.

(** With a one-character replacement outside the list, the loop over the
    forbidden characters is one pass that substitutes each of them. *)
Lemma fold_replace_map (u : char) (chars : list char) :
  mem u chars = false ->
  forall t,
    fold_left (fun t ch => replace [ch] [u] t) chars t
    = map (fun c => if mem c chars then u else c) t.
Proof.
  induction chars as [|ch rest IH]; intros Hu t; cbn [fold_left].
  - symmetry. apply map_id.
  - unfold mem in Hu. simpl in Hu. apply orb_false_iff in Hu as [Hch Hrest].
    rewrite IH by exact Hrest.
    rewrite replace_single.
    rewrite (flat_map_ext _ (fun x => [if N.eqb ch x then u else x])).
    2:{ intros a. now destruct (N.eqb ch a). }
    rewrite flat_map_single, map_map. apply map_ext. intros a.
    unfold mem in *. cbn [existsb]. rewrite (N.eqb_sym a ch).
    destruct (N.eqb ch a); cbn [orb]; [|reflexivity].
    now rewrite Hrest.
Qed.

Lemma Forall_drop_while (P : char -> Prop) p s :
  Forall P s -> Forall P (drop_while p s).
Proof.
  induction 1 as [|c r Hc Hr IH]; simpl; [constructor|].
  destruct (p c); [exact IH | now constructor].
Qed.

Lemma Forall_strip_chars (P : char -> Prop) chars s :
  Forall P s -> Forall P (strip_chars chars s).
Proof.
  intros H. unfold strip_chars, rstrip_by, lstrip_by.
  apply Forall_rev, Forall_drop_while, Forall_rev, Forall_drop_while, H.
Qed.

Lemma Forall_sub_spaces (P : char -> Prop) s :
  P space -> Forall P s -> forall b, Forall P (sub_spaces b s).
Proof.
  intros Hsp. induction 1 as [|c r Hc Hr IH]; intros b; simpl; [constructor|].
  destruct (is_space c); [destruct b|]; auto.
Qed.

(** What [drop_while] removes is a prefix. *)
Lemma drop_while_suffix p s : exists pre, s = pre ++ drop_while p s.
Proof.
  induction s as [|c r [pre IH]]; simpl.
  - now exists [].
  - destruct (p c).
    + exists (c :: pre). simpl. now f_equal.
    + now exists [].
Qed.

Lemma rstrip_by_prefix p s : exists post, s = rstrip_by p s ++ post.
Proof.
  unfold rstrip_by. destruct (drop_while_suffix p (rev s)) as [pre H].
  exists (rev pre). rewrite <- rev_app_distr, <- H. symmetry. apply rev_involutive.
Qed.

Lemma drop_while_idem p s : drop_while p (drop_while p s) = drop_while p s.
Proof.
  induction s as [|c r IH]; simpl; [reflexivity|].
  destruct (p c) eqn:E; [exact IH | simpl; now rewrite E].
Qed.

Lemma drop_while_head p s : head_kept p (drop_while p s).
Proof.
  induction s as [|c r IH]; simpl; [exact I|].
  destruct (p c) eqn:E; [exact IH | exact E].
Qed.

Lemma head_kept_fix p s : head_kept p s -> drop_while p s = s.
Proof. destruct s as [|c r]; simpl; [reflexivity|]. now intros ->. Qed.

Lemma head_kept_prefix p s t : head_kept p (s ++ t) -> head_kept p s.
Proof. destruct s; simpl; auto. Qed.

Lemma strip_by_idem p s :
  rstrip_by p (lstrip_by p (rstrip_by p (lstrip_by p s)))
  = rstrip_by p (lstrip_by p s).
Proof.
  unfold lstrip_by.
  assert (H : drop_while p (rstrip_by p (drop_while p s))
              = rstrip_by p (drop_while p s)).
  { apply head_kept_fix.
    destruct (rstrip_by_prefix p (drop_while p s)) as [post E].
    apply head_kept_prefix with post. rewrite <- E. apply drop_while_head. }
  rewrite H. unfold rstrip_by. rewrite rev_involutive. now rewrite drop_while_idem.
Qed.

Lemma spaces_normal_weaken s : forall b,
  spaces_normal b s = true -> spaces_normal false s = true.
Proof.
  destruct s as [|c r]; intros b; simpl; [reflexivity|].
  destruct (is_space c); [|auto].
  destruct b; simpl; [now rewrite andb_false_r | auto].
Qed.

Lemma sub_spaces_normal s : forall b, spaces_normal b (sub_spaces b s) = true.
Proof.
  induction s as [|c r IH]; intros b; simpl; [reflexivity|].
  destruct (is_space c) eqn:E.
  - destruct b; [apply IH|]. simpl. change (is_space space) with true. simpl. apply IH.
  - simpl. rewrite E. eapply spaces_normal_weaken, (IH false).
Qed.

Lemma spaces_normal_fix s : forall b,
  spaces_normal b s = true -> sub_spaces b s = s.
Proof.
  induction s as [|c r IH]; intros b; simpl; [reflexivity|].
  destruct (is_space c).
  - intros H. apply andb_prop in H as [H Hr]. apply andb_prop in H as [Hc Hb].
    apply N.eqb_eq in Hc. destruct b; [discriminate|]. subst c.
    f_equal. now apply IH.
  - intros H. f_equal. apply IH. exact H.
Qed.

Lemma spaces_normal_tail c r b :
  spaces_normal b (c :: r) = true -> spaces_normal false r = true.
Proof.
  simpl. destruct (is_space c); intros H.
  - apply andb_prop in H as [_ H]. eapply spaces_normal_weaken, H.
  - exact H.
Qed.

Lemma spaces_normal_drop_while p s :
  spaces_normal false s = true -> spaces_normal false (drop_while p s) = true.
Proof.
  induction s as [|c r IH]; simpl drop_while; [auto|].
  intros H. destruct (p c); [|exact H].
  apply IH. eapply spaces_normal_tail, H.
Qed.

Lemma spaces_normal_prefix s : forall t b,
  spaces_normal b (s ++ t) = true -> spaces_normal b s = true.
Proof.
  induction s as [|c r IH]; intros t b; simpl; [reflexivity|].
  destruct (is_space c).
  - intros H. apply andb_prop in H as [H Hr]. rewrite H. simpl. eapply IH, Hr.
  - apply IH.
Qed.

Lemma spaces_normal_strip chars s :
  spaces_normal false s = true ->
  spaces_normal false (strip_chars chars s) = true.
Proof.
  intros H. unfold strip_chars, lstrip_by.
  set (p := fun c => mem c chars).
  destruct (rstrip_by_prefix p (drop_while p s)) as [post E].
  apply spaces_normal_prefix with post. rewrite <- E.
  now apply spaces_normal_drop_while.
Qed.

End SanitizeFacts.

Section SanitizeIdempotence.
Import PyStr Sanitize.

(** With the default replacement, [sanitize_text] is four passes in a row;
    the guard on the empty string changes nothing. *)
Lemma sanitize_text_passes (text : pystr) :
  sanitize_text text underscore
  = strip_chars (py ". ") (sub_spaces false (filter printable (map subst text))).
Proof.
  unfold sanitize_text. destruct text as [|c r]; [reflexivity|].
  cbn [truthy negb]. unfold underscore.
  change (py "_") with [95%N].
  now rewrite fold_replace_map by reflexivity.
Qed.

Lemma sanitize_text_tidy (text : pystr) :
  Forall tidy (sanitize_text text underscore).
Proof.
  rewrite sanitize_text_passes.
  apply Forall_strip_chars, Forall_sub_spaces; [now split|].
  apply Forall_forall. intros c Hc. apply filter_In in Hc as [Hin Hp].
  split.
  - apply in_map_iff in Hin as [a [<- _]]. unfold subst.
    destruct (mem a FORBIDDEN_CHARS) eqn:E; [reflexivity | exact E].
  - unfold printable in Hp. now apply negb_true_iff in Hp.
Qed.

Lemma filter_all (p : char -> bool) (s : pystr) :
  Forall (fun c => p c = true) s -> filter p s = s.
Proof. induction 1 as [|c r Hc _ IH]; simpl; [reflexivity|]. now rewrite Hc, IH. Qed.

(** C9. The filesystem sanitizer is idempotent: for every text [x],
    sanitizing the sanitized text gives the sanitized text again (with the
    default replacement character, as in the one-argument call). *)
Theorem sanitize_text_idempotent (x : pystr) :
  sanitize_text (sanitize_text x underscore) underscore
  = sanitize_text x underscore.
Proof.
  pose proof (sanitize_text_tidy x) as Htidy.
  rewrite (sanitize_text_passes (sanitize_text x underscore)).
  set (y := sanitize_text x underscore) in *.
  assert (Hmap : map subst y = y).
  { rewrite <- (map_id y) at 2. apply map_ext_in. intros c Hc.
    rewrite Forall_forall in Htidy. destruct (Htidy c Hc) as [Hf _].
    unfold subst. now rewrite Hf. }
  assert (Hfilter : filter printable y = y).
  { apply filter_all. eapply Forall_impl; [|exact Htidy].
    intros c [_ Hc]. unfold printable. now rewrite Hc. }
  rewrite Hmap, Hfilter.
  assert (Hnorm : spaces_normal false y = true).
  { subst y. rewrite sanitize_text_passes.
    apply spaces_normal_strip, sub_spaces_normal. }
  rewrite (spaces_normal_fix _ _ Hnorm).
  subst y. rewrite sanitize_text_passes. unfold strip_chars.
  apply strip_by_idem.
Qed.

End SanitizeIdempotence.

(* --------------------------------------------------------------------- *)
(** ** Substrings *)
(* --------------------------------------------------------------------- *)

Section Substrings.
Import PyStr.

Lemma starts_with_spec (p s : pystr) :
  starts_with p s = true <-> exists post, s = p ++ post.
Proof.
  revert s. induction p as [|a p IH]; intros s; simpl.
  - split; [intros _; now exists s | reflexivity].
  - destruct s as [|b s].
    + split; [discriminate | intros [post H]; discriminate H].
    + rewrite andb_true_iff, N.eqb_eq, IH. split.
      * intros [-> [post ->]]. now exists post.
      * intros [post H]. injection H as -> ->. split; [reflexivity | now exists post].
Qed.

Lemma contains_spec (p s : pystr) :
  contains p s = true <-> exists pre post, s = pre ++ p ++ post.
Proof.
  induction s as [|c s IH].
  - cbn [contains]. rewrite orb_false_r, starts_with_spec. split.
    + intros [post H]. now exists [], post.
    + intros [pre [post H]]. destruct pre as [|x pre]; [now exists post|].
      discriminate H.
  - cbn [contains]. rewrite orb_true_iff, starts_with_spec, IH. split.
    + intros [[post H] | [pre [post H]]].
      * now exists [], post.
      * exists (c :: pre), post. simpl. now f_equal.
    + intros [pre [post H]]. destruct pre as [|x pre].
      * left. now exists post.
      * right. injection H as _ H. now exists pre, post.
Qed.

Lemma carries_suffix (prefix cause : pystr) : carries cause (prefix ++ cause).
Proof. apply contains_spec. exists prefix, []. now rewrite app_nil_r. Qed.

End Substrings.

(* --------------------------------------------------------------------- *)
(** ** The mutators of a message *)
(* --------------------------------------------------------------------- *)

Section Mutators.
Import Outlook.

Variables (email : EmailItem) (w : world) (cause : pystr).

Lemma set_category_failure category :
  SetCategories email category = ComFail cause ->
  set_category email category w
  = (Exc (OutlookError (msg_set_category cause)),
     add_event (EvSetCategory (mail_id email) category false) w).
Proof. intros H. unfold set_category, try_except, bind, round_trip. now rewrite H. Qed.

Lemma mark_as_read_failure :
  SetRead email = ComFail cause ->
  mark_as_read email w = (Val tt, add_event (EvMarkRead (mail_id email) false) w).
Proof. intros H. unfold mark_as_read, try_except, bind, round_trip. now rewrite H. Qed.

Lemma move_to_failure folder :
  Move email folder = ComFail cause ->
  move_to email folder w
  = (Val false, add_event (EvMove (mail_id email) folder false) w).
Proof. intros H. unfold move_to, try_except, bind, round_trip. now rewrite H. Qed.

End Mutators.

(** C6 (as stated, refuted).  [mark_as_read] does not raise when the
    provider fails: on a message whose every round trip fails it returns
    normally, so the three mutators do not all raise [OutlookError]. *)
Lemma mark_as_read_swallows_failure : ~ mutators_raise_on_failure.
Proof.
  intros H.
  destruct (H (Samples.unreachable_mail 1) Samples.idle_world Samples.provider_down)
    as (_ & Hmark & _).
  destruct (Hmark eq_refl) as (msg & w' & Heq & _).
  discriminate Heq.
Qed.

(** C6 (amended).  On a provider failure, [set_category] raises an
    [OutlookError] whose message carries the cause; [mark_as_read] and
    [move_to] swallow the failure: [mark_as_read] returns normally and
    [move_to] returns [False]. *)
Theorem mutators_on_provider_failure (email : EmailItem) (w : world) (cause : pystr) :
  (forall category, SetCategories email category = ComFail cause ->
     exists msg w', Outlook.set_category email category w
                    = (Exc (OutlookError msg), w') /\ carries cause msg)
  /\ (SetRead email = ComFail cause ->
      exists w', Outlook.mark_as_read email w = (Val tt, w'))
  /\ (forall folder, Move email folder = ComFail cause ->
      exists w', Outlook.move_to email folder w = (Val false, w')).
Proof.
  split; [|split].
  - intros category H. rewrite (set_category_failure email w cause category H).
    do 2 eexists. split; [reflexivity|].
    unfold Outlook.msg_set_category. rewrite !app_assoc. apply carries_suffix.
  - intros H. rewrite (mark_as_read_failure email w cause H). now eexists.
  - intros folder H. rewrite (move_to_failure email w cause folder H). now eexists.
Qed.

Lemma mutators_on_provider_failure_witness :
  (exists msg w', Outlook.set_category (Samples.unreachable_mail 1) (py "Traite")
                    Samples.idle_world = (Exc (OutlookError msg), w')
                  /\ carries Samples.provider_down msg)
  /\ (exists w', Outlook.mark_as_read (Samples.unreachable_mail 1) Samples.idle_world
                 = (Val tt, w'))
  /\ (exists w', Outlook.move_to (Samples.unreachable_mail 1) 7 Samples.idle_world
                 = (Val false, w')).
Proof.
  destruct (mutators_on_provider_failure (Samples.unreachable_mail 1)
              Samples.idle_world Samples.provider_down) as (Hset & Hmark & Hmove).
  split; [apply Hset; reflexivity | split].
  - apply Hmark. reflexivity.
  - apply Hmove. reflexivity.
Defined.

(* --------------------------------------------------------------------- *)
(** ** The sequence of one message *)
(* --------------------------------------------------------------------- *)

Import PyMonad Processor.

(** One case split on an answer of the environment of a message. *)
Ltac oracle_step E email :=
  match goal with
  | |- context [stop_requested E ?w] => destruct (stop_requested E w) eqn:?
  | |- context [_should_stop ?w] => is_var w; destruct (_should_stop w) eqn:?
  | |- context [has_attachments email] => destruct (has_attachments email) eqn:?
  | |- context [SaveAsFile email] => destruct (SaveAsFile email) as [?|[]] eqn:?
  | |- context [ReceivedTime email] => destruct (ReceivedTime email) as [?|[]] eqn:?
  | |- context [pdf_answer E ?a ?b ?c] =>
      destruct (pdf_answer E a b c) as [?|[]] eqn:?
  | |- context [PyStr.truthy ?c] => destruct (PyStr.truthy c) eqn:?
  | |- context [SetCategories email ?c] => destruct (SetCategories email c) eqn:?
  | |- context [SetRead email] => destruct (SetRead email) eqn:?
  | |- context [Move email ?f] => destruct (Move email f) eqn:?
  end.

Ltac unfold_single :=
  unfold _process_single_email, call_local, tag_as_error, generate_email_pdf,
    _check_stop, read_should_stop,
    Outlook.set_category, Outlook.mark_as_read, Outlook.move_to,
    Outlook.save_attachments, Outlook.received_time,
    try_except, bind, when, outer, local, ret, return_, raise, gets, modify, emit,
    round_trip, attempt, stop.

(** Finds an event in a trace that is written out. *)
Ltac in_trace := cbn [In]; repeat (first [ left; reflexivity | right ]).

(** Every path through [_process_single_email]: it returns a result, it
    touches nothing of the processor but the trace and the flag, and what
    it adds to the trace has the move, if any, at its end. *)
Lemma single_run E email tf cat ecat w :
  exists r d w',
    _process_single_email E email tf cat ecat w = (Val r, w')
    /\ trace w' = trace w ++ d
    /\ (stats w' = stats w /\ results w' = results w
        /\ categories w' = categories w /\ connected w' = connected w
        /\ _temp_dir w' = _temp_dir w /\ _is_running w' = _is_running w)
    /\ forallb (in_message (mail_id email)) d = true
    /\ (status r = SUCCESS \/ status r = FAILED \/ status r = SKIPPED)
    /\ (forall f ok, In (EvMove (mail_id email) f ok) d ->
          tf = Some f /\ status r = SUCCESS
          /\ last d EvRmtree = EvMove (mail_id email) f ok
          /\ (exists okr, In (EvMarkRead (mail_id email) okr) (removelast d))
          /\ (PyStr.truthy cat = true ->
              In (EvSetCategory (mail_id email) cat true) (removelast d)))
    /\ (last d EvRmtree = EvStopRead BeforeMove true ->
          status r = SKIPPED
          /\ (exists okr, In (EvMarkRead (mail_id email) okr) (removelast d))
          /\ (PyStr.truthy cat = true ->
              In (EvSetCategory (mail_id email) cat true) (removelast d))
          /\ forall f ok, ~ In (EvMove (mail_id email) f ok) d).
Proof.
  unfold_single.
  destruct tf.
  all: repeat (cbn -[app]; oracle_step E email).
  all: cbn -[app]; do 3 eexists; split; [reflexivity|].
  all: split; [cbn -[app]; rewrite <- ?app_assoc; cbn [app]; reflexivity|].
  all: split; [cbn; repeat split|].
  all: split; [cbn; rewrite ?Nat.eqb_refl; reflexivity|].
  all: split; [cbn; auto|].
  all: split.
  all: try (intros f ok H; cbn in H; exfalso; intuition discriminate).
  all: try (intros H; cbn in H; discriminate H).
  all: cbn [last removelast].
  all: try (intros f ok H; cbn in H;
            repeat (destruct H as [H|H]; try discriminate H; try contradiction);
            injection H as <- <-;
            repeat split; try reflexivity;
            [ eexists; in_trace | intros Hc; first [ discriminate Hc | in_trace ] ]).
  all: try (intros _; repeat split; try reflexivity;
            [ eexists; in_trace | intros Hc; first [ discriminate Hc | in_trace ]
            | intros f ok H; cbn in H; intuition discriminate ]).
Qed.



Lemma trace_tail (d : list event) (e : event) :
  In e d -> last d EvRmtree = e -> d = removelast d ++ [e].
Proof.
  intros Hin Hlast. rewrite <- Hlast. apply app_removelast_last.
  intros ->. exact Hin.
Qed.


(** C10.  A failed folder move never fails the message: when the provider
    refuses the move, [move_to] returns [False] without raising, and a
    message whose sequence reaches the move with a resolved folder is
    recorded SUCCESS. *)
Theorem failed_move_keeps_success E email folder cat ecat w cause :
  Move email folder = ComFail cause ->
  (exists w1, Outlook.move_to email folder w = (Val false, w1))
  /\ exists r d w',
       _process_single_email E email (Some folder) cat ecat w = (Val r, w')
       /\ trace w' = trace w ++ d
       /\ (In (EvMove (mail_id email) folder false) d -> status r = SUCCESS).
Proof.
  intros Hfail. split.
  - rewrite (move_to_failure email w cause folder Hfail). now eexists.
  - destruct (single_run E email (Some folder) cat ecat w)
      as (r & d & w' & Hrun & Htrace & _ & _ & _ & Hmove & _).
    exists r, d, w'. repeat split; try assumption.
    intros Hin. now destruct (Hmove _ _ Hin) as (_ & Hs & _).
Qed.

Lemma failed_move_keeps_success_witness :
  (exists w1, Outlook.move_to (Samples.stuck_mail 1) 7 Samples.idle_world
              = (Val false, w1))
  /\ exists r d w',
       _process_single_email (Samples.three_mails Samples.never)
         (Samples.stuck_mail 1) (Some 7) (py "Traite") error_category
         Samples.idle_world = (Val r, w')
       /\ trace w' = trace Samples.idle_world ++ d
       /\ (In (EvMove (mail_id (Samples.stuck_mail 1)) 7 false) d
           -> status r = SUCCESS).
Proof.
  apply (failed_move_keeps_success (Samples.three_mails Samples.never)
           (Samples.stuck_mail 1) 7 (py "Traite") error_category
           Samples.idle_world Samples.provider_down).
  reflexivity.
Defined.

Example stuck_mail_is_success :
  let run := _process_single_email (Samples.three_mails Samples.never)
               (Samples.stuck_mail 1) (Some 7) (py "Traite") error_category
               Samples.idle_world in
  match fst run with Val r => status r | _ => PENDING end = SUCCESS
  /\ trace (snd run)
     = [EvStopRead BeforeStart false; EvStopRead BeforePdf false;
        EvGeneratePdf 1 true; EvSetCategory 1 (py "Traite") true;
        EvMarkRead 1 true; EvStopRead BeforeMove false; EvMove 1 7 false].
Proof. split; reflexivity. Qed.

Example cancelled_before_move :
  let run := _process_single_email (Samples.three_mails Samples.once_marked_read)
               (Samples.healthy_mail 1) (Some 7) (py "Traite") error_category
               Samples.idle_world in
  match fst run with Val r => status r | _ => PENDING end = SKIPPED
  /\ trace (snd run)
     = [EvStopRead BeforeStart false; EvStopRead BeforePdf false;
        EvGeneratePdf 1 true; EvSetCategory 1 (py "Traite") true;
        EvMarkRead 1 true; EvStopRead BeforeMove true].
Proof. split; reflexivity. Qed.

(* --------------------------------------------------------------------- *)
(** ** The loop over the messages *)
(* --------------------------------------------------------------------- *)

Lemma in_message_loop_event id e : in_message id e = true -> loop_event e = true.
Proof. destruct e as [| | [] | | | | | | | | | |]; simpl; congruence. Qed.

Lemma in_message_all_loop id d :
  forallb (in_message id) d = true -> forallb loop_event d = true.
Proof.
  rewrite !forallb_forall. intros H e He. eapply in_message_loop_event, H, He.
Qed.

Lemma count_result_processed r st :
  processed (count_result r st) = processed st + 1
  /\ total (count_result r st) = total st
  /\ outcomes (count_result r st) = outcomes st + 1.
Proof. unfold count_result, outcomes. destruct (status r); simpl; lia. Qed.


(** What one read of the flag does. *)
Lemma read_should_stop_run E site w :
  exists flag w',
    read_should_stop E site w = (Val flag, w')
    /\ flag = (stop_requested E w || _should_stop w)
    /\ _should_stop w' = flag
    /\ trace w' = trace w ++ [EvStopRead site flag]
    /\ stats w' = stats w /\ results w' = results w
    /\ categories w' = categories w /\ connected w' = connected w
    /\ _temp_dir w' = _temp_dir w /\ _is_running w' = _is_running w.
Proof.
  unfold read_should_stop, bind, modify, gets, emit, ret, stop.
  destruct (stop_requested E w); cbn.
  - do 2 eexists. repeat split.
  - do 2 eexists. repeat split.
Qed.

(** The loop visits a prefix of the messages, counts each visited message
    once and appends one result for it; it stops early only on a flag read
    as set at the head of the loop. *)
Lemma for_emails_run E tf cat ecat emails : forall i w,
  exists d w' n,
    for_emails E tf cat ecat i emails w = (Val tt, w')
    /\ trace w' = trace w ++ d
    /\ (categories w' = categories w /\ connected w' = connected w
        /\ _temp_dir w' = _temp_dir w /\ _is_running w' = _is_running w)
    /\ n <= List.length emails
    /\ total (stats w') = total (stats w)
    /\ processed (stats w') = processed (stats w) + n
    /\ outcomes (stats w') = outcomes (stats w) + n
    /\ List.length (results w') = List.length (results w) + n
    /\ (n = List.length emails \/ In (EvStopRead AtLoopHead true) d)
    /\ forallb loop_event d = true
    /\ (forall c t m, In (EvProgress c t m) d ->
          t = total (stats w) /\ i < c /\ c <= i + n).
Proof.
  induction emails as [|email rest IH]; intros i w.
  - exists [], w, 0. cbn. rewrite app_nil_r.
    split; [reflexivity|]. split; [reflexivity|]. split; [repeat split|].
    do 5 (split; [lia|]). split; [now left|]. split; [reflexivity|].
    intros c t m [].
  - cbn [for_emails]. unfold bind at 1.
    destruct (read_should_stop_run E AtLoopHead w)
      as (flag & w1 & -> & _ & Hflag & Ht1 & Hs1 & Hr1 & Hc1 & Hn1 & Hd1 & Hi1).
    destruct flag.
    + exists [EvStopRead AtLoopHead true], w1, 0.
      rewrite Hs1, Hr1. unfold ret.
      split; [reflexivity|]. split; [exact Ht1|].
      split; [repeat split; assumption|].
      split; [lia|]. split; [reflexivity|]. do 3 (split; [lia|]).
      split; [right; now left|]. split; [reflexivity|].
      intros c t m [H|[]]. discriminate H.
    + unfold bind, gets, _report_progress, emit, modify. cbn [fst snd].
      set (w2 := add_event _ w1).
      destruct (single_run E email tf cat ecat w2)
        as (r & d2 & w3 & -> & Ht3 & (Hs3 & Hr3 & Hc3 & Hn3 & Hd3 & Hi3) & Hall & _).
      set (w4 := set_stats (count_result r) (set_results _ w3)).
      destruct (IH (S i) w4)
        as (d5 & w5 & n & -> & Ht5 & (Hc5 & Hn5 & Hd5 & Hi5) & Hle & Htot & Hproc
            & Hout & Hlen & Hend & Hloop & Hprog).
      destruct (count_result_processed r (stats w3)) as (Hp4 & Ht4 & Ho4).
      assert (Hst2 : stats w2 = stats w) by (subst w2; cbn; exact Hs1).
      assert (Hw4s : stats w4 = count_result r (stats w3)) by reflexivity.
      assert (Hw4r : results w4 = results w3 ++ [r]) by reflexivity.
      exists ([EvStopRead AtLoopHead false]
              ++ [EvProgress (i + 1) (total (stats w1)) (progress_message email)]
              ++ d2 ++ d5), w5, (S n).
      split; [reflexivity|].
      split.
      { rewrite Ht5. subst w4. cbn [trace set_stats set_results]. rewrite Ht3.
        subst w2. cbn [trace add_event]. rewrite Ht1.
        now rewrite <- !app_assoc. }
      split.
      { subst w4 w2. cbn in *. repeat split; congruence. }
      split; [cbn; lia|].
      split; [rewrite Htot, Hw4s, Ht4, Hs3, Hst2; reflexivity|].
      split; [rewrite Hproc, Hw4s, Hp4, Hs3, Hst2; lia|].
      split; [rewrite Hout, Hw4s, Ho4, Hs3, Hst2; lia|].
      split.
      { rewrite Hlen, Hw4r, length_app, Hr3. subst w2. cbn. rewrite Hr1. lia. }
      split.
      { destruct Hend as [-> | Hin]; [now left | right].
        cbn [app]. right. right. apply in_or_app. now right. }
      split.
      { cbn [app forallb loop_event andb]. rewrite forallb_app, Hloop.
        now rewrite (in_message_all_loop _ _ Hall). }
      intros c t m Hin. cbn [app In] in Hin.
      destruct Hin as [H | [H | Hin]]; [discriminate H | |].
      * injection H as <- <- _. rewrite Hs1. split; [reflexivity | lia].
      * apply in_app_or in Hin as [Hin | Hin].
        -- rewrite forallb_forall in Hall. apply Hall in Hin. discriminate Hin.
        -- apply Hprog in Hin as (-> & Hlt & Hle').
           rewrite Hw4s, Ht4, Hs3, Hst2. split; [reflexivity | lia].
Qed.

(* --------------------------------------------------------------------- *)
(** ** The batch *)
(* --------------------------------------------------------------------- *)

Lemma pystr_eqb_refl (a : pystr) : PyStr.eqb a a = true.
Proof. induction a as [|x a IH]; simpl; [reflexivity|]. now rewrite N.eqb_refl. Qed.

Lemma pystr_eqb_eq (a b : pystr) : PyStr.eqb a b = true <-> a = b.
Proof.
  revert b. induction a as [|x a IH]; destruct b as [|y b]; simpl;
    try (split; [discriminate | discriminate]); [tauto|].
  rewrite andb_true_iff, N.eqb_eq, IH. split.
  - now intros [-> ->].
  - intros H. injection H as -> ->. now split.
Qed.

Lemma add_if_absent_in name cs : In name (Outlook.add_if_absent name cs).
Proof.
  unfold Outlook.add_if_absent. destruct (existsb (PyStr.eqb name) cs) eqn:Hex.
  - apply existsb_exists in Hex as (x & Hx & Heq).
    apply pystr_eqb_eq in Heq. now subst x.
  - apply in_or_app. right. now left.
Qed.

Lemma add_if_absent_keeps name x cs :
  In x cs -> In x (Outlook.add_if_absent name cs).
Proof.
  unfold Outlook.add_if_absent. destruct (existsb (PyStr.eqb name) cs); auto.
  intros H. apply in_or_app. now left.
Qed.

Lemma walk_folders_run E parts : forall current w,
  exists o,
    Outlook.walk_folders E current parts w = (o, w)
    /\ ((exists f, o = Val f) \/ (exists c, o = Exc (ComError c))).
Proof.
  induction parts as [|part rest IH]; intros current w; cbn.
  - eexists. split; [reflexivity|]. left. now eexists.
  - unfold bind, round_trip. destruct (Folders E (Some current) part); cbn.
    + apply IH.
    + eexists. split; [reflexivity|]. right. now eexists.
Qed.

Lemma get_folder_by_path_run E p w :
  exists o d w',
    Outlook.get_folder_by_path E p w = (o, w')
    /\ ((exists f, o = Val f) \/ (exists m, o = Exc (OutlookError m)))
    /\ trace w' = trace w ++ d
    /\ forallb is_connect_event d = true
    /\ stats w' = stats w /\ results w' = results w
    /\ categories w' = categories w /\ _temp_dir w' = _temp_dir w
    /\ _is_running w' = _is_running w /\ _should_stop w' = _should_stop w.
Proof.
  unfold Outlook.get_folder_by_path, Outlook.is_connected, Outlook.connect,
    try_except, bind, gets, modify, emit, ret, raise, round_trip.
  destruct (connected w); cbn -[app Outlook.walk_folders].
  2: destruct (Dispatch E); cbn -[app Outlook.walk_folders].
  3: { do 3 eexists. split; [reflexivity|]. split; [right; now eexists|].
       split; [reflexivity|]. repeat split. }
  all: destruct (filter PyStr.truthy (PyStr.split 92%N p)) as [|head parts].
  all: cbn -[app Outlook.walk_folders].
  all: try destruct (Folders E None head); cbn -[app Outlook.walk_folders].
  all: try match goal with
       | |- context [Outlook.walk_folders ?e ?c ?r ?w0] =>
           destruct (walk_folders_run e r c w0) as (o & -> & [[f ->] | [c' ->]])
       end.
  all: do 3 eexists; split; [reflexivity|].
  all: split; [first [left; now eexists | right; now eexists]|].
  all: cbn -[app].
  all: split; [first [ symmetry; apply app_nil_r | reflexivity ]|].
  all: repeat split.
Qed.

Section EnsuredScan.
Variable category : pystr.

Lemma ensured_scan_app d1 : forall seen d2,
  ensured_scan category seen (d1 ++ d2)
  = match ensured_scan category seen d1 with
    | Some seen' => ensured_scan category seen' d2
    | None => None
    end.
Proof.
  induction d1 as [|e d1 IH]; intros seen d2; [reflexivity|].
  cbn [app ensured_scan].
  destruct e as [| | | | |name [] []| | | | | | |]; cbn [loop_event];
    try apply IH; destruct (fst seen && snd seen); auto.
Qed.

Lemma ensured_scan_connect d : forall seen,
  forallb is_connect_event d = true -> ensured_scan category seen d = Some seen.
Proof.
  induction d as [|e d IH]; intros seen H; [reflexivity|].
  cbn in H. apply andb_prop in H as [He Hd].
  destruct e; try discriminate He. cbn. now apply IH.
Qed.

Lemma ensured_scan_loop d :
  forallb loop_event d = true ->
  ensured_scan category (true, true) d = Some (true, true).
Proof.
  induction d as [|e d IH]; intros H; [reflexivity|].
  cbn in H. apply andb_prop in H as [He Hd].
  destruct e; try discriminate He; cbn; now apply IH.
Qed.


End EnsuredScan.

Lemma connect_events_not_loop d :
  forallb is_connect_event d = true -> existsb loop_event d = false.
Proof.
  induction d as [|e d IH]; [reflexivity|]. cbn. intros H.
  apply andb_prop in H as [He Hd]. rewrite (IH Hd).
  destruct e; try discriminate He. reflexivity.
Qed.

Lemma connect_events_no_progress d c t m :
  forallb is_connect_event d = true -> ~ In (EvProgress c t m) d.
Proof.
  intros H Hin. rewrite forallb_forall in H. apply H in Hin. discriminate Hin.
Qed.

Ltac unfold_batch :=
  unfold process_emails, call, try_finally, try_except, cleanup,
    connect_outlook, Outlook.connect, Outlook.is_connected,
    Outlook.ensure_category_exists, get_matching_emails, _report_status,
    emit, bind, when, ret, return_, raise, gets, modify, round_trip, attempt.

Ltac batch_simpl :=
  cbn -[app Outlook.get_folder_by_path for_emails Sanitize.validate_keywords
        Nat.eqb List.length error_category status_connecting status_searching
        status_none_found status_finished status_error msg_no_connection
        Outlook.msg_connect Outlook.add_if_absent new_stats In ensured_scan
        existsb] in *;
  repeat match goal with
    | H : _temp_dir ?w = _ |- context [_temp_dir ?w] => rewrite H
    end.

Ltac batch_step E :=
  match goal with
  | |- context [mkdtemp E] => destruct (mkdtemp E) eqn:?
  | |- context [negb (connected ?w)] => destruct (connected w) eqn:?
  | |- context [match connected ?w with _ => _ end] =>
      destruct (connected w) eqn:?
  | |- context [Dispatch E] => destruct (Dispatch E) eqn:?
  | |- context [PyStr.truthy ?c] => destruct (PyStr.truthy c) eqn:?
  | |- context [AddCategory E ?n ?c] => destruct (AddCategory E n c) eqn:?
  | |- context [Sanitize.validate_keywords ?k] =>
      destruct (Sanitize.validate_keywords k) eqn:?
  | |- context [Outlook.get_folder_by_path E ?p ?w] =>
      let o := fresh "o" in
      destruct (get_folder_by_path_run E p w)
        as (o & dfolder & wf & -> & [[? ->] | [? ->]]
            & Hft & Hfc & Hfs & Hfr & Hfcat & Hftmp & Hfrun & Hfstop)
  | |- context [search_answer E] => destruct (search_answer E) eqn:?
  | |- context [Nat.eqb (List.length ?l) 0] =>
      destruct (Nat.eqb_spec (List.length l) 0) as [Hzero|Hsome]
  | |- context [for_emails E ?tf ?c ?ec ?i ?l ?w] =>
      destruct (for_emails_run E tf c ec l i w)
        as (dloop & wl & visited & -> & Hlt & (Hlcat & Hlconn & Hltmp & Hlrun)
            & Hln & Hltot & Hlproc & Hlout & Hllen & Hlend & Hlloop & Hlprog)
  end.

Ltac trace_rewrite :=
  repeat match goal with
    | H : trace ?w = _ |- context [trace ?w] => rewrite H
    end.

Ltac spread_in :=
  repeat (progress (cbn [In]; rewrite ?in_app_iff)).
Ltac spread_in_hyp H :=
  repeat (progress (cbn [In] in H; rewrite ?in_app_iff in H)).

Ltac no_loop_events Hex :=
  repeat (progress
            (cbn [existsb loop_event orb app] in Hex;
             rewrite ?existsb_app in Hex;
             try match goal with
               | H : forallb is_connect_event ?d = true |- _ =>
                   rewrite (connect_events_not_loop d H) in Hex
               end));
  discriminate Hex.

Ltac scan_trace :=
  repeat (progress
            (cbn [ensured_scan loop_event fst snd orb andb app];
             rewrite ?pystr_eqb_refl, ?orb_true_r;
             try rewrite ensured_scan_app;
             try match goal with
               | H : forallb is_connect_event ?d = true |- _ =>
                   rewrite (ensured_scan_connect _ d _ H)
               end;
             try match goal with
               | H : forallb loop_event ?d = true |- _ =>
                   rewrite (ensured_scan_loop _ d H)
               end)).

Lemma batch_run E mb ks tp cat uo df dt w :
  exists o w' d,
    process_emails E mb ks tp cat uo df dt w = (o, w')
    /\ trace w' = trace w ++ d
    /\ ((forall dir, mkdtemp E = Value dir ->
           o = Val (stats w') /\ _is_running w' = false)
        /\ (forall e, mkdtemp E = Raises e -> o = Exc e))
    /\ (connected w = false -> forall c, Dispatch E = ComFail c ->
          stats w' = new_stats /\ results w' = []
          /\ (forall dir, mkdtemp E = Value dir ->
                In (EvStatus (status_error (OutlookError msg_no_connection))) d))
    /\ (PyStr.truthy cat = true -> ensured_scan cat (false, false) d <> None)
    /\ (existsb loop_event d = true ->
          (PyStr.truthy cat = true -> In cat (categories w'))
          /\ In error_category (categories w'))
    /\ (processed (stats w') = List.length (results w')
        /\ outcomes (stats w') = processed (stats w')
        /\ processed (stats w') <= total (stats w'))
    /\ (total (stats w') = List.length (results w')
        \/ In (EvStopRead AtLoopHead true) d)
    /\ (forall c t m, In (EvProgress c t m) d -> c <= t).
Proof.
  unfold_batch.
  repeat (batch_simpl; batch_step E).
  all: batch_simpl.
  all: do 3 eexists; split; [reflexivity|].
  all: batch_simpl.
  all: split; [trace_rewrite; batch_simpl; rewrite <- ?app_assoc; cbn [app];
               reflexivity|].
  (* how the call ends *)
  all: split; [split; [intros dir Hdir; first [congruence | split; reflexivity]
                      | intros e' He'; congruence]|].
  (* a connection failure *)
  all: split; [intros Hc c' Hd;
               first [ congruence
                     | split; [reflexivity|]; split; [reflexivity|];
                       intros dir Hdir; first [congruence | in_trace] ]|].
  (* the order of the trace *)
  all: split; [intros Ht; first [congruence | scan_trace; discriminate]|].
  (* the categories are in the mailbox *)
  all: split; [intros Hex;
               first [ exfalso; no_loop_events Hex
                     | repeat match goal with
                         | H : categories ?w0 = _ |- context [categories ?w0] =>
                             rewrite H
                         end;
                       split;
                       [ intros Hcat;
                         first [ discriminate Hcat
                               | apply add_if_absent_keeps, add_if_absent_in ]
                       | apply add_if_absent_in ] ]|].
  all: unfold outcomes in *.
  all: try rewrite Hfs in *; try rewrite Hfr in *.
  all: cbn [processed total success failed skipped new_stats set_total
            List.length stats results] in *.
  (* the counters *)
  all: split; [lia|].
  (* all messages visited, or the loop was left *)
  all: split; [first [ left; lia
                     | destruct Hlend as [Hfull|Hbreak];
                       [left; lia | right; spread_in; tauto] ]|].
  (* the progress reports *)
  all: intros c t m Hin; spread_in_hyp Hin.
  all: repeat match goal with H : _ \/ _ |- _ => destruct H as [H|H] end.
  all: try discriminate.
  all: try contradiction.
  all: try (exfalso; eapply connect_events_no_progress; eassumption).
  all: match goal with
       | H : In (EvProgress _ _ _) _ |- _ =>
           apply Hlprog in H; destruct H as (-> & ? & ?)
       end.
  all: cbn [processed total success failed skipped new_stats set_total
            List.length stats results] in *.
  all: try rewrite Hfs in *.
  all: cbn [processed total success failed skipped new_stats set_total
            List.length stats results] in *.
  all: lia.
Qed.










(* --------------------------------------------------------------------- *)
(** ** The keyword search *)
(* --------------------------------------------------------------------- *)

Section FilterFacts.
Import Outlook.
Variable lower : pystr -> pystr.

Lemma scan_item_run keywords unread_only item acc (w : world) :
  scan_item lower keywords unread_only item (acc, w)
  = (Val tt, (if item_kept lower keywords unread_only item
              then acc ++ [item] else acc, w)).
Proof.
  unfold scan_item, item_kept, try_except, bind, round_trip, when, local, ret, raise.
  destruct (Class item) as [cls|]; cbn; [|reflexivity].
  destruct (N.eqb cls 43); cbn; [|reflexivity].
  destruct unread_only; cbn.
  - destruct (UnRead item) as [[]|]; cbn; try reflexivity.
    destruct (Subject item) as [subj|]; cbn; [|reflexivity].
    now destruct (any_keyword lower keywords _).
  - destruct (Subject item) as [subj|]; cbn; [|reflexivity].
    now destruct (any_keyword lower keywords _).
Qed.

Lemma for_items_run keywords unread_only items : forall acc (w : world),
  for_items lower keywords unread_only items (acc, w)
  = (Val tt, (acc ++ filter (item_kept lower keywords unread_only) items, w)).
Proof.
  induction items as [|item rest IH]; intros acc w; cbn [for_items filter].
  - unfold ret. now rewrite app_nil_r.
  - unfold bind. rewrite scan_item_run.
    destruct (item_kept lower keywords unread_only item); rewrite IH.
    + now rewrite <- app_assoc.
    + reflexivity.
Qed.

Lemma filter_emails_run E keywords unread_only items w :
  connected w = true ->
  filter_emails lower E (Value items) keywords unread_only w
  = (Val (filter (item_kept lower keywords unread_only) items), w).
Proof.
  intros Hc.
  unfold filter_emails, is_connected, bind, gets, call_local, try_except, attempt, ret.
  rewrite Hc. cbn. now rewrite for_items_run.
Qed.

End FilterFacts.

(** C7.  A scanned message (a mail item whose fields can be read and that
    passes the unread filter) is among the matches exactly when the
    lower-cased subject contains the lower-cased form of some keyword as a
    substring; on the subject "Invoice from ACME" the keywords "invoice"
    and "ACME" match and "acme corp" does not. *)
Theorem subject_keyword_match (lower : pystr -> pystr) E w items keywords unread_only :
  connected w = true ->
  (exists found,
     Outlook.filter_emails lower E (Value items) keywords unread_only w
     = (Val found, w)
     /\ forall item subj,
          In item items ->
          Outlook.Class item = ComOk 43%N ->
          (unread_only = true -> Outlook.UnRead item = ComOk true) ->
          Outlook.Subject item = ComOk subj ->
          (In item found <->
           exists kw pre post,
             In kw keywords
             /\ lower (match subj with Some t => t | None => [] end)
                = pre ++ lower kw ++ post))
  /\ Outlook.any_keyword PyStr.ascii_lower [py "invoice"]
       (PyStr.ascii_lower (py "Invoice from ACME")) = true
  /\ Outlook.any_keyword PyStr.ascii_lower [py "ACME"]
       (PyStr.ascii_lower (py "Invoice from ACME")) = true
  /\ Outlook.any_keyword PyStr.ascii_lower [py "acme corp"]
       (PyStr.ascii_lower (py "Invoice from ACME")) = false.
Proof.
  intros Hc. split; [|repeat split].
  exists (filter (item_kept lower keywords unread_only) items).
  split; [now apply filter_emails_run|].
  intros item subj Hin Hclass Hunread Hsubj.
  rewrite filter_In.
  assert (Hkept : item_kept lower keywords unread_only item
                  = Outlook.any_keyword lower keywords
                      (lower (match subj with Some t => t | None => [] end))).
  { unfold item_kept. rewrite Hclass, Hsubj. cbn.
    destruct unread_only; [rewrite (Hunread eq_refl)|]; reflexivity. }
  rewrite Hkept. unfold Outlook.any_keyword. rewrite existsb_exists. split.
  - intros [_ (kw & Hkw & Hcontains)]. apply contains_spec in Hcontains.
    destruct Hcontains as (pre & post & Heq). now exists kw, pre, post.
  - intros (kw & pre & post & Hkw & Heq). split; [exact Hin|].
    exists kw. split; [exact Hkw|]. apply contains_spec. now exists pre, post.
Qed.

Lemma subject_keyword_match_witness :
  (exists found,
     Outlook.filter_emails PyStr.ascii_lower (Samples.three_mails Samples.never)
       (Value [Inputs.invoice_item]) [py "invoice"] false Inputs.connected_world
     = (Val found, Inputs.connected_world)
     /\ forall item subj,
          In item [Inputs.invoice_item] ->
          Outlook.Class item = ComOk 43%N ->
          (false = true -> Outlook.UnRead item = ComOk true) ->
          Outlook.Subject item = ComOk subj ->
          (In item found <->
           exists kw pre post,
             In kw [py "invoice"]
             /\ PyStr.ascii_lower (match subj with Some t => t | None => [] end)
                = pre ++ PyStr.ascii_lower kw ++ post))
  /\ Outlook.any_keyword PyStr.ascii_lower [py "invoice"]
       (PyStr.ascii_lower (py "Invoice from ACME")) = true
  /\ Outlook.any_keyword PyStr.ascii_lower [py "ACME"]
       (PyStr.ascii_lower (py "Invoice from ACME")) = true
  /\ Outlook.any_keyword PyStr.ascii_lower [py "acme corp"]
       (PyStr.ascii_lower (py "Invoice from ACME")) = false.
Proof.
  apply (subject_keyword_match PyStr.ascii_lower (Samples.three_mails Samples.never)
           Inputs.connected_world [Inputs.invoice_item] [py "invoice"] false).
  reflexivity.
Defined.

Example invoice_item_is_found :
  fst (Outlook.filter_emails PyStr.ascii_lower (Samples.three_mails Samples.never)
         (Value [Inputs.invoice_item]) [py "acme corp"; py "INVOICE"] false Inputs.connected_world)
  = Val [Inputs.invoice_item].
Proof. reflexivity. Qed.


(* --------------------------------------------------------------------- *)
(** ** The merge with the attachments *)
(* --------------------------------------------------------------------- *)

Import Pdf.

Lemma merger_append_ends path st :
  exists o st', merger_append path st = (o, st') /\ o <> Ret.
Proof.
  unfold merger_append, bind, gets, modify, raise.
  destruct (read_file path (disk st)); do 2 eexists; (split; [reflexivity|discriminate]).
Qed.

Lemma append_converted_ends converted st :
  exists o st', append_converted converted st = (o, st') /\ o <> Ret.
Proof.
  unfold append_converted. destruct converted as [[temp_pdf d]|].
  - unfold bind at 1. unfold modify at 1. unfold bind at 1.
    match goal with |- context [merger_append temp_pdf ?s] =>
      destruct (merger_append_ends temp_pdf s) as (o & st1 & -> & Ho) end.
    destruct o as [[]| |e]; [|congruence|];
      do 2 eexists; (split; [reflexivity|discriminate]).
  - do 2 eexists. split; [reflexivity|discriminate].
Qed.

Lemma merge_attachment_total G att st :
  exists st', merge_attachment G att st = (Val tt, st').
Proof.
  unfold merge_attachment, bind, gets.
  destruct (read_file att (disk st)); [|now eexists].
  assert (Hends : forall (m : Py merge_state unit),
             (exists o st', m st = (o, st') /\ o <> Ret) ->
             exists st', try_except m (fun _ => ret tt) st = (Val tt, st')).
  { intros m (o & st1 & Hm & Ho). unfold try_except. rewrite Hm.
    destruct o as [[]| |e]; [|congruence|]; now eexists. }
  apply Hends.
  repeat match goal with
    | |- context [if ?b then _ else _] => destruct b
    end;
    first [ apply merger_append_ends | apply append_converted_ends
          | do 2 eexists; split; [reflexivity|discriminate] ].
Qed.

Lemma for_attachments_total G atts : forall st,
  exists st', for_attachments G atts st = (Val tt, st').
Proof.
  induction atts as [|att rest IH]; intros st; cbn [for_attachments].
  - now eexists.
  - unfold bind. destruct (merge_attachment_total G att st) as [st1 ->]. apply IH.
Qed.

(** When the final write fails, the merge returns the primary path. *)
Lemma merge_returns_primary_on_write_failure G primary atts st d :
  _has_pypdf2 G = true ->
  read_file primary (disk st) = Some d ->
  write_answer G <> Written ->
  exists st', _merge_with_attachments G primary atts st = (Val primary, st').
Proof.
  intros Hpy Hread Hwrite.
  unfold _merge_with_attachments. rewrite Hpy. cbn [negb].
  unfold bind at 1. unfold modify at 1.
  unfold bind at 1. unfold merger_append at 1. unfold bind at 1. unfold gets at 1.
  cbn [disk]. rewrite Hread. unfold modify at 1.
  unfold bind at 1.
  match goal with |- context [for_attachments G atts ?s] =>
    destruct (for_attachments_total G atts s) as [st1 ->] end.
  unfold try_except, bind, write_merged.
  destruct (write_answer G); [congruence| |]; cbn; now eexists.
Qed.

(** C8 (the code departs from the claim).  For a primary path in which
    [.pdf] occurs before the ending, the merge writes to the path with
    every occurrence replaced, not to the path whose ending alone is
    turned into [_complet.pdf]. *)
Theorem merged_path_replaces_every_pdf :
  fst (_merge_with_attachments (Inputs.plain_generator Written) Inputs.scan_primary
         [Inputs.order_pdf] Inputs.scan_disk)
  = Val (py "out/ACME_20240105_scan_complet.pdf_complet.pdf")
  /\ spec_merged_path Inputs.scan_primary = py "out/ACME_20240105_scan.pdf_complet.pdf"
  /\ PyStr.replace (py ".pdf") (py "_complet.pdf") Inputs.scan_primary
     <> spec_merged_path Inputs.scan_primary.
Proof. vm_compute. repeat split. discriminate. Qed.

Example merge_keeps_primary_when_write_fails :
  let run := _merge_with_attachments
               (Inputs.plain_generator (WriteFails [] (OtherError (py "disk full"))))
               Inputs.scan_primary [Inputs.order_pdf] Inputs.scan_disk in
  fst run = Val Inputs.scan_primary
  /\ read_file Inputs.scan_primary (disk (snd run)) = Some [1].
Proof. vm_compute. split; reflexivity. Qed.

(* --------------------------------------------------------------------- *)
(** ** Keywords *)
(* --------------------------------------------------------------------- *)

Section KeywordFacts.
Import PyStr Sanitize FileNames.

Lemma split_from_no_sep sep s : forall cur,
  ~ In sep cur -> Forall (fun piece => ~ In sep piece) (split_from sep cur s).
Proof.
  induction s as [|c s IH]; intros cur Hcur; cbn [split_from].
  - constructor; [|constructor]. now rewrite <- in_rev.
  - destruct (N.eqb_spec c sep) as [->|Hne].
    + constructor; [now rewrite <- in_rev|]. apply IH. intros [].
    + apply IH. intros [H|H]; [congruence | contradiction].
Qed.

Lemma not_in_drop_while (c : char) p s : ~ In c s -> ~ In c (drop_while p s).
Proof.
  intros H Hin. apply H. destruct (drop_while_suffix p s) as [pre E].
  rewrite E. apply in_or_app. now right.
Qed.

Lemma not_in_strip (c : char) s : ~ In c s -> ~ In c (strip s).
Proof.
  intros H. unfold strip, rstrip_by, lstrip_by. rewrite <- in_rev.
  apply not_in_drop_while. rewrite <- in_rev. now apply not_in_drop_while.
Qed.

Lemma truthy_nonempty (s : pystr) : truthy s = true <-> s <> [].
Proof. destruct s; simpl; split; congruence. Qed.

(** X1.  Every keyword that [validate_keywords] returns is non-empty, has
    no comma in it, and has no white space at either end. *)
Theorem validate_keywords_clean (keywords_str : pystr) :
  Forall clean_keyword (validate_keywords keywords_str).
Proof.
  unfold validate_keywords. destruct (negb (truthy keywords_str)); [constructor|].
  apply Forall_forall. intros kw Hin. apply filter_In in Hin as [Hin Hne].
  apply in_map_iff in Hin as (piece & <- & Hpiece).
  pose proof (split_from_no_sep 44%N keywords_str [] (fun H => H)) as Hsep.
  rewrite Forall_forall in Hsep. specialize (Hsep piece Hpiece).
  split; [now apply truthy_nonempty|]. split; [now apply not_in_strip|].
  unfold strip. apply strip_by_idem.
Qed.

Lemma split_from_piece sep a : forall cur,
  ~ In sep a -> split_from sep cur a = [rev cur ++ a].
Proof.
  induction a as [|c a IH]; intros cur Ha; cbn [split_from].
  - now rewrite app_nil_r.
  - destruct (N.eqb_spec c sep) as [->|Hne]; [elim Ha; now left|].
    rewrite IH by (intros H; apply Ha; now right).
    cbn [rev]. now rewrite <- app_assoc.
Qed.

Lemma split_from_app sep a rest : forall cur,
  ~ In sep a ->
  split_from sep cur (a ++ sep :: rest) = (rev cur ++ a) :: split_from sep [] rest.
Proof.
  induction a as [|c a IH]; intros cur Ha; cbn [split_from app].
  - now rewrite N.eqb_refl, app_nil_r.
  - destruct (N.eqb_spec c sep) as [->|Hne]; [elim Ha; now left|].
    rewrite IH by (intros H; apply Ha; now right).
    cbn [rev]. now rewrite <- app_assoc.
Qed.

Lemma split_join rest : forall kw cur,
  Forall (fun k => ~ In 44%N k) (kw :: rest) ->
  split_from 44%N cur (PyText.join (py ", ") (kw :: rest))
  = (rev cur ++ kw) :: map (cons space) rest.
Proof.
  induction rest as [|kw2 rest IH]; intros kw cur Hall.
  - cbn [PyText.join map]. apply split_from_piece. now inversion Hall.
  - inversion Hall as [|? ? Hkw Hrest]; subst.
    change (PyText.join (py ", ") (kw :: kw2 :: rest))
      with (kw ++ 44%N :: space :: PyText.join (py ", ") (kw2 :: rest)).
    rewrite split_from_app by exact Hkw.
    cbn [split_from]. change (N.eqb space 44) with false. cbv iota.
    rewrite IH by exact Hrest. reflexivity.
Qed.

Lemma strip_after_space s : strip (space :: s) = strip s.
Proof. reflexivity. Qed.

(** X2.  What [', '.join(keywords)] writes is read back by
    [validate_keywords]: for keywords that are non-empty, without comma and
    without white space at the ends, parsing the joined string gives the
    list again. *)
Theorem validate_keywords_join (keywords : list pystr) :
  Forall clean_keyword keywords ->
  validate_keywords (PyText.join (py ", ") keywords) = keywords.
Proof.
  intros Hall. destruct keywords as [|kw rest]; [reflexivity|].
  assert (Hcomma : Forall (fun k => ~ In 44%N k) (kw :: rest))
    by (eapply Forall_impl; [|exact Hall]; now intros k (_ & H & _)).
  unfold validate_keywords.
  assert (Hne : truthy (PyText.join (py ", ") (kw :: rest)) = true).
  { inversion Hall as [|? ? (Hkw & _) _]; subst.
    destruct kw; [congruence|]. now destruct rest. }
  rewrite Hne. cbn [negb]. unfold split. rewrite split_join by exact Hcomma.
  cbn [rev app map filter].
  inversion Hall as [|? ? (Hkw & _ & Hstrip) Hrest]; subst.
  rewrite Hstrip. rewrite (proj2 (truthy_nonempty kw) Hkw). f_equal.
  clear - Hrest. induction Hrest as [|k rest (Hk & _ & Hs) _ IH]; [reflexivity|].
  cbn [map filter]. rewrite strip_after_space, Hs.
  rewrite (proj2 (truthy_nonempty k) Hk). now f_equal.
Qed.

Lemma validate_keywords_join_witness :
  validate_keywords (PyText.join (py ", ") [py "facture"; py "bon de commande"])
  = [py "facture"; py "bon de commande"].
Proof.
  apply validate_keywords_join.
  repeat constructor; try discriminate;
    intros H; simpl in H; repeat (destruct H as [H|H]; [discriminate H|]);
    exact H.
Defined.

End KeywordFacts.

(* --------------------------------------------------------------------- *)
(** ** The shape of a sanitized text *)
(* --------------------------------------------------------------------- *)

Section SanitizeShape.
Import PyStr Sanitize.

Lemma spaces_normal_at s : forall b pre c post,
  spaces_normal b s = true -> s = pre ++ c :: post -> is_space c = true ->
  c = space /\ (forall c' post', post = c' :: post' -> is_space c' = false).
Proof.
  induction s as [|x s IH]; intros b pre c post Hn Heq Hc.
  - destruct pre; discriminate Heq.
  - destruct pre as [|y pre]; cbn [app] in Heq; injection Heq as -> ->.
    + cbn [spaces_normal] in Hn. rewrite Hc in Hn.
      apply andb_prop in Hn as [Hn Hrest]. apply andb_prop in Hn as [Hx _].
      apply N.eqb_eq in Hx. split; [exact Hx|].
      intros c' post' ->. cbn [spaces_normal] in Hrest.
      destruct (is_space c'); [|reflexivity].
      now rewrite andb_false_r in Hrest.
    + cbn [spaces_normal] in Hn. destruct (is_space y).
      * apply andb_prop in Hn as [_ Hrest].
        exact (IH true pre c post Hrest eq_refl Hc).
      * exact (IH false pre c post Hn eq_refl Hc).
Qed.

Lemma strip_chars_ends chars s :
  head_kept (fun c => mem c chars) (strip_chars chars s)
  /\ head_kept (fun c => mem c chars) (rev (strip_chars chars s)).
Proof.
  unfold strip_chars, lstrip_by. set (p := fun c => mem c chars). split.
  - destruct (rstrip_by_prefix p (drop_while p s)) as [post E].
    apply head_kept_prefix with post. rewrite <- E. apply drop_while_head.
  - unfold rstrip_by. rewrite rev_involutive. apply drop_while_head.
Qed.

(** X3.  With the default replacement, a sanitized text has no forbidden
    character and no control character, its white space is single plain
    spaces only, and it neither starts nor ends with a dot or a space. *)
Theorem sanitize_text_shape (x : pystr) :
  let y := sanitize_text x underscore in
  (forall c, In c y -> mem c FORBIDDEN_CHARS = false /\ is_control c = false)
  /\ (forall pre c post, y = pre ++ c :: post -> is_space c = true ->
        c = space /\ forall c' post', post = c' :: post' -> is_space c' = false)
  /\ (forall c rest, y = c :: rest -> c <> 46%N /\ c <> space)
  /\ (forall rest c, y = rest ++ [c] -> c <> 46%N /\ c <> space).
Proof.
  intros y. split; [|split; [|split]].
  - pose proof (sanitize_text_tidy x) as H. rewrite Forall_forall in H. exact H.
  - intros pre c post. apply (spaces_normal_at y false). subst y.
    rewrite sanitize_text_passes. apply spaces_normal_strip, sub_spaces_normal.
  - intros c rest Hy. subst y. rewrite sanitize_text_passes in Hy.
    destruct (strip_chars_ends (py ". ")
                (sub_spaces false (filter printable (map subst x)))) as [Hh _].
    rewrite Hy in Hh. cbn in Hh.
    split; intros ->; discriminate Hh.
  - intros rest c Hy. subst y. rewrite sanitize_text_passes in Hy.
    destruct (strip_chars_ends (py ". ")
                (sub_spaces false (filter printable (map subst x)))) as [_ Hh].
    rewrite Hy, rev_app_distr in Hh. cbn in Hh.
    split; intros ->; discriminate Hh.
Qed.

Lemma drop_while_length p s : List.length (drop_while p s) <= List.length s.
Proof.
  induction s as [|c s IH]; simpl; [lia|]. destruct (p c); simpl; lia.
Qed.

Lemma sub_spaces_length s : forall b,
  List.length (sub_spaces b s) <= List.length s.
Proof.
  induction s as [|c s IH]; intros b; simpl; [lia|].
  pose proof (IH true). pose proof (IH false).
  destruct (is_space c); [destruct b|]; simpl; lia.
Qed.

Lemma strip_chars_length chars s :
  List.length (strip_chars chars s) <= List.length s.
Proof.
  unfold strip_chars, rstrip_by, lstrip_by. rewrite length_rev.
  etransitivity; [apply drop_while_length|]. rewrite length_rev.
  apply drop_while_length.
Qed.

(** X4.  With the default replacement, a sanitized text is never longer
    than the text. *)
Theorem sanitize_text_length (x : pystr) :
  List.length (sanitize_text x underscore) <= List.length x.
Proof.
  rewrite sanitize_text_passes.
  etransitivity; [apply strip_chars_length|].
  etransitivity; [apply sub_spaces_length|].
  etransitivity; [apply filter_length_le|].
  now rewrite length_map.
Qed.

(** A character that every pass of [sanitize_text] keeps. *)
Lemma sanitize_text_keeps (c : char) (x : pystr) :
  mem c FORBIDDEN_CHARS = false -> is_control c = false ->
  is_space c = false -> mem c (py ". ") = false ->
  In c x -> In c (sanitize_text x underscore).
Proof.
  intros Hf Hc Hs Hd Hin. rewrite sanitize_text_passes.
  assert (Hdrop : forall p s, p c = false -> In c s -> In c (drop_while p s)).
  { intros p s Hp. induction s as [|a s IH]; [auto|]. intros [->|H]; simpl.
    - rewrite Hp. now left.
    - destruct (p a); [auto | now right]. }
  unfold strip_chars, rstrip_by, lstrip_by.
  apply -> in_rev. apply Hdrop; [exact Hd|]. apply in_rev. rewrite rev_involutive.
  apply Hdrop; [exact Hd|].
  assert (Hsub : forall s b, In c s -> In c (sub_spaces b s)).
  { induction s as [|a s IH]; intros b; [auto|]. intros [->|H]; simpl.
    - rewrite Hs. now left.
    - destruct (is_space a); [destruct b|]; simpl; auto. }
  apply Hsub. apply filter_In. split.
  - apply in_map_iff. exists c. split; [|exact Hin]. unfold subst. now rewrite Hf.
  - unfold printable. now rewrite Hc.
Qed.

End SanitizeShape.

(* --------------------------------------------------------------------- *)
(** ** File names *)
(* --------------------------------------------------------------------- *)

Section FileNameFacts.
Import PyStr Sanitize FileNames.

Variables upper capitalize : pystr -> pystr.
Variable datetime : Type.
Variable now : datetime.
Variables strftime_ymd strftime_stamp : datetime -> pystr.

Lemma Forall_firstn (P : char -> Prop) n (s : pystr) :
  Forall P s -> Forall P (firstn n s).
Proof.
  intros H. rewrite <- (firstn_skipn n s) in H.
  now apply Forall_app in H as [H _].
Qed.

Lemma take_while_app p a x b :
  Forall (fun c => p c = true) a -> p x = false ->
  Pdf.take_while p (a ++ x :: b) = a.
Proof.
  intros Ha Hx. induction Ha as [|c a Hc _ IH]; simpl.
  - now rewrite Hx.
  - now rewrite Hc, IH.
Qed.

Lemma drop_while_app p a x b :
  Forall (fun c => p c = true) a -> p x = false ->
  drop_while p (a ++ x :: b) = x :: b.
Proof.
  intros Ha Hx. induction Ha as [|c a Hc _ IH]; simpl.
  - now rewrite Hx.
  - now rewrite Hc, IH.
Qed.

Lemma mem_In c s : mem c s = true <-> In c s.
Proof.
  unfold mem. rewrite existsb_exists. split.
  - intros [x [Hx E]]. apply N.eqb_eq in E. now subst.
  - intros H. exists c. split; [exact H | apply N.eqb_refl].
Qed.

Lemma rsplit1_app sep before after :
  ~ In sep after ->
  PyText.rsplit1 sep (before ++ sep :: after) = Some (before, after).
Proof.
  intros Hn. unfold PyText.rsplit1.
  assert (Hm : mem sep (before ++ sep :: after) = true).
  { apply mem_In, in_or_app. right. now left. }
  rewrite Hm. rewrite rev_app_distr. cbn [rev]. rewrite <- app_assoc. cbn [app].
  assert (Ha : Forall (fun c => negb (N.eqb c sep) = true) (rev after)).
  { apply Forall_forall. intros c Hc. apply in_rev in Hc.
    apply negb_true_iff, N.eqb_neq. intros ->. contradiction. }
  assert (Hs : negb (N.eqb sep sep) = false) by now rewrite N.eqb_refl.
  rewrite (take_while_app _ _ _ _ Ha Hs), (drop_while_app _ _ _ _ Ha Hs).
  cbn [tl]. now rewrite !rev_involutive.
Qed.

Lemma tidy_fallback :
  Forall tidy (strftime_stamp now) -> Forall tidy (fallback_name datetime now strftime_stamp).
Proof.
  intros H. unfold fallback_name. apply Forall_app. split; [|exact H].
  repeat constructor.
Qed.

Lemma tidy_slice_to k s : Forall tidy s -> Forall tidy (PyText.slice_to k s).
Proof.
  intros H. unfold PyText.slice_to.
  destruct (0 <=? k)%Z; now apply Forall_firstn.
Qed.

Lemma tidy_extension filename :
  Forall tidy (snd (name_and_extension filename)).
Proof.
  unfold name_and_extension.
  destruct (PyText.rsplit1 46%N filename) as [[name ext]|]; cbn [snd].
  - apply Forall_app. split; [repeat constructor | apply sanitize_text_tidy].
  - constructor.
Qed.

(** X5.  [sanitize_filename] never returns the empty name. *)
Theorem sanitize_filename_nonempty (filename : pystr) (max_length : Z) :
  sanitize_filename upper datetime now strftime_stamp filename max_length <> [].
Proof.
  unfold sanitize_filename.
  destruct (truthy filename); cbn [negb]; [|discriminate].
  destruct (name_and_extension filename) as [name ext].
  match goal with
  | |- (if negb (truthy ?n) then _ else _) ++ _ <> [] =>
      destruct n as [|c r]; cbn [truthy negb]; discriminate
  end.
Qed.

(** X6.  When the name is not empty and its cleaned extension is at most
    [max_length] long, [sanitize_filename] returns at most [max_length]
    characters, unless the cleaned and truncated name is empty: then the
    time-stamped fallback name is put before the extension. *)
Theorem sanitize_filename_length (filename : pystr) (max_length : Z) :
  filename <> [] ->
  (Z.of_nat (List.length (snd (name_and_extension filename))) <= max_length)%Z ->
  (Z.of_nat (List.length (sanitize_filename upper datetime now strftime_stamp
                            filename max_length)) <= max_length)%Z
  \/ sanitize_filename upper datetime now strftime_stamp filename max_length
     = fallback_name datetime now strftime_stamp
       ++ snd (name_and_extension filename).
Proof.
  intros Hne Hext. unfold sanitize_filename.
  destruct filename as [|c0 r0]; [contradiction|]. cbn [truthy negb].
  destruct (name_and_extension (c0 :: r0)) as [name ext]. cbn [snd] in *.
  set (name1 := if existsb _ RESERVED_NAMES then _ else _).
  set (k := (max_length - Z.of_nat (List.length ext))%Z).
  set (name2 := if (k <? _)%Z then _ else _).
  assert (Hlen : (Z.of_nat (List.length name2) <= k)%Z).
  { subst name2. destruct (Z.ltb_spec k (Z.of_nat (List.length name1))) as [Hlt|Hle].
    - unfold PyText.slice_to. assert (0 <= k)%Z by lia.
      destruct (Z.leb_spec 0 k); [|lia]. rewrite length_firstn. lia.
    - lia. }
  destruct name2 as [|c r]; cbn [truthy negb].
  - right. reflexivity.
  - left. rewrite length_app. lia.
Qed.

(** X7.  When the time stamp is made of plain characters, every character
    of the name [sanitize_filename] returns is one: neither forbidden in a
    Windows file name nor a control character. *)
Theorem sanitize_filename_tidy (filename : pystr) (max_length : Z) :
  Forall tidy (strftime_stamp now) ->
  Forall tidy (sanitize_filename upper datetime now strftime_stamp
                 filename max_length).
Proof.
  intros Hs. unfold sanitize_filename.
  destruct (truthy filename); cbn [negb]; [|now apply tidy_fallback].
  pose proof (tidy_extension filename) as He.
  destruct (name_and_extension filename) as [name ext]. cbn [snd] in He.
  apply Forall_app. split; [|exact He].
  set (name1 := if existsb _ RESERVED_NAMES then _ else _).
  assert (H1 : Forall tidy name1).
  { subst name1. pose proof (sanitize_text_tidy name) as Ht.
    destruct (existsb _ _); [|exact Ht].
    apply Forall_app. split; [repeat constructor|].
    apply Forall_app. split; [exact Ht | repeat constructor]. }
  set (name2 := if (_ <? _)%Z then _ else _).
  assert (H2 : Forall tidy name2).
  { subst name2. destruct (_ <? _)%Z; [now apply tidy_slice_to | exact H1]. }
  destruct (truthy name2); cbn [negb]; [exact H2 | now apply tidy_fallback].
Qed.

(** X8.  [extract_company_name] and [extract_sender_name] return plain
    characters only: the result is the word [Inconnu] or a sanitized
    text. *)
Theorem extract_sender_name_tidy (sender : pystr) :
  Forall tidy (extract_company_name capitalize sender)
  /\ Forall tidy (extract_sender_name capitalize sender).
Proof.
  assert (Hc : forall a, Forall tidy (extract_company_name capitalize a)).
  { intros a. unfold extract_company_name.
    destruct (negb (truthy a) || negb (mem 64%N a));
      [repeat constructor | apply sanitize_text_tidy]. }
  split; [apply Hc|]. unfold extract_sender_name.
  destruct (truthy sender); cbn [negb]; [|repeat constructor].
  destruct (mem 60%N sender && mem 62%N sender).
  - destruct (truthy _); [apply sanitize_text_tidy | apply Hc].
  - destruct (mem 64%N sender); [apply Hc | apply sanitize_text_tidy].
Qed.

Lemma sanitize_filename_pdf (stem : pystr) :
  In 95%N stem ->
  exists name,
    sanitize_filename upper datetime now strftime_stamp (stem ++ py ".pdf") 200
    = name ++ py ".pdf"
    /\ name <> [] /\ List.length name <= 196 /\ Forall tidy name.
Proof.
  intros Hin. unfold sanitize_filename.
  assert (Ht : truthy (stem ++ py ".pdf") = true) by now destruct stem.
  rewrite Ht. cbn [negb].
  unfold name_and_extension.
  change (py ".pdf") with (46%N :: py "pdf") at 1 2.
  rewrite rsplit1_app by (cbn; intros [H|[H|[H|[]]]]; discriminate H).
  change (py "." ++ sanitize_text (py "pdf") underscore) with (py ".pdf").
  change (Z.of_nat (List.length (py ".pdf"))) with 4%Z.
  change (200 - 4)%Z with 196%Z.
  assert (Hk : In 95%N (sanitize_text stem underscore))
    by (apply sanitize_text_keeps; [reflexivity..|exact Hin]).
  pose proof (sanitize_text_tidy stem) as Htidy.
  set (name0 := sanitize_text stem underscore) in *.
  set (name1 := if existsb _ RESERVED_NAMES then _ else _).
  assert (H1 : In 95%N name1 /\ Forall tidy name1).
  { subst name1. destruct (existsb _ _); [|now split]. split.
    - now left.
    - apply Forall_app. split; [repeat constructor|].
      apply Forall_app. split; [exact Htidy | repeat constructor]. }
  destruct H1 as [Hin1 Ht1].
  set (name2 := if (_ <? _)%Z then _ else _).
  assert (H2 : name2 <> [] /\ List.length name2 <= 196 /\ Forall tidy name2).
  { subst name2. destruct (Z.ltb_spec 196 (Z.of_nat (List.length name1))) as [Hlt|Hle].
    - unfold PyText.slice_to. cbn [Z.leb Z.compare].
      change (Z.to_nat 196) with 196. split; [|split].
      + destruct name1; [destruct Hin1 | discriminate].
      + rewrite length_firstn. lia.
      + now apply Forall_firstn.
    - split; [|split; [lia | exact Ht1]].
      intros E. rewrite E in Hin1. destruct Hin1. }
  destruct H2 as [Hne [Hlen Ht2]]. exists name2.
  destruct name2 as [|c r]; [contradiction|]. cbn [truthy negb].
  repeat split; assumption.
Qed.

(** X9.  [generate_pdf_filename] always returns a non-empty name of plain
    characters followed by [.pdf], at most 200 characters in all, whatever
    the sender, the date and the subject. *)
Theorem generate_pdf_filename_shape (sender : pystr)
  (date_obj : option datetime) (subject : pystr) :
  exists name,
    generate_pdf_filename upper capitalize datetime now strftime_ymd
      strftime_stamp sender date_obj subject = name ++ py ".pdf"
    /\ name <> [] /\ List.length name <= 196 /\ Forall tidy name.
Proof.
  unfold generate_pdf_filename.
  set (company := extract_sender_name capitalize sender).
  set (date_str := format_date_for_filename datetime now strftime_ymd date_obj).
  destruct (truthy subject).
  - set (sc := firstn 50 _).
    replace (company ++ py "_" ++ date_str ++ py "_" ++ sc ++ py ".pdf")
      with ((company ++ py "_" ++ date_str ++ py "_" ++ sc) ++ py ".pdf")
      by (now rewrite <- !app_assoc).
    apply sanitize_filename_pdf. apply in_or_app. right. now left.
  - replace (company ++ py "_" ++ date_str ++ py ".pdf")
      with ((company ++ py "_" ++ date_str) ++ py ".pdf")
      by (now rewrite <- !app_assoc).
    apply sanitize_filename_pdf. apply in_or_app. right. now left.
Qed.

End FileNameFacts.

Lemma sanitize_filename_length_witness :
  (Z.of_nat (List.length
     (FileNames.sanitize_filename PyText.ascii_upper unit tt
        (fun _ => py "20240105_101500") (py "rapport final.txt") 12)) <= 12)%Z
  \/ FileNames.sanitize_filename PyText.ascii_upper unit tt
        (fun _ => py "20240105_101500") (py "rapport final.txt") 12
     = FileNames.fallback_name unit tt (fun _ => py "20240105_101500")
       ++ snd (FileNames.name_and_extension (py "rapport final.txt")).
Proof.
  apply (sanitize_filename_length PyText.ascii_upper unit tt
           (fun _ => py "20240105_101500") (py "rapport final.txt") 12).
  - discriminate.
  - vm_compute. discriminate.
Defined.

Lemma sanitize_filename_tidy_witness :
  Forall Sanitize.tidy
    (FileNames.sanitize_filename PyText.ascii_upper unit tt
       (fun _ => py "20240105_101500") (py "a<b>.t:t") 200).
Proof.
  apply (sanitize_filename_tidy PyText.ascii_upper unit tt
           (fun _ => py "20240105_101500") (py "a<b>.t:t") 200).
  repeat constructor.
Defined.

(* --------------------------------------------------------------------- *)
(** ** The results and the counters *)
(* --------------------------------------------------------------------- *)

Import Tally.

(** Every path through [_process_single_email], read from its result. *)
Lemma single_outcome E email tf cat ecat w :
  exists r d w',
    _process_single_email E email tf cat ecat w = (Val r, w')
    /\ trace w' = trace w ++ d
    /\ (stats w' = stats w /\ results w' = results w
        /\ categories w' = categories w /\ connected w' = connected w
        /\ _temp_dir w' = _temp_dir w /\ _is_running w' = _is_running w)
    /\ forallb (in_message (mail_id email)) d = true
    /\ result_of email r
    /\ ((exists path, pdf_path r = Some path)
        <-> In (EvGeneratePdf (mail_id email) true) d)
    /\ (status r = SUCCESS ->
          error_message r = None
          /\ In (EvGeneratePdf (mail_id email) true) d
          /\ forall site, ~ In (EvStopRead site true) d)
    /\ (status r = FAILED ->
          (exists m, error_message r = Some m)
          /\ exists ok, last d EvRmtree = EvSetCategory (mail_id email) ecat ok)
    /\ (status r = SKIPPED ->
          exists site,
            last d EvRmtree = EvStopRead site true
            /\ (site = BeforeStart -> error_message r = Some msg_interrupted)
            /\ (site <> BeforeStart -> error_message r = None))
    /\ settled r
    /\ (forall m f ok, In (EvMove m f ok) d -> tf = Some f)
    /\ (forall site, In (EvStopRead site true) d ->
          (exists w1, stop_requested E w1 = true) \/ _should_stop w = true)
    /\ (_should_stop w' = true ->
          (exists w1, stop_requested E w1 = true) \/ _should_stop w = true).
Proof.
  unfold_single.
  destruct tf.
  all: repeat (cbn -[app]; oracle_step E email).
  all: cbn -[app]; do 3 eexists; split; [reflexivity|].
  all: split; [cbn -[app]; rewrite <- ?app_assoc; cbn [app]; reflexivity|].
  all: split; [cbn; repeat split|].
  all: split; [cbn; rewrite ?Nat.eqb_refl; reflexivity|].
  all: split; [cbn; split; reflexivity|].
  all: unfold settled; cbn.
  all: split;
    [ split;
      [ intros [path Hp]; first [ discriminate Hp | in_trace ]
      | intros Hin; first [ now eexists | exfalso; intuition discriminate ] ] |].
  all: split;
    [ intros Hs; first [ discriminate Hs
                       | split; [reflexivity|]; split; [in_trace|];
                         intros site Hin; intuition discriminate ] |].
  all: split;
    [ intros Hs; first [ discriminate Hs
                       | split; [now eexists | now eexists] ] |].
  all: split;
    [ intros Hs; first [ discriminate Hs
        | eexists; split; [reflexivity|];
          split; [ intros Hsite; first [discriminate Hsite | reflexivity]
                 | intros Hsite; first [ reflexivity | now elim Hsite ] ] ] |].
  all: split; [auto|].
  all: split;
    [ intros m f ok Hin;
      repeat (destruct Hin as [Hin|Hin]; try discriminate Hin; try contradiction);
      first [ reflexivity | injection Hin as _ <- _; reflexivity ] |].
  all: split;
    [ intros site Hin;
      first [ solve [exfalso; intuition discriminate]
            | solve [left; eexists; eassumption]
            | solve [right; first [assumption | reflexivity]] ] |].
  all: intros Hs;
       first [ discriminate Hs
             | solve [left; eexists; eassumption]
             | solve [right; first [assumption | reflexivity]] ].
Qed.


Lemma count_status_app s rs1 rs2 :
  count_status s (rs1 ++ rs2) = count_status s rs1 + count_status s rs2.
Proof. unfold count_status. now rewrite filter_app, length_app. Qed.

Lemma count_result_tally r st :
  settled r ->
  total (count_result r st) = total st
  /\ processed (count_result r st) = processed st + 1
  /\ success (count_result r st) = success st + count_status SUCCESS [r]
  /\ failed (count_result r st) = failed st + count_status FAILED [r]
  /\ skipped (count_result r st) = skipped st + count_status SKIPPED [r].
Proof.
  unfold count_result, count_status. cbn [filter].
  intros [H | [H | H]]; rewrite H; cbn; lia.
Qed.


Lemma last_in_nonempty (d : list event) (e : event) :
  d <> [] -> In (last d e) d.
Proof.
  intros Hd. destruct (exists_last Hd) as (pre & x & ->).
  rewrite last_last. apply in_or_app. right. now left.
Qed.

(** The loop, read from the results it appends. *)
Lemma for_emails_tally E tf cat ecat emails : forall i w,
  exists d w' rs,
    for_emails E tf cat ecat i emails w = (Val tt, w')
    /\ trace w' = trace w ++ d
    /\ (categories w' = categories w /\ connected w' = connected w
        /\ _temp_dir w' = _temp_dir w /\ _is_running w' = _is_running w)
    /\ results w' = results w ++ rs
    /\ Forall2 result_of (firstn (List.length rs) emails) rs
    /\ Forall settled rs
    /\ (total (stats w') = total (stats w)
        /\ processed (stats w') = processed (stats w) + List.length rs
        /\ success (stats w') = success (stats w) + count_status SUCCESS rs
        /\ failed (stats w') = failed (stats w) + count_status FAILED rs
        /\ skipped (stats w') = skipped (stats w) + count_status SKIPPED rs)
    /\ (List.length rs = List.length emails
        \/ In (EvStopRead AtLoopHead true) d)
    /\ forallb loop_event d = true
    /\ (forall m f ok, In (EvMove m f ok) d -> tf = Some f)
    /\ (forall site, In (EvStopRead site true) d ->
          (exists w1, stop_requested E w1 = true) \/ _should_stop w = true)
    /\ (forall r, In r rs -> status r = SKIPPED ->
          exists site, In (EvStopRead site true) d).
Proof.
  induction emails as [|email rest IH]; intros i w.
  - exists [], w, []. cbn. rewrite !app_nil_r.
    split; [reflexivity|]. split; [reflexivity|]. split; [repeat split|].
    split; [reflexivity|]. split; [constructor|]. split; [constructor|].
    split; [unfold count_status; cbn; lia|]. split; [now left|].
    split; [reflexivity|]. split; [intros m f ok []|].
    split; [intros site []|]. intros r [].
  - cbn [for_emails]. unfold bind at 1.
    destruct (read_should_stop_run E AtLoopHead w)
      as (flag & w1 & -> & Hflag0 & Hflag & Ht1 & Hs1 & Hr1 & Hc1 & Hn1 & Hd1 & Hi1).
    assert (Horigin : flag = true ->
              (exists w1, stop_requested E w1 = true) \/ _should_stop w = true).
    { intros ->. symmetry in Hflag0. apply orb_prop in Hflag0 as [H|H];
        [left; now exists w | now right]. }
    destruct flag.
    + exists [EvStopRead AtLoopHead true], w1, [].
      rewrite Hs1, Hr1, app_nil_r. unfold ret.
      split; [reflexivity|]. split; [exact Ht1|].
      split; [repeat split; assumption|].
      split; [reflexivity|]. split; [constructor|]. split; [constructor|].
      split; [unfold count_status; cbn; lia|].
      split; [right; now left|]. split; [reflexivity|].
      split; [intros m f ok [H|[]]; discriminate H|].
      split; [intros site _; now apply Horigin|]. intros r [].
    + unfold bind, gets, _report_progress, emit, modify. cbn [fst snd].
      set (w2 := add_event _ w1).
      destruct (single_outcome E email tf cat ecat w2)
        as (r & d2 & w3 & -> & Ht3 & (Hs3 & Hr3 & Hc3 & Hn3 & Hd3 & Hi3) & Hall
            & Hof & _ & _ & _ & Hskip & Hsettled & Hmove & Hread & Hstop3).
      set (w4 := set_stats (count_result r) (set_results _ w3)).
      destruct (IH (S i) w4)
        as (d5 & w5 & rs & -> & Ht5 & (Hc5 & Hn5 & Hd5 & Hi5) & Hres & Hord
            & Hset & (Htot & Hproc & Hsuc & Hfail & Hskp) & Hend & Hloop
            & Hmove5 & Hread5 & Hskip5).
      destruct (count_result_tally r (stats w3) Hsettled)
        as (Ht4 & Hp4 & Hsu4 & Hf4 & Hsk4).
      assert (Hst2 : stats w2 = stats w) by (subst w2; cbn; exact Hs1).
      assert (Hw4s : stats w4 = count_result r (stats w3)) by reflexivity.
      assert (Hw4r : results w4 = results w3 ++ [r]) by reflexivity.
      assert (Hstop2 : _should_stop w2 = false) by (subst w2; cbn; exact Hflag).
      assert (Hstop4 : _should_stop w4 = _should_stop w3) by reflexivity.
      exists ([EvStopRead AtLoopHead false]
              ++ [EvProgress (i + 1) (total (stats w1)) (progress_message email)]
              ++ d2 ++ d5), w5, (r :: rs).
      split; [reflexivity|].
      split.
      { rewrite Ht5. subst w4. cbn [trace set_stats set_results]. rewrite Ht3.
        subst w2. cbn [trace add_event]. rewrite Ht1.
        now rewrite <- !app_assoc. }
      split.
      { subst w4 w2. cbn in *. repeat split; congruence. }
      split.
      { rewrite Hres, Hw4r, Hr3. subst w2. cbn [results add_event]. rewrite Hr1.
        now rewrite <- app_assoc. }
      split; [cbn [List.length firstn]; constructor; assumption|].
      split; [constructor; assumption|].
      split.
      { change (r :: rs) with ([r] ++ rs). rewrite !count_status_app.
        cbn [List.length app].
        rewrite Htot, Hproc, Hsuc, Hfail, Hskp, Hw4s, Ht4, Hp4, Hsu4, Hf4, Hsk4,
          Hs3, Hst2. repeat split; lia. }
      split.
      { destruct Hend as [Hfull | Hin]; [left; cbn; lia | right].
        cbn [app]. right. right. apply in_or_app. now right. }
      split.
      { cbn [app forallb loop_event andb]. rewrite forallb_app, Hloop.
        now rewrite (in_message_all_loop _ _ Hall). }
      split.
      { intros m f ok Hin. cbn [app In] in Hin.
        destruct Hin as [H | [H | Hin]]; [discriminate H | discriminate H |].
        apply in_app_or in Hin as [Hin | Hin]; eauto. }
      split.
      { intros site Hin. cbn [app In] in Hin.
        destruct Hin as [H | [H | Hin]]; [discriminate H | discriminate H |].
        apply in_app_or in Hin as [Hin | Hin].
        - destruct (Hread site Hin) as [H | H]; [now left | congruence].
        - destruct (Hread5 site Hin) as [H | H]; [now left|].
          rewrite Hstop4 in H. destruct (Hstop3 H) as [H' | H']; [now left | congruence]. }
      intros r0 [<- | Hin] Hst.
      * destruct (Hskip Hst) as (site & Hlast & _). exists site.
        cbn [app]. right. right. apply in_or_app. left.
        rewrite <- Hlast. apply last_in_nonempty.
        intros ->. discriminate Hlast.
      * destruct (Hskip5 r0 Hin Hst) as [site Hs]. exists site.
        cbn [app]. right. right. apply in_or_app. now right.
Qed.


Ltac tally_step E :=
  match goal with
  | |- context [mkdtemp E] => destruct (mkdtemp E) eqn:?
  | |- context [negb (connected ?w)] => destruct (connected w) eqn:?
  | |- context [match connected ?w with _ => _ end] =>
      destruct (connected w) eqn:?
  | |- context [Dispatch E] => destruct (Dispatch E) eqn:?
  | |- context [PyStr.truthy ?c] => destruct (PyStr.truthy c) eqn:?
  | |- context [AddCategory E ?n ?c] => destruct (AddCategory E n c) eqn:?
  | |- context [Sanitize.validate_keywords ?k] =>
      destruct (Sanitize.validate_keywords k) eqn:?
  | |- context [Outlook.get_folder_by_path E ?p ?w] =>
      let o := fresh "o" in
      destruct (get_folder_by_path_run E p w)
        as (o & dfolder & wf & Hfolder & [[? ->] | [? ->]]
            & Hft & Hfc & Hfs & Hfr & Hfcat & Hftmp & Hfrun & Hfstop);
      rewrite Hfolder
  | |- context [search_answer E] => destruct (search_answer E) eqn:?
  | |- context [Nat.eqb (List.length ?l) 0] =>
      destruct (Nat.eqb_spec (List.length l) 0) as [Hzero|Hsome]
  | |- context [for_emails E ?tf ?c ?ec ?i ?l ?w] =>
      destruct (for_emails_tally E tf c ec l i w)
        as (dloop & wl & rs & -> & Hlt & (Hlcat & Hlconn & Hltmp & Hlrun)
            & Hlres & Hlord & Hlset & (Hltot & Hlproc & Hlsuc & Hlfail & Hlskp)
            & Hlend & Hlloop & Hlmove & Hlread & Hlskip)
  end.

Lemma connect_events_only d e :
  forallb is_connect_event d = true -> In e d -> is_connect_event e = true.
Proof. intros H Hin. rewrite forallb_forall in H. auto. Qed.

Lemma loop_events_only d e :
  forallb loop_event d = true -> In e d -> loop_event e = true.
Proof. intros H Hin. rewrite forallb_forall in H. auto. Qed.

(** Splits a membership in a trace that is written out, and drops the
    events that cannot be the one looked for. *)
Ltac sift Hin :=
  spread_in_hyp Hin;
  repeat match goal with
    | H : _ \/ _ |- _ => destruct H as [H|H]
    end;
  try discriminate; try contradiction;
  try match goal with
    | Hc : forallb is_connect_event ?d = true, H : In _ ?d |- _ =>
        apply (connect_events_only d _ Hc) in H; discriminate H
    end;
  try match goal with
    | Hc : forallb loop_event ?d = true, H : In _ ?d |- _ =>
        apply (loop_events_only d _ Hc) in H; discriminate H
    end.

Ltac last_event :=
  repeat (progress (cbn [rev hd app]; rewrite ?rev_app_distr)).

(** Every path through [process_emails], read from its results. *)
Lemma batch_tally E mb ks tp cat uo df dt w :
  exists o w' d,
    process_emails E mb ks tp cat uo df dt w = (o, w')
    /\ trace w' = trace w ++ d
    /\ Forall settled (results w')
    /\ (success (stats w') = count_status SUCCESS (results w')
        /\ failed (stats w') = count_status FAILED (results w')
        /\ skipped (stats w') = count_status SKIPPED (results w'))
    /\ (forall emails, search_answer E = Value emails ->
          Forall2 result_of (firstn (List.length (results w')) emails) (results w'))
    /\ (forall m f ok, In (EvMove m f ok) d ->
          tp <> []
          /\ exists w0, fst (Outlook.get_folder_by_path E tp w0) = Val f)
    /\ (Sanitize.validate_keywords ks = [] ->
          stats w' = new_stats /\ results w' = [] /\ ~ In EvSearch d
          /\ existsb loop_event d = false)
    /\ (forall dir, mkdtemp E = Value dir ->
          hd EvMkdtemp (rev d) = EvRmtree /\ _temp_dir w' = Some dir)
    /\ (forall e, mkdtemp E = Raises e ->
          d = [EvMkdtemp] /\ _is_running w' = true
          /\ stats w' = new_stats /\ results w' = []
          /\ _temp_dir w' = _temp_dir w)
    /\ (forall site, In (EvStopRead site true) d ->
          exists w1, stop_requested E w1 = true)
    /\ (forall r, In r (results w') -> status r = SKIPPED ->
          exists site, In (EvStopRead site true) d)
    /\ (total (stats w') = List.length (results w')
        \/ In (EvStopRead AtLoopHead true) d).
Proof.
  unfold_batch.
  repeat (batch_simpl; tally_step E).
  all: batch_simpl.
  all: do 3 eexists; split; [reflexivity|].
  all: batch_simpl.
  all: split; [trace_rewrite; batch_simpl; rewrite <- ?app_assoc; cbn [app];
               reflexivity|].
  all: try rewrite Hlres.
  all: try rewrite Hfr in *; try rewrite Hfs in *; try rewrite Hfstop in *.
  all: cbn [processed total success failed skipped new_stats set_total
            List.length stats results app _should_stop] in *.
  (* the results are settled *)
  all: split; [first [ constructor | assumption ]|].
  (* the counters *)
  all: split; [first [ repeat split; reflexivity
                     | rewrite Hlsuc, Hlfail, Hlskp; repeat split; reflexivity ]|].
  (* the results follow the search *)
  all: split; [intros emails He;
               first [ discriminate He
                     | constructor
                     | injection He as <-; assumption ]|].
  (* the moves *)
  all: split;
    [ intros m f ok Hin; sift Hin;
      (match goal with
       | H : In (EvMove _ _ _) ?dl,
         Hm : forall m f ok, In (EvMove m f ok) ?dl -> _ |- _ =>
           apply Hm in H; first [ discriminate H | injection H as <- ]
       end;
       (split; [ intros ->; discriminate
               | match goal with
                 | H : Outlook.get_folder_by_path _ _ ?w0 = _ |- _ =>
                     exists w0; rewrite H; reflexivity
                 end ])) |].
  (* no keyword *)
  all: split;
    [ intros Hk; first [ discriminate Hk
                       | split; [reflexivity|]; split; [reflexivity|];
                         split; [intros Hin; now sift Hin | reflexivity] ] |].
  (* the workspace *)
  all: split;
    [ intros dir Hdir; first [ discriminate Hdir
                             | split; [last_event; reflexivity|];
                               rewrite ?Hltmp, ?Hftmp; cbn; congruence ] |].
  all: split;
    [ intros exc Hexc; first [ discriminate Hexc | repeat split; reflexivity ] |].
  (* the reads of the flag *)
  all: split;
    [ intros site Hin; sift Hin;
      (match goal with
       | H : In (EvStopRead _ true) ?dl,
         Hm : forall site, In (EvStopRead site true) ?dl -> _ |- _ =>
           apply Hm in H; destruct H as [H|H];
           [ exact H | cbn in H; rewrite ?Hfstop in H; discriminate H ]
       end) |].
  all: split;
    [ intros r Hin Hst;
      first [ contradiction
            | destruct (Hlskip r Hin Hst) as [site Hs]; exists site;
              spread_in; tauto ] |].
  all: first [ left; reflexivity
             | left; assumption
             | destruct Hlend as [Hfull|Hbreak];
               [ left; rewrite Hltot; cbn; rewrite ?Hfs; cbn; lia
               | right; spread_in; tauto ] ].
Qed.


Lemma last_snoc (d : list event) (e : event) :
  e <> EvRmtree -> last d EvRmtree = e -> exists pre, d = pre ++ [e].
Proof.
  intros Hne Hlast. exists (removelast d). apply trace_tail; [|exact Hlast].
  rewrite <- Hlast. apply last_in_nonempty. intros ->. cbn in Hlast. congruence.
Qed.

(** X10.  What the result of one message tells.  It carries the subject
    and the sender of the message, and a PDF path exactly when the
    generator returned one.  A SUCCESS result has no error message, and no
    read of the cancellation flag was positive.  A FAILED result has an
    error message, and the last step was the call that applies the error
    category.  A SKIPPED result ends on a positive read of the flag, and
    only the read before the start leaves an error message. *)
Theorem single_result_facts E email tf cat ecat w :
  exists r d w',
    _process_single_email E email tf cat ecat w = (Val r, w')
    /\ trace w' = trace w ++ d
    /\ (email_subject r = subject email /\ email_sender r = sender email)
    /\ ((exists path, pdf_path r = Some path)
        <-> In (EvGeneratePdf (mail_id email) true) d)
    /\ (status r = SUCCESS ->
          error_message r = None
          /\ In (EvGeneratePdf (mail_id email) true) d
          /\ forall site, ~ In (EvStopRead site true) d)
    /\ (status r = FAILED ->
          (exists m, error_message r = Some m)
          /\ exists pre ok, d = pre ++ [EvSetCategory (mail_id email) ecat ok])
    /\ (status r = SKIPPED ->
          exists pre site,
            d = pre ++ [EvStopRead site true]
            /\ (site = BeforeStart -> error_message r = Some msg_interrupted)
            /\ (site <> BeforeStart -> error_message r = None)).
Proof.
  destruct (single_outcome E email tf cat ecat w)
    as (r & d & w' & Hrun & Htrace & _ & _ & Hof & Hpdf & Hsucc & Hfail & Hskip & _).
  exists r, d, w'. split; [exact Hrun|]. split; [exact Htrace|].
  split; [exact Hof|]. split; [exact Hpdf|]. split; [exact Hsucc|]. split.
  - intros Hs. destruct (Hfail Hs) as [Hm [ok Hlast]]. split; [exact Hm|].
    destruct (last_snoc d (EvSetCategory (mail_id email) ecat ok)) as [pre Hd];
      [discriminate | exact Hlast |]. now exists pre, ok.
  - intros Hs. destruct (Hskip Hs) as (site & Hlast & H1 & H2).
    destruct (last_snoc d (EvStopRead site true)) as [pre Hd];
      [discriminate | exact Hlast |]. now exists pre, site.
Qed.

(** X11.  At the end of every run the three counters are the numbers of
    results with the status they count, and no result is left PENDING or
    IN_PROGRESS. *)
Theorem counters_count_results E mb ks tp cat uo df dt w :
  exists o w',
    process_emails E mb ks tp cat uo df dt w = (o, w')
    /\ success (stats w') = count_status SUCCESS (results w')
    /\ failed (stats w') = count_status FAILED (results w')
    /\ skipped (stats w') = count_status SKIPPED (results w')
    /\ count_status PENDING (results w') = 0
    /\ count_status IN_PROGRESS (results w') = 0.
Proof.
  destruct (batch_tally E mb ks tp cat uo df dt w)
    as (o & w' & d & Hrun & _ & Hset & (Hs & Hf & Hk) & _).
  exists o, w'. split; [exact Hrun|]. do 3 (split; [assumption|]).
  clear Hs Hf Hk.
  assert (Hnone : forall s, s = PENDING \/ s = IN_PROGRESS ->
                    count_status s (results w') = 0).
  { intros s Hs0. unfold count_status.
    induction Hset as [|r rs Hr _ IH]; [reflexivity|]. cbn [filter].
    destruct Hr as [Hr | [Hr | Hr]], Hs0 as [-> | ->]; rewrite Hr; cbn [status_eqb];
      exact IH. }
  split; apply Hnone; auto.
Qed.



(** X13.  A run moves a message only to the folder that the target path
    resolves to: with an empty target path, or one that
    [get_folder_by_path] cannot resolve, nothing is moved. *)
Theorem moves_go_to_target_folder E mb ks tp cat uo df dt w :
  exists o w' d,
    process_emails E mb ks tp cat uo df dt w = (o, w')
    /\ trace w' = trace w ++ d
    /\ forall m f ok, In (EvMove m f ok) d ->
         tp <> []
         /\ exists w0, fst (Outlook.get_folder_by_path E tp w0) = Val f.
Proof.
  destruct (batch_tally E mb ks tp cat uo df dt w)
    as (o & w' & d & Hrun & Htrace & _ & _ & _ & Hmove & _).
  now exists o, w', d.
Qed.

(** X14.  When no keyword is left after validation, the run searches
    nothing and touches no message: the statistics are all zero and the
    result list is empty. *)
Theorem no_keyword_no_search E mb ks tp cat uo df dt w :
  Sanitize.validate_keywords ks = [] ->
  exists o w' d,
    process_emails E mb ks tp cat uo df dt w = (o, w')
    /\ trace w' = trace w ++ d
    /\ stats w' = new_stats /\ results w' = []
    /\ ~ In EvSearch d
    /\ forall e, In e d -> loop_event e = false.
Proof.
  intros Hk.
  destruct (batch_tally E mb ks tp cat uo df dt w)
    as (o & w' & d & Hrun & Htrace & _ & _ & _ & _ & Hnone & _).
  destruct (Hnone Hk) as (Hs & Hr & Hsearch & Hloop).
  exists o, w', d. repeat (split; [assumption|]).
  intros e Hin. destruct (loop_event e) eqn:He; [|reflexivity].
  assert (Hex : existsb loop_event d = true)
    by (apply existsb_exists; now exists e).
  congruence.
Qed.


(** X16.  When the temporary workspace cannot be created, the error is
    raised to the caller before anything else is done, and the running
    flag stays set: the clean-up of the run is not reached. *)
Theorem workspace_failure_keeps_running E mb ks tp cat uo df dt w e :
  mkdtemp E = Raises e ->
  exists w',
    process_emails E mb ks tp cat uo df dt w = (Exc e, w')
    /\ trace w' = trace w ++ [EvMkdtemp]
    /\ _is_running w' = true
    /\ stats w' = new_stats /\ results w' = []
    /\ _temp_dir w' = _temp_dir w.
Proof.
  intros Hmk.
  destruct (batch_tally E mb ks tp cat uo df dt w)
    as (o & w' & d & Hrun & Htrace & _ & _ & _ & _ & _ & _ & Hfail & _).
  destruct (batch_run E mb ks tp cat uo df dt w)
    as (o2 & w2 & d2 & Hrun2 & _ & [_ Hexc] & _).
  rewrite Hrun in Hrun2. injection Hrun2 as <- <-.
  rewrite (Hexc e Hmk) in Hrun.
  destruct (Hfail e Hmk) as (Hd & Hr & Hs & Hres & Htmp).
  exists w'. rewrite Htrace, Hd. auto 10.
Qed.



Lemma no_keyword_no_search_witness :
  exists o w' d,
    process_emails (Samples.three_mails Samples.never) (py "Achats")
      Cases.blank_keywords [] (py "Traite") false None None Samples.idle_world
    = (o, w')
    /\ trace w' = trace Samples.idle_world ++ d
    /\ stats w' = new_stats /\ results w' = []
    /\ ~ In EvSearch d
    /\ forall e, In e d -> loop_event e = false.
Proof.
  apply (no_keyword_no_search (Samples.three_mails Samples.never)).
  vm_compute. reflexivity.
Defined.


Lemma workspace_failure_keeps_running_witness :
  exists w',
    process_emails Cases.no_workspace (py "Achats") (py "facture") []
      (py "Traite") false None None Samples.idle_world
    = (Exc (OtherError (py "No space left on device")), w')
    /\ trace w' = trace Samples.idle_world ++ [EvMkdtemp]
    /\ _is_running w' = true
    /\ stats w' = new_stats /\ results w' = []
    /\ _temp_dir w' = _temp_dir Samples.idle_world.
Proof.
  apply (workspace_failure_keeps_running Cases.no_workspace).
  reflexivity.
Defined.


(* --------------------------------------------------------------------- *)
(** ** The gateway: folders, search and listing *)
(* --------------------------------------------------------------------- *)

Section GatewayFacts.
Import Outlook Listing.

(** X18.  [get_folder_by_path] returns a folder or raises [OutlookError],
    never a provider error: the message tells that the path has no
    component, that a component was not found, or (when the gateway had to
    connect first) that the connection failed.  It touches nothing but the
    connection. *)
Theorem get_folder_by_path_outcomes E folder_path w :
  exists o d w',
    get_folder_by_path E folder_path w = (o, w')
    /\ trace w' = trace w ++ d
    /\ forallb is_connect_event d = true
    /\ ((exists f, o = Val f)
        \/ o = Exc (OutlookError (py "Chemin de dossier vide"))
        \/ o = Exc (OutlookError (msg_folder folder_path))
        \/ (connected w = false
            /\ exists cause, Dispatch E = ComFail cause
                 /\ o = Exc (OutlookError (msg_connect cause))))
    /\ (o = Exc (OutlookError (py "Chemin de dossier vide")) ->
          filter PyStr.truthy (PyStr.split 92%N folder_path) = [])
    /\ stats w' = stats w /\ results w' = results w
    /\ categories w' = categories w.
Proof.
  unfold get_folder_by_path, is_connected, connect,
    try_except, bind, gets, modify, emit, ret, raise, round_trip.
  destruct (connected w) eqn:Hc; cbn -[app walk_folders].
  2: destruct (Dispatch E) as [|cause] eqn:Hd; cbn -[app walk_folders].
  3: { do 3 eexists. split; [reflexivity|]. split; [reflexivity|].
       split; [reflexivity|]. split.
       - right. right. right. split; [reflexivity|]. now exists cause.
       - split; [|repeat split]. intros H. injection H as H.
         unfold msg_connect in H. discriminate H. }
  all: destruct (filter PyStr.truthy (PyStr.split 92%N folder_path))
         as [|head parts] eqn:Hparts.
  all: cbn -[app walk_folders].
  all: try destruct (Folders E None head); cbn -[app walk_folders].
  all: try match goal with
       | |- context [walk_folders ?e ?c ?r ?w0] =>
           destruct (walk_folders_run e r c w0) as (o & -> & [[f ->] | [c' ->]])
       end.
  all: do 3 eexists; split; [reflexivity|].
  all: cbn -[app].
  all: split; [first [ symmetry; apply app_nil_r | reflexivity ]|].
  all: split; [reflexivity|].
  all: split;
    [ first [ left; now eexists
            | right; left; reflexivity
            | right; right; left; reflexivity ] |].
  all: split; [|repeat split].
  all: intros H; first [ reflexivity | discriminate H | idtac ].
  all: injection H as H; unfold msg_folder in H; discriminate H.
Qed.

(** X19.  [connect_outlook] never raises: it answers whether the gateway
    is connected afterwards, which is the case exactly when the provider
    accepted the connection. *)
Theorem connect_outlook_reports_connection E w :
  exists b w',
    connect_outlook E w = (Val b, w')
    /\ connected w' = b
    /\ trace w' = trace w ++ [EvConnect b]
    /\ (b = true <-> exists u, Dispatch E = ComOk u)
    /\ stats w' = stats w /\ results w' = results w.
Proof.
  unfold connect_outlook, connect, try_except, bind, modify, emit, round_trip,
    raise, ret.
  destruct (Dispatch E) as [u|cause]; cbn.
  - do 2 eexists. split; [reflexivity|]. cbn. repeat split. intros _. now exists u.
  - do 2 eexists. split; [reflexivity|]. cbn. repeat split; try discriminate.
    intros [u Hu]. discriminate Hu.
Qed.

Variable lower : pystr -> pystr.

(** X20.  The matches of [filter_emails] are items of the folder, in the
    folder's order; each is a mail item whose class and subject could be
    read, and an unread one when only unread mail is asked for.  Without
    a keyword nothing matches. *)
Theorem filter_emails_sound E w items keywords unread_only :
  connected w = true ->
  exists found keep,
    filter_emails lower E (Value items) keywords unread_only w = (Val found, w)
    /\ found = filter keep items
    /\ (forall item, In item found ->
          Class item = ComOk 43%N
          /\ (exists subj, Subject item = ComOk subj)
          /\ (unread_only = true -> UnRead item = ComOk true))
    /\ (keywords = [] -> found = []).
Proof.
  intros Hc.
  exists (filter (item_kept lower keywords unread_only) items),
         (item_kept lower keywords unread_only).
  split; [now apply filter_emails_run|]. split; [reflexivity|]. split.
  - intros item Hin. apply filter_In in Hin as [_ Hk]. unfold item_kept in Hk.
    destruct (Class item) as [cls|]; [|discriminate Hk].
    apply andb_prop in Hk as [Hcls Hk]. apply N.eqb_eq in Hcls. subst cls.
    split; [reflexivity|].
    destruct unread_only.
    + destruct (UnRead item) as [unread|]; [|discriminate Hk].
      apply andb_prop in Hk as [-> Hk].
      destruct (Subject item) as [subj|]; [|discriminate Hk].
      split; [now exists subj | reflexivity].
    + cbn in Hk. destruct (Subject item) as [subj|]; [|discriminate Hk].
      split; [now exists subj | discriminate].
  - intros ->. induction items as [|item rest IH]; [reflexivity|].
    cbn [filter]. rewrite IH.
    assert (Hk : item_kept lower [] unread_only item = false).
    { unfold item_kept, any_keyword. cbn [existsb].
      destruct (Class item); [|reflexivity].
      destruct unread_only; [destruct (UnRead item) as [[]|]|];
        destruct (Subject item); cbn; now rewrite ?andb_false_r. }
    now rewrite Hk.
Qed.

(** X21.  What [filter_emails] does with a failure.  A provider error of
    the folder lookup is swallowed: the search answers the empty list.
    Any other error of the lookup is raised as it is.  A failed
    connection is raised as [OutlookError] before the folder is looked
    at. *)
Theorem filter_emails_failures E w keywords unread_only e :
  (connected w = true ->
     filter_emails lower E (Raises e) keywords unread_only w
     = (match e with ComError _ => Val [] | _ => Exc e end, w))
  /\ (connected w = false ->
      forall cause lookup, Dispatch E = ComFail cause ->
        exists w',
          filter_emails lower E lookup keywords unread_only w
          = (Exc (OutlookError (msg_connect cause)), w')
          /\ trace w' = trace w ++ [EvConnect false]
          /\ connected w' = false).
Proof.
  split.
  - intros Hc.
    unfold filter_emails, is_connected, bind, gets, call_local, try_except,
      attempt, ret, raise.
    rewrite Hc. cbn. destruct e; reflexivity.
  - intros Hc cause lookup Hd.
    unfold filter_emails, is_connected, connect, bind, gets, modify, emit,
      try_except, round_trip, raise, ret.
    rewrite Hc, Hd. cbn. eexists. split; [reflexivity|]. split; reflexivity.
Qed.

Lemma for_all_items_run limit items : forall count acc (w : world),
  exists count',
    for_all_items limit items ((count, acc), w)
    = (Val tt, ((count',
                 acc ++ firstn (Z.to_nat (limit - count)) (filter is_mail items)),
                w)).
Proof.
  induction items as [|item rest IH]; intros count acc w; cbn [for_all_items filter].
  - exists count. unfold ret. now rewrite firstn_nil, app_nil_r.
  - unfold bind at 1. unfold gets at 1. cbn [fst].
    destruct (Z.leb_spec limit count) as [Hle|Hlt].
    + exists count. unfold ret.
      replace (Z.to_nat (limit - count)) with 0 by lia.
      now rewrite firstn_O, app_nil_r.
    + assert (Hnat : Z.to_nat (limit - count)
                     = S (Z.to_nat (limit - (count + 1)))) by lia.
      unfold bind, take_item, try_except, round_trip, when, local, ret, raise.
      destruct (Class item) as [cls|cause] eqn:Hcls;
        cbn -[for_all_items Z.add Z.sub Z.to_nat firstn filter app is_mail].
      * destruct (N.eqb cls 43) eqn:H43;
          cbn -[for_all_items Z.add Z.sub Z.to_nat firstn filter app is_mail].
        -- assert (Hm : is_mail item = true) by (unfold is_mail; now rewrite Hcls).
           rewrite Hm.
           destruct (IH (count + 1)%Z (acc ++ [item]) w) as [count' ->].
           exists count'. rewrite <- app_assoc. cbn [app].
           rewrite Hnat. reflexivity.
        -- assert (Hm : is_mail item = false) by (unfold is_mail; now rewrite Hcls).
           rewrite Hm. apply IH.
      * assert (Hm : is_mail item = false) by (unfold is_mail; now rewrite Hcls).
        rewrite Hm. apply IH.
Qed.

(** X22.  [get_all_emails] answers the first [limit] mail items of the
    inbox, in the inbox's order: items of another class, and items whose
    class cannot be read, are passed over without being counted, and a
    limit of zero or less answers nothing. *)
Theorem get_all_emails_first_mails E w items limit :
  connected w = true ->
  get_all_emails E (Value items) limit w
  = (Val (firstn (Z.to_nat limit) (filter is_mail items)), w).
Proof.
  intros Hc.
  unfold get_all_emails, is_connected, bind, gets, call_local, try_except,
    attempt, ret.
  rewrite Hc. cbn [negb].
  destruct (for_all_items_run limit items 0%Z [] w) as [count' ->].
  cbn. now rewrite Z.sub_0_r.
Qed.

End GatewayFacts.

Lemma filter_emails_sound_witness :
  exists found keep,
    Outlook.filter_emails PyStr.ascii_lower (Samples.three_mails Samples.never)
      (Value Listing.mixed_items) [py "facture"] true Inputs.connected_world
    = (Val found, Inputs.connected_world)
    /\ found = filter keep Listing.mixed_items
    /\ (forall item, In item found ->
          Outlook.Class item = ComOk 43%N
          /\ (exists subj, Outlook.Subject item = ComOk subj)
          /\ (true = true -> Outlook.UnRead item = ComOk true))
    /\ ([py "facture"] = [] -> found = []).
Proof.
  apply (filter_emails_sound PyStr.ascii_lower (Samples.three_mails Samples.never)
           Inputs.connected_world Listing.mixed_items [py "facture"] true).
  reflexivity.
Defined.

Lemma filter_emails_failures_witness :
  Outlook.filter_emails PyStr.ascii_lower Samples.outlook_down
    (Raises (ComError Samples.provider_down)) [py "facture"] false
    Inputs.connected_world
  = (Val [], Inputs.connected_world)
  /\ exists w',
       Outlook.filter_emails PyStr.ascii_lower Samples.outlook_down
         (Value Listing.mixed_items) [py "facture"] false Samples.idle_world
       = (Exc (OutlookError (Outlook.msg_connect Samples.provider_down)), w')
       /\ trace w' = trace Samples.idle_world ++ [EvConnect false]
       /\ connected w' = false.
Proof.
  split.
  - apply (filter_emails_failures PyStr.ascii_lower Samples.outlook_down
             Inputs.connected_world [py "facture"] false
             (ComError Samples.provider_down)).
    reflexivity.
  - apply (filter_emails_failures PyStr.ascii_lower Samples.outlook_down
             Samples.idle_world [py "facture"] false
             (ComError Samples.provider_down)); reflexivity.
Defined.

Lemma get_all_emails_first_mails_witness :
  Listing.get_all_emails (Samples.three_mails Samples.never)
    (Value Listing.mixed_items) 2 Inputs.connected_world
  = (Val (firstn (Z.to_nat 2) (filter Listing.is_mail Listing.mixed_items)),
     Inputs.connected_world).
Proof.
  apply (get_all_emails_first_mails (Samples.three_mails Samples.never)
           Inputs.connected_world Listing.mixed_items 2).
  reflexivity.
Defined.

(* --------------------------------------------------------------------- *)
(** ** The name of the output file *)
(* --------------------------------------------------------------------- *)

Section FreePath.
Import Render.

Lemma digits_inj u : forall v, PyText.digits u = PyText.digits v -> u = v.
Proof.
  induction u as [|u IH|u IH|u IH|u IH|u IH|u IH|u IH|u IH|u IH|u IH];
    intros [|v|v|v|v|v|v|v|v|v|v] H; cbn in H;
    try discriminate H; try reflexivity;
    injection H as H; f_equal; now apply IH.
Qed.

Lemma str_of_nat_inj j k : PyText.str_of_nat j = PyText.str_of_nat k -> j = k.
Proof.
  unfold PyText.str_of_nat. intros H. apply digits_inj in H.
  rewrite <- (DecimalNat.Unsigned.of_to j), <- (DecimalNat.Unsigned.of_to k).
  now rewrite H.
Qed.

Lemma numbered_inj base ext j k :
  numbered base ext j = numbered base ext k -> j = k.
Proof.
  unfold numbered. intros H.
  apply app_inv_head in H. apply app_inv_head in H. apply app_inv_tail in H.
  now apply str_of_nat_inj.
Qed.

Lemma exists_in path files :
  exists_ path files = true -> In path (map fst files).
Proof.
  unfold exists_. induction files as [|[p d] rest IH]; cbn [read_file map fst];
    [discriminate|].
  destruct (PyStr.eqb p path) eqn:Heq.
  - intros _. left. now apply pystr_eqb_eq.
  - intros H. right. now apply IH.
Qed.

(** No disk holds all the numbered names of a range longer than it. *)
Lemma numbered_names_run_out base ext files k n :
  (forall j, k <= j < k + n -> exists_ (numbered base ext j) files = true) ->
  n <= List.length files.
Proof.
  intros Hall.
  assert (Hlen : List.length (map (numbered base ext) (seq k n)) = n)
    by now rewrite length_map, length_seq.
  rewrite <- Hlen at 1. rewrite <- (length_map fst files).
  apply NoDup_incl_length.
  - apply NoDup_map_NoDup_ForallPairs; [|apply seq_NoDup].
    intros a b _ _. apply numbered_inj.
  - intros path Hin. apply in_map_iff in Hin as (j & <- & Hj).
    apply in_seq in Hj. apply exists_in, Hall. lia.
Qed.

Lemma free_path_run base ext files fuel : forall output_path counter,
  match free_path fuel base ext files output_path counter with
  | Some q =>
      exists_ q files = false
      /\ (exists_ output_path files = false -> q = output_path)
      /\ (exists_ output_path files = true ->
            exists k, counter <= k /\ q = numbered base ext k
              /\ forall j, counter <= j < k ->
                   exists_ (numbered base ext j) files = true)
  | None =>
      fuel = 0
      \/ (exists_ output_path files = true
          /\ forall j, counter <= j < counter + (fuel - 1) ->
               exists_ (numbered base ext j) files = true)
  end.
Proof.
  induction fuel as [|fuel IH]; intros output_path counter; cbn [free_path].
  - now left.
  - destruct (exists_ output_path files) eqn:Hp.
    + specialize (IH (numbered base ext counter) (S counter)).
      destruct (free_path fuel base ext files (numbered base ext counter) (S counter))
        as [q|].
      * destruct IH as (Hq & Hfree & Hbusy). split; [exact Hq|].
        split; [discriminate|]. intros _.
        destruct (exists_ (numbered base ext counter) files) eqn:Hc.
        -- destruct (Hbusy eq_refl) as (k & Hk & -> & Hall).
           exists k. split; [lia|]. split; [reflexivity|].
           intros j Hj. destruct (Nat.eq_dec j counter) as [->|Hne];
             [exact Hc | apply Hall; lia].
        -- exists counter. split; [lia|]. split; [now apply Hfree|].
           intros j Hj. lia.
      * right. split; [reflexivity|]. intros j Hj.
        destruct IH as [-> | [Hc Hall]]; [lia|].
        destruct (Nat.eq_dec j counter) as [->|Hne]; [exact Hc | apply Hall; lia].
    + split; [exact Hp|]. split; [reflexivity | discriminate].
Qed.

(** X23.  The loop that avoids an existing output file ends on every
    disk, within two more tests than the disk has files.  The path it
    finds is not on the disk: it is the requested path when that one is
    free, and otherwise the numbered path with the least counter, from 1,
    that is free. *)
Theorem free_path_found base ext files output_path :
  exists q,
    free_path (enough files) base ext files output_path 1 = Some q
    /\ exists_ q files = false
    /\ (exists_ output_path files = false -> q = output_path)
    /\ (exists_ output_path files = true ->
          exists k, 1 <= k /\ q = numbered base ext k
            /\ forall j, 1 <= j < k ->
                 exists_ (numbered base ext j) files = true).
Proof.
  pose proof (free_path_run base ext files (enough files) output_path 1) as H.
  destruct (free_path (enough files) base ext files output_path 1) as [q|].
  - now exists q.
  - exfalso. destruct H as [H | [_ Hall]]; [discriminate H|].
    unfold enough in Hall. cbn [Nat.sub] in Hall.
    pose proof (numbered_names_run_out base ext files 1
                  (S (List.length files))) as Hle.
    assert (S (List.length files) <= List.length files); [|lia].
    apply Hle. intros j Hj. apply Hall. lia.
Qed.

End FreePath.

(* --------------------------------------------------------------------- *)
(** ** The merged document and the temporary files *)
(* --------------------------------------------------------------------- *)

Section MergeFacts.
Import Render.

Lemma exists_write path p d files :
  exists_ path files = true -> exists_ path (write_file p d files) = true.
Proof.
  unfold exists_, write_file. cbn [read_file].
  now destruct (PyStr.eqb p path).
Qed.

Lemma exists_written p d files : exists_ p (write_file p d files) = true.
Proof. unfold exists_, write_file. cbn [read_file]. now rewrite pystr_eqb_refl. Qed.

(** What one attachment does to the merge: pages are only added to the
    merged document, temporary files are only added to the list, each new
    one is on the disk, and no file leaves the disk. *)
Lemma merge_attachment_inv G att st :
  exists st',
    merge_attachment G att st = (Val tt, st')
    /\ (exists pages, merger st' = merger st ++ pages)
    /\ (exists new, temp_files st' = temp_files st ++ new
          /\ Forall (fun t => exists_ t (disk st') = true) new)
    /\ (forall p, exists_ p (disk st) = true -> exists_ p (disk st') = true).
Proof.
  assert (Hsame : exists st',
             (Val tt, st) = (@Val unit tt, st')
             /\ (exists pages, merger st' = merger st ++ pages)
             /\ (exists new, temp_files st' = temp_files st ++ new
                   /\ Forall (fun t => exists_ t (disk st') = true) new)
             /\ (forall p, exists_ p (disk st) = true -> exists_ p (disk st') = true)).
  { exists st. split; [reflexivity|]. split; [exists []; now rewrite app_nil_r|].
    split; [exists []; split; [now rewrite app_nil_r | constructor]|]. auto. }
  assert (Hconv : forall converted, exists st',
             try_except (append_converted converted) (fun _ => ret tt) st
             = (Val tt, st')
             /\ (exists pages, merger st' = merger st ++ pages)
             /\ (exists new, temp_files st' = temp_files st ++ new
                   /\ Forall (fun t => exists_ t (disk st') = true) new)
             /\ (forall p, exists_ p (disk st) = true -> exists_ p (disk st') = true)).
  { intros [[t d]|]; [|exact Hsame].
    unfold try_except, append_converted, merger_append, bind, gets, modify, raise.
    cbn [disk merger temp_files]. unfold write_file at 1. cbn [read_file].
    rewrite pystr_eqb_refl. cbn [disk merger temp_files].
    eexists. split; [reflexivity|]. cbn [disk merger temp_files].
    split; [now exists d|]. split.
    - exists [t]. split; [reflexivity|]. constructor; [|constructor].
      apply exists_written.
    - intros p. apply exists_write. }
  unfold merge_attachment. unfold bind at 1. unfold gets at 1.
  destruct (read_file att (disk st)) as [d|] eqn:Hread; [|exact Hsame].
  repeat match goal with
    | |- context [if ?b then _ else _] => destruct b
    end;
    try apply Hconv; try exact Hsame.
  unfold try_except, merger_append, bind, gets, modify. rewrite Hread.
  eexists. split; [reflexivity|]. cbn [disk merger temp_files].
  split; [now exists d|].
  split; [exists []; split; [now rewrite app_nil_r | constructor]|]. auto.
Qed.

Lemma for_attachments_inv G atts : forall st,
  exists st',
    for_attachments G atts st = (Val tt, st')
    /\ (exists pages, merger st' = merger st ++ pages)
    /\ (exists new, temp_files st' = temp_files st ++ new
          /\ Forall (fun t => exists_ t (disk st') = true) new)
    /\ (forall p, exists_ p (disk st) = true -> exists_ p (disk st') = true).
Proof.
  induction atts as [|att rest IH]; intros st; cbn [for_attachments].
  - exists st. split; [reflexivity|]. split; [exists []; now rewrite app_nil_r|].
    split; [exists []; split; [now rewrite app_nil_r | constructor]|]. auto.
  - unfold bind.
    destruct (merge_attachment_inv G att st)
      as (st1 & -> & [pg1 Hm1] & (new1 & Ht1 & Hn1) & Hd1).
    destruct (IH st1) as (st2 & -> & [pg2 Hm2] & (new2 & Ht2 & Hn2) & Hd2).
    exists st2. split; [reflexivity|].
    split; [exists (pg1 ++ pg2); now rewrite Hm2, Hm1, app_assoc|].
    split; [|auto].
    exists (new1 ++ new2). split; [now rewrite Ht2, Ht1, app_assoc|].
    apply Forall_app. split; [|exact Hn2].
    rewrite Forall_forall in *. auto.
Qed.

Lemma read_removed t ts : forall files,
  In t ts ->
  read_file t (fold_left (fun fs x => remove_file x fs) ts files) = None.
Proof.
  assert (Hgone : forall files, read_file t (remove_file t files) = None).
  { induction files as [|[p d] rest IH]; [reflexivity|].
    unfold remove_file in *. cbn [filter fst].
    destruct (PyStr.eqb p t) eqn:Heq; cbn [negb]; [exact IH|].
    cbn [read_file]. now rewrite Heq. }
  assert (Hstay : forall x files, read_file t files = None ->
                    read_file t (remove_file x files) = None).
  { intros x. induction files as [|[p d] rest IH]; [reflexivity|].
    cbn [read_file]. destruct (PyStr.eqb p t) eqn:Heq; [discriminate|].
    intros H. unfold remove_file in *. cbn [filter fst].
    destruct (negb (PyStr.eqb p x)); [|now apply IH].
    cbn [read_file]. rewrite Heq. now apply IH. }
  assert (Hfold : forall l files, read_file t files = None ->
                    read_file t (fold_left (fun fs x => remove_file x fs) l files)
                    = None).
  { induction l as [|x l IH]; intros files H; [exact H|]. cbn [fold_left].
    apply IH, Hstay, H. }
  induction ts as [|x ts IH]; intros files Hin; [destruct Hin|].
  cbn [fold_left]. destruct Hin as [-> | Hin]; [apply Hfold, Hgone | now apply IH].
Qed.

Lemma read_kept p ts : forall files,
  ~ In p ts ->
  read_file p (fold_left (fun fs x => remove_file x fs) ts files)
  = read_file p files.
Proof.
  assert (Hone : forall x files, x <> p ->
                   read_file p (remove_file x files) = read_file p files).
  { intros x files Hne. induction files as [|[q d] rest IH]; [reflexivity|].
    unfold remove_file in *. cbn [filter fst read_file].
    destruct (PyStr.eqb q x) eqn:Hqx; cbn [negb].
    - apply pystr_eqb_eq in Hqx. subst q.
      destruct (PyStr.eqb x p) eqn:Hxp; [|exact IH].
      apply pystr_eqb_eq in Hxp. contradiction.
    - cbn [read_file]. now rewrite IH. }
  induction ts as [|x ts IH]; intros files Hnin; [reflexivity|].
  cbn [fold_left]. rewrite IH by (intros H; apply Hnin; now right).
  apply Hone. intros ->. apply Hnin. now left.
Qed.

(** X24.  When the merged document cannot be written, the merge answers
    the primary path, and the temporary files of the converted attachments
    are left on the disk: their removal is on the successful path only. *)
Theorem failed_merge_leaves_temp_files G primary atts st d :
  _has_pypdf2 G = true ->
  read_file primary (disk st) = Some d ->
  write_answer G <> Written ->
  exists st',
    _merge_with_attachments G primary atts st = (Val primary, st')
    /\ Forall (fun t => exists_ t (disk st') = true) (temp_files st')
    /\ exists_ primary (disk st') = true.
Proof.
  intros Hpy Hread Hwrite.
  unfold _merge_with_attachments. rewrite Hpy. cbn [negb].
  unfold bind at 1. unfold modify at 1.
  unfold bind at 1. unfold merger_append at 1. unfold bind at 1. unfold gets at 1.
  cbn [disk]. rewrite Hread. unfold modify at 1. unfold bind at 1.
  match goal with |- context [for_attachments G atts ?s] =>
    destruct (for_attachments_inv G atts s)
      as (st1 & -> & _ & (new & Ht & Hnew) & Hkeep) end.
  cbn [disk temp_files app] in *.
  assert (Hprim : exists_ primary (disk st1) = true).
  { apply Hkeep. unfold exists_. now rewrite Hread. }
  unfold try_except, bind, write_merged, modify, raise, ret.
  destruct (write_answer G) as [|e|partial e]; [congruence| |].
  - eexists. split; [reflexivity|]. rewrite Ht. now split.
  - eexists. split; [reflexivity|]. cbn [disk temp_files]. rewrite Ht. split.
    + rewrite Forall_forall in *. intros t Hin. apply exists_write. auto.
    + now apply exists_write.
Qed.

(** X25.  When the merged document is written, the merge answers the
    path with [.pdf] replaced; the merged document begins with the pages
    of the primary document; and no temporary file of a converted
    attachment is left on the disk. *)
Theorem merge_removes_temp_files G primary atts st d :
  _has_pypdf2 G = true ->
  read_file primary (disk st) = Some d ->
  write_answer G = Written ->
  exists st' pages,
    _merge_with_attachments G primary atts st
    = (Val (PyStr.replace (py ".pdf") (py "_complet.pdf") primary), st')
    /\ merger st' = d ++ pages
    /\ Forall (fun t => exists_ t (disk st') = false) (temp_files st')
    /\ (~ In (PyStr.replace (py ".pdf") (py "_complet.pdf") primary)
             (temp_files st') ->
        read_file (PyStr.replace (py ".pdf") (py "_complet.pdf") primary)
                  (disk st') = Some (d ++ pages)).
Proof.
  intros Hpy Hread Hwrite.
  unfold _merge_with_attachments. rewrite Hpy. cbn [negb].
  unfold bind at 1. unfold modify at 1.
  unfold bind at 1. unfold merger_append at 1. unfold bind at 1. unfold gets at 1.
  cbn [disk]. rewrite Hread. unfold modify at 1. unfold bind at 1.
  match goal with |- context [for_attachments G atts ?s] =>
    destruct (for_attachments_inv G atts s)
      as (st1 & -> & [pages Hm] & (new & Ht & Hnew) & Hkeep) end.
  cbn [disk merger temp_files app] in *.
  unfold try_except, bind, write_merged, remove_temp_files, modify, ret.
  rewrite Hwrite. cbn [disk merger temp_files].
  eexists. exists pages. split; [reflexivity|]. cbn [disk merger temp_files].
  split; [exact Hm|]. split.
  - apply Forall_forall. intros t Hin. unfold exists_.
    now rewrite read_removed.
  - intros Hnin. rewrite read_kept by exact Hnin.
    unfold write_file. cbn [read_file]. now rewrite pystr_eqb_refl, Hm.
Qed.

Lemma merge_attachment_plain G att st :
  plain att = true ->
  merge_attachment G att st
  = (Val tt, mkMerge (disk st) (merger st ++ pages_of (disk st) att)
                     (temp_files st)).
Proof.
  unfold plain, pages_of, merge_attachment. intros Hplain.
  apply andb_prop in Hplain as [Hplain Htext].
  apply andb_prop in Hplain as [Hword Hexcel].
  apply negb_true_iff in Hword, Hexcel, Htext.
  unfold bind at 1. unfold gets at 1.
  destruct (read_file att (disk st)) as [d|] eqn:Hread.
  - rewrite Hword, Hexcel, Htext. cbn [andb].
    destruct (PyStr.eqb _ SUPPORTED_PDF_EXTENSION).
    + unfold try_except, merger_append, bind, gets, modify. now rewrite Hread.
    + rewrite app_nil_r.
      assert (Hsame : mkMerge (disk st) (merger st) (temp_files st) = st)
        by now destruct st.
      rewrite Hsame.
      now destruct (ext_in (PyStr.ascii_lower (splitext_ext att))
                      SUPPORTED_IMAGE_EXTENSIONS).
  - rewrite app_nil_r. now destruct st.
Qed.

(** X26.  Attachments that need no conversion are merged as they are:
    the loop appends the pages of every PDF that exists, in the order of
    the attachments, passes over the images, the unsupported and the
    missing files, and changes neither the disk nor the list of temporary
    files. *)
Theorem plain_attachments_in_order G atts : forall st,
  Forall (fun att => plain att = true) atts ->
  for_attachments G atts st
  = (Val tt, mkMerge (disk st) (merger st ++ flat_map (pages_of (disk st)) atts)
                     (temp_files st)).
Proof.
  induction atts as [|att rest IH]; intros st Hall; cbn [for_attachments flat_map].
  - destruct st. cbn. now rewrite app_nil_r.
  - apply Forall_cons_iff in Hall as [Hatt Hrest].
    unfold bind. rewrite (merge_attachment_plain G att st Hatt).
    rewrite (IH _ Hrest). cbn [disk merger temp_files]. now rewrite app_assoc.
Qed.

End MergeFacts.

Lemma failed_merge_leaves_temp_files_witness :
  exists st',
    _merge_with_attachments
      (Render.text_generator (OpenFails (OtherError (py "disk full"))))
      (py "out/ACME_20240105.pdf") [py "tmp/bon.pdf"; py "tmp/notes.txt"]
      Render.crowded_disk
    = (Val (py "out/ACME_20240105.pdf"), st')
    /\ Forall (fun t => Render.exists_ t (disk st') = true) (temp_files st')
    /\ Render.exists_ (py "out/ACME_20240105.pdf") (disk st') = true.
Proof.
  apply (failed_merge_leaves_temp_files
           (Render.text_generator (OpenFails (OtherError (py "disk full"))))
           (py "out/ACME_20240105.pdf") [py "tmp/bon.pdf"; py "tmp/notes.txt"]
           Render.crowded_disk [7]).
  - reflexivity.
  - reflexivity.
  - discriminate.
Defined.

Lemma merge_removes_temp_files_witness :
  exists st' pages,
    _merge_with_attachments (Render.text_generator Written)
      (py "out/ACME_20240105.pdf") [py "tmp/bon.pdf"; py "tmp/notes.txt"]
      Render.crowded_disk
    = (Val (PyStr.replace (py ".pdf") (py "_complet.pdf")
              (py "out/ACME_20240105.pdf")), st')
    /\ merger st' = [7] ++ pages
    /\ Forall (fun t => Render.exists_ t (disk st') = false) (temp_files st')
    /\ (~ In (PyStr.replace (py ".pdf") (py "_complet.pdf")
                (py "out/ACME_20240105.pdf")) (temp_files st') ->
        read_file (PyStr.replace (py ".pdf") (py "_complet.pdf")
                     (py "out/ACME_20240105.pdf")) (disk st')
        = Some ([7] ++ pages)).
Proof.
  apply (merge_removes_temp_files (Render.text_generator Written)
           (py "out/ACME_20240105.pdf") [py "tmp/bon.pdf"; py "tmp/notes.txt"]
           Render.crowded_disk [7]).
  - reflexivity.
  - reflexivity.
  - reflexivity.
Defined.

Lemma plain_attachments_in_order_witness :
  for_attachments (Inputs.plain_generator Written)
    [py "tmp/bon.pdf"; py "tmp/logo.png"; py "tmp/absent.pdf"] Render.crowded_disk
  = (Val tt,
     mkMerge (disk Render.crowded_disk)
       (merger Render.crowded_disk
        ++ flat_map (Render.pages_of (disk Render.crowded_disk))
             [py "tmp/bon.pdf"; py "tmp/logo.png"; py "tmp/absent.pdf"])
       (temp_files Render.crowded_disk)).
Proof.
  apply (plain_attachments_in_order (Inputs.plain_generator Written)
           [py "tmp/bon.pdf"; py "tmp/logo.png"; py "tmp/absent.pdf"]
           Render.crowded_disk).
  repeat constructor.
Defined.

(* --------------------------------------------------------------------- *)
(** ** The PDF of a message *)
(* --------------------------------------------------------------------- *)

Section RenderFacts.
Import Render.

Variables upper capitalize : pystr -> pystr.
Variable datetime : Type.
Variable now : datetime.
Variables strftime_ymd strftime_stamp : datetime -> pystr.

(** The merge ends with a path or an exception, and a path it answers is
    the primary one or the one with [.pdf] replaced. *)
Lemma merge_ends G primary atts st :
  exists o st',
    _merge_with_attachments G primary atts st = (o, st')
    /\ o <> Ret
    /\ (forall d, read_file primary (disk st) = Some d ->
          o = Val primary
          \/ o = Val (PyStr.replace (py ".pdf") (py "_complet.pdf") primary)).
Proof.
  unfold _merge_with_attachments.
  destruct (_has_pypdf2 G); cbn [negb].
  2: { do 2 eexists. split; [reflexivity|]. split; [discriminate|]. now left. }
  unfold bind at 1. unfold modify at 1.
  unfold bind at 1. unfold merger_append at 1. unfold bind at 1. unfold gets at 1.
  cbn [disk]. destruct (read_file primary (disk st)) as [d|].
  2: { do 2 eexists. split; [reflexivity|]. split; [discriminate|]. discriminate. }
  unfold modify at 1. unfold bind at 1.
  match goal with |- context [for_attachments G atts ?s] =>
    destruct (for_attachments_inv G atts s) as (st1 & -> & _) end.
  unfold try_except, bind, write_merged, remove_temp_files, modify, raise, ret.
  destruct (write_answer G); do 2 eexists; (split; [reflexivity|]);
    (split; [discriminate|]); intros d0 _; auto.
Qed.

Lemma read_after_remove t files : read_file t (remove_file t files) = None.
Proof.
  induction files as [|[p d] rest IH]; [reflexivity|].
  unfold remove_file in *. cbn [filter fst].
  destruct (PyStr.eqb p t) eqn:Heq; cbn [negb]; [exact IH|].
  cbn [read_file]. now rewrite Heq.
Qed.

(** X27.  [generate_email_pdf] raises nothing but [PDFGeneratorError]:
    without reportlab it raises at once and leaves the disk as it is, and
    an error of the rendering is wrapped with its message. *)
Theorem generate_email_pdf_errors R G sender sender_name subject body
  received_time atts st :
  exists o st',
    generate_email_pdf upper capitalize datetime now strftime_ymd
      strftime_stamp R G sender sender_name subject body received_time atts st = (o, st')
    /\ ((exists path, o = Val path) \/ (exists m, o = Exc (PDFGeneratorError m)))
    /\ (_has_reportlab datetime R = false ->
          o = Exc (PDFGeneratorError msg_reportlab) /\ st' = st)
    /\ (forall left_behind e,
          _has_reportlab datetime R = true ->
          build datetime R sender sender_name subject body received_time
          = BuildFails left_behind e ->
          o = Exc (PDFGeneratorError (msg_generate e))).
Proof.
  unfold generate_email_pdf.
  destruct (_has_reportlab datetime R); cbn [negb].
  2: { do 2 eexists. split; [reflexivity|]. split; [right; now eexists|].
       split; [now split | discriminate]. }
  unfold bind at 1. unfold gets at 1.
  set (path := match free_path _ _ _ _ _ _ with Some free => free | None => _ end).
  unfold try_except, _create_email_pdf.
  destruct (build datetime R sender sender_name subject body received_time)
    as [d | [d|] e].
  - unfold bind at 1. unfold bind at 1. unfold modify at 1. unfold ret at 1.
    destruct atts as [|att rest].
    + do 2 eexists. split; [reflexivity|]. split; [left; now eexists|].
      split; discriminate.
    + unfold bind at 1. unfold bind at 1.
      match goal with |- context [_merge_with_attachments G path ?a ?s] =>
        destruct (merge_ends G path a s) as (o & st1 & -> & Ho & _) end.
      destruct o as [q| |e]; [|congruence|].
      * destruct (negb (PyStr.eqb q path)); cbn;
          do 2 eexists; (split; [reflexivity|]); (split; [left; now eexists|]);
          split; discriminate.
      * do 2 eexists. split; [reflexivity|]. split; [right; now eexists|].
        split; discriminate.
  - do 2 eexists. split; [reflexivity|]. split; [right; now eexists|].
    split; [discriminate|]. intros l e0 _ H. now injection H as _ ->.
  - do 2 eexists. split; [reflexivity|]. split; [right; now eexists|].
    split; [discriminate|]. intros l e0 _ H. now injection H as _ ->.
Qed.

(** X28.  Without attachments, a message whose document is built gives
    one new file: the path returned was not on the disk, the document is
    written there, and every file of the disk is kept as it was. *)
Theorem generate_email_pdf_new_file R G sender sender_name subject body
  received_time st d :
  _has_reportlab datetime R = true ->
  build datetime R sender sender_name subject body received_time = Built d ->
  exists q,
    generate_email_pdf upper capitalize datetime now strftime_ymd
      strftime_stamp R G sender sender_name subject body received_time [] st
    = (Val q, mkMerge ((q, d) :: disk st) (merger st) (temp_files st))
    /\ exists_ q (disk st) = false.
Proof.
  intros Hlab Hbuild. unfold generate_email_pdf. rewrite Hlab. cbn [negb].
  unfold bind at 1. unfold gets at 1.
  match goal with
  | |- context [free_path (enough ?f) ?b ?e ?f ?p 1] =>
      destruct (free_path_found b e f p) as (q & -> & Hfree & _)
  end.
  unfold try_except, _create_email_pdf. rewrite Hbuild.
  exists q. split; [reflexivity | exact Hfree].
Qed.

(** X29.  With attachments, a message whose document is built always
    gets a path: the merge cannot make [generate_email_pdf] raise.  The
    path is the new file's or the one with [.pdf] replaced, and in the
    second case the new file itself is removed from the disk. *)
Theorem generate_email_pdf_with_attachments R G sender sender_name subject body
  received_time att rest st d :
  _has_reportlab datetime R = true ->
  build datetime R sender sender_name subject body received_time = Built d ->
  exists free q st',
    generate_email_pdf upper capitalize datetime now strftime_ymd
      strftime_stamp R G sender sender_name subject body received_time (att :: rest) st
    = (Val q, st')
    /\ exists_ free (disk st) = false
    /\ (q = free
        \/ (q = PyStr.replace (py ".pdf") (py "_complet.pdf") free
            /\ q <> free /\ exists_ free (disk st') = false)).
Proof.
  intros Hlab Hbuild. unfold generate_email_pdf. rewrite Hlab. cbn [negb].
  unfold bind at 1. unfold gets at 1.
  match goal with
  | |- context [free_path (enough ?f) ?b ?e ?f ?p 1] =>
      destruct (free_path_found b e f p) as (free & -> & Hfree & _)
  end.
  exists free.
  unfold try_except, _create_email_pdf. rewrite Hbuild.
  unfold bind at 1. unfold bind at 1. unfold modify at 1. unfold ret at 1.
  unfold bind at 1. unfold bind at 1.
  match goal with |- context [_merge_with_attachments G free ?a ?s] =>
    destruct (merge_ends G free a s) as (o & st1 & -> & Ho & Hpath) end.
  destruct (Hpath d) as [-> | ->].
  { unfold set_disk, write_file. cbn [disk read_file]. now rewrite pystr_eqb_refl. }
  - rewrite pystr_eqb_refl. cbn. do 2 eexists. split; [reflexivity|]. auto.
  - set (merged := PyStr.replace (py ".pdf") (py "_complet.pdf") free).
    destruct (PyStr.eqb merged free) eqn:Heq; cbn -[merged remove_file].
    + apply pystr_eqb_eq in Heq. do 2 eexists. split; [reflexivity|].
      split; [exact Hfree | now left].
    + do 2 eexists. split; [reflexivity|]. split; [exact Hfree|]. right.
      split; [reflexivity|]. split.
      * intros H. rewrite H, pystr_eqb_refl in Heq. discriminate Heq.
      * unfold exists_, set_disk. cbn [disk]. now rewrite read_after_remove.
Qed.

End RenderFacts.

Lemma generate_email_pdf_new_file_witness :
  exists q,
    Render.generate_email_pdf PyText.ascii_upper PyText.ascii_capitalize unit tt
      (fun _ => py "20240105") (fun _ => py "20240105_101500")
      Render.one_page (Render.text_generator Written)
      (py "compta@acme.fr") (py "ACME") [] (py "Bonjour") None []
      Render.crowded_disk
    = (Val q, mkMerge ((q, [1]) :: disk Render.crowded_disk)
                      (merger Render.crowded_disk)
                      (temp_files Render.crowded_disk))
    /\ Render.exists_ q (disk Render.crowded_disk) = false.
Proof.
  apply (generate_email_pdf_new_file PyText.ascii_upper PyText.ascii_capitalize
           unit tt (fun _ => py "20240105") (fun _ => py "20240105_101500")
           Render.one_page (Render.text_generator Written)
           (py "compta@acme.fr") (py "ACME") [] (py "Bonjour") None
           Render.crowded_disk [1]).
  - reflexivity.
  - reflexivity.
Defined.

Lemma generate_email_pdf_with_attachments_witness :
  exists free q st',
    Render.generate_email_pdf PyText.ascii_upper PyText.ascii_capitalize unit tt
      (fun _ => py "20240105") (fun _ => py "20240105_101500")
      Render.one_page (Render.text_generator Written)
      (py "compta@acme.fr") (py "ACME") [] (py "Bonjour") None
      (py "tmp/bon.pdf" :: [py "tmp/notes.txt"]) Render.crowded_disk
    = (Val q, st')
    /\ Render.exists_ free (disk Render.crowded_disk) = false
    /\ (q = free
        \/ (q = PyStr.replace (py ".pdf") (py "_complet.pdf") free
            /\ q <> free /\ Render.exists_ free (disk st') = false)).
Proof.
  apply (generate_email_pdf_with_attachments PyText.ascii_upper
           PyText.ascii_capitalize unit tt (fun _ => py "20240105")
           (fun _ => py "20240105_101500") Render.one_page
           (Render.text_generator Written) (py "compta@acme.fr") (py "ACME") []
           (py "Bonjour") None (py "tmp/bon.pdf") [py "tmp/notes.txt"]
           Render.crowded_disk [1]).
  - reflexivity.
  - reflexivity.
Defined.
